(** * Bluetooth passthrough (BTReal.cpp): a shallow embedding and its properties

    The development follows Source/Core/Core/IOS/USB/Bluetooth/BTReal.cpp:
    the sync-button state machine, the request handler [IOCtlV] with its
    one-shot latches and the key resynchronisation that precedes it, the
    transfer callbacks, the link-key store with its textual form, and
    [DoState]. *)

From Stdlib Require Import ZArith Lia.
From Stdlib.Strings Require Import Ascii String Byte.
From stdpp Require Import base tactics option functions list gmap strings sorting.

Local Open Scope Z_scope.

(** ** Machine integers and bytes *)

Definition u8_of_Z (z : Z) : byte :=
  default x00 (Byte.of_N (Z.to_N (z mod 256))).

Definition Z_of_u8 (b : byte) : Z := Z.of_N (Byte.to_N b).

Definition u16 (z : Z) : Z := z mod 65536.
Definition u32 (z : Z) : Z := z mod 4294967296.

(** Little-endian bytes of a 16-bit value, as a packed struct field holds
    it on the host. *)
Definition le16 (z : Z) : list byte :=
  [u8_of_Z (u16 z); u8_of_Z (u16 z / 256)].

Definition of_le16 (lo hi : byte) : Z := Z_of_u8 lo + 256 * Z_of_u8 hi.

(** [Common::swap16]. *)
Definition swap16 (z : Z) : Z :=
  Z.lor (Z.shiftl (Z.land z 255) 8) (Z.shiftr (u16 z) 8).

#[global] Instance byte_eq_dec : EqDecision byte.
Proof.
  intros a b. destruct (decide (Byte.to_N a = Byte.to_N b)) as [E|E].
  - left. apply (f_equal Byte.of_N) in E.
    rewrite !Byte.of_to_N in E. congruence.
  - right. intros ->. exact (E eq_refl).
Defined.

#[global] Instance byte_countable : Countable byte :=
  inj_countable Byte.to_N Byte.of_N Byte.of_to_N.

(** ** The missing headers (hci.h, BTBase.h, BTReal.h)

    The numeric constants the source names but does not define are the
    fields of [hci_h]; every definition below is parametric in them. So is
    the layout of [hci_read_buffer_size_rp], of which the source only shows
    the five fields it assigns: the bytes of the struct and their number
    are the header's. *)

Record hci_read_buffer_size_rp := mk_read_buffer_size_rp {
  status : Z;
  max_acl_size : Z;
  num_acl_pkts : Z;
  max_sco_size : Z;
  num_sco_pkts : Z
}.

Class hci_h := {
  HCI_CMD_RESET : Z;
  HCI_CMD_READ_BUFFER_SIZE : Z;
  HCI_CMD_DELETE_STORED_LINK_KEY : Z;
  HCI_CMD_WRITE_STORED_LINK_KEY : Z;
  HCI_EVENT_COMMAND_COMPL : Z;
  HCI_EVENT_LINK_KEY_NOTIFICATION : Z;
  HCI_EVENT_VENDOR : Z;
  HCI_EVENT : Z;
  ACL_PKT_SIZE : Z;
  ACL_PKT_NUM : Z;
  SCO_PKT_SIZE : Z;
  SCO_PKT_NUM : Z;
  SYNC_BUTTON_HOLD_MS_TO_RESET : Z;
  TIMEOUT : Z;
  sizeof_hci_read_buffer_size_rp : nat;
  pack_hci_read_buffer_size_rp : hci_read_buffer_size_rp -> list byte;
  pack_hci_read_buffer_size_rp_length :
    forall r, length (pack_hci_read_buffer_size_rp r) =
              sizeof_hci_read_buffer_size_rp
}.

(** Modelled from the spec: read-buffer-size reply parameters are a 1-byte
    status, 2-byte max ACL size, 1-byte number of ACL packets, 2-byte max
    SCO size and 1-byte number of SCO packets. *)
Definition pack_read_buffer_size_parameters (r : hci_read_buffer_size_rp)
    : list byte :=
  [u8_of_Z (status r)] ++ le16 (max_acl_size r) ++ [u8_of_Z (num_acl_pkts r)] ++
  le16 (max_sco_size r) ++ [u8_of_Z (num_sco_pkts r)].

(** One header to evaluate with: the command and event codes are those the
    Bluetooth HCI standard assigns, the hold time is the ten seconds of the
    spec, the buffer figures fit their fields, the reply parameters are laid
    out as the spec's wire framing has them. *)
Definition hci_std : hci_h := {|
  HCI_CMD_RESET := 0x0C03;
  HCI_CMD_READ_BUFFER_SIZE := 0x1005;
  HCI_CMD_DELETE_STORED_LINK_KEY := 0x0C12;
  HCI_CMD_WRITE_STORED_LINK_KEY := 0x0C11;
  HCI_EVENT_COMMAND_COMPL := 0x0E;
  HCI_EVENT_LINK_KEY_NOTIFICATION := 0x18;
  HCI_EVENT_VENDOR := 0xFF;
  HCI_EVENT := 0x81;
  ACL_PKT_SIZE := 339;
  ACL_PKT_NUM := 10;
  SCO_PKT_SIZE := 64;
  SCO_PKT_NUM := 0;
  SYNC_BUTTON_HOLD_MS_TO_RESET := 10000;
  TIMEOUT := 200;
  sizeof_hci_read_buffer_size_rp := 7;
  pack_hci_read_buffer_size_rp := pack_read_buffer_size_parameters;
  pack_hci_read_buffer_size_rp_length := fun _ => eq_refl
|}.

(** ** Data model *)

(** [btaddr_t] is [std::array<u8, 6>] and [linkkey_t] is
    [std::array<u8, 16>]: lists of bytes, their lengths kept by the
    operations that build them. *)
Abbreviation btaddr_t := (list byte) (only parsing).
Abbreviation linkkey_t := (list byte) (only parsing).

Inductive SyncButtonState :=
| Unpressed | Held | Pressed | LongPressed | Ignored.

#[global] Instance SyncButtonState_eq_dec : EqDecision SyncButtonState.
Proof. solve_decision. Defined.

(** The result of one blocking [libusb_interrupt_transfer] on the event
    endpoint: [None] for a non-zero return, [Some data] for the bytes
    received. *)
Abbreviation poll_result := (option (list byte)) (only parsing).

(** The object, the three file-level statics, guest memory, and what the
    adapter will answer to the blocking polls still to come. *)
Record BluetoothReal := mkBluetoothReal {
  m_is_wii_bt_module : bool;
  m_sync_button_state : SyncButtonState;
  m_sync_button_held_timer : Z;
  m_fake_read_buffer_size_reply : bool;
  m_fake_vendor_command_reply : bool;
  m_fake_vendor_command_reply_opcode : Z;
  s_link_keys : gmap (list byte) (list byte);
  s_need_reset_keys : bool;
  s_showed_failed_transfer : bool;
  Memory : Z -> byte;
  adapter_events : list (option (list byte))
}.

Definition set_sync_button_state (v : SyncButtonState) (s : BluetoothReal) :=
  mkBluetoothReal (m_is_wii_bt_module s) v (m_sync_button_held_timer s)
    (m_fake_read_buffer_size_reply s) (m_fake_vendor_command_reply s)
    (m_fake_vendor_command_reply_opcode s) (s_link_keys s)
    (s_need_reset_keys s) (s_showed_failed_transfer s) (Memory s)
    (adapter_events s).

Definition set_sync_button_held_timer (v : Z) (s : BluetoothReal) :=
  mkBluetoothReal (m_is_wii_bt_module s) (m_sync_button_state s) v
    (m_fake_read_buffer_size_reply s) (m_fake_vendor_command_reply s)
    (m_fake_vendor_command_reply_opcode s) (s_link_keys s)
    (s_need_reset_keys s) (s_showed_failed_transfer s) (Memory s)
    (adapter_events s).

Definition set_fake_read_buffer_size_reply (v : bool) (s : BluetoothReal) :=
  mkBluetoothReal (m_is_wii_bt_module s) (m_sync_button_state s)
    (m_sync_button_held_timer s) v (m_fake_vendor_command_reply s)
    (m_fake_vendor_command_reply_opcode s) (s_link_keys s)
    (s_need_reset_keys s) (s_showed_failed_transfer s) (Memory s)
    (adapter_events s).

Definition set_fake_vendor_command_reply (v : bool) (s : BluetoothReal) :=
  mkBluetoothReal (m_is_wii_bt_module s) (m_sync_button_state s)
    (m_sync_button_held_timer s) (m_fake_read_buffer_size_reply s) v
    (m_fake_vendor_command_reply_opcode s) (s_link_keys s)
    (s_need_reset_keys s) (s_showed_failed_transfer s) (Memory s)
    (adapter_events s).

Definition set_fake_vendor_command_reply_opcode (v : Z) (s : BluetoothReal) :=
  mkBluetoothReal (m_is_wii_bt_module s) (m_sync_button_state s)
    (m_sync_button_held_timer s) (m_fake_read_buffer_size_reply s)
    (m_fake_vendor_command_reply s) v (s_link_keys s)
    (s_need_reset_keys s) (s_showed_failed_transfer s) (Memory s)
    (adapter_events s).

Definition set_link_keys (v : gmap (list byte) (list byte)) (s : BluetoothReal) :=
  mkBluetoothReal (m_is_wii_bt_module s) (m_sync_button_state s)
    (m_sync_button_held_timer s) (m_fake_read_buffer_size_reply s)
    (m_fake_vendor_command_reply s) (m_fake_vendor_command_reply_opcode s) v
    (s_need_reset_keys s) (s_showed_failed_transfer s) (Memory s)
    (adapter_events s).

Definition set_need_reset_keys (v : bool) (s : BluetoothReal) :=
  mkBluetoothReal (m_is_wii_bt_module s) (m_sync_button_state s)
    (m_sync_button_held_timer s) (m_fake_read_buffer_size_reply s)
    (m_fake_vendor_command_reply s) (m_fake_vendor_command_reply_opcode s)
    (s_link_keys s) v (s_showed_failed_transfer s) (Memory s)
    (adapter_events s).

Definition set_showed_failed_transfer (v : bool) (s : BluetoothReal) :=
  mkBluetoothReal (m_is_wii_bt_module s) (m_sync_button_state s)
    (m_sync_button_held_timer s) (m_fake_read_buffer_size_reply s)
    (m_fake_vendor_command_reply s) (m_fake_vendor_command_reply_opcode s)
    (s_link_keys s) (s_need_reset_keys s) v (Memory s)
    (adapter_events s).

Definition set_Memory (v : Z -> byte) (s : BluetoothReal) :=
  mkBluetoothReal (m_is_wii_bt_module s) (m_sync_button_state s)
    (m_sync_button_held_timer s) (m_fake_read_buffer_size_reply s)
    (m_fake_vendor_command_reply s) (m_fake_vendor_command_reply_opcode s)
    (s_link_keys s) (s_need_reset_keys s) (s_showed_failed_transfer s) v
    (adapter_events s).

Definition set_adapter_events (v : list (option (list byte))) (s : BluetoothReal) :=
  mkBluetoothReal (m_is_wii_bt_module s) (m_sync_button_state s)
    (m_sync_button_held_timer s) (m_fake_read_buffer_size_reply s)
    (m_fake_vendor_command_reply s) (m_fake_vendor_command_reply_opcode s)
    (s_link_keys s) (s_need_reset_keys s) (s_showed_failed_transfer s)
    (Memory s) v.

(** ** The sync button *)

Section SyncButton.
Context `{hci_h}.

(** Modelled from the spec: Common::Timer is not under src/. The spec's
    samples carry one time each (held=true at t=0, held=true at t=11s):
    [Update] records the time of the sample and [GetTimeDifference] is
    the time of the current sample less the recorded one, in
    milliseconds. *)
Definition GetTimeDifference (now last : Z) : Z := now - last.

Definition UpdateSyncButtonState (is_held : bool) (now : Z)
    (s : BluetoothReal) : BluetoothReal :=
  let s1 :=
    if bool_decide (m_sync_button_state s = Unpressed) && is_held
    then set_sync_button_state Held (set_sync_button_held_timer now s)
    else s in
  let s2 :=
    if bool_decide (m_sync_button_state s1 = Held) && is_held &&
       (SYNC_BUTTON_HOLD_MS_TO_RESET <?
          GetTimeDifference now (m_sync_button_held_timer s1))
    then set_sync_button_state LongPressed s1
    else if bool_decide (m_sync_button_state s1 = Held) && negb is_held
    then set_sync_button_state Pressed s1
    else s1 in
  if bool_decide (m_sync_button_state s2 = Ignored) && negb is_held
  then set_sync_button_state Unpressed s2
  else s2.

Definition TriggerSyncButtonPressedEvent (s : BluetoothReal) :=
  set_sync_button_state Pressed s.

Definition TriggerSyncButtonHeldEvent (s : BluetoothReal) :=
  set_sync_button_state LongPressed s.

End SyncButton.

(** ** Requests, transfers and what the handlers do to the outside *)

(** Modelled from the spec: the message classes of Core/IOS/USB/Common are
    not under src/. A pending request is an opaque request handle, a request
    kind, a buffer descriptor in guest memory and a byte length; a control
    message also carries the four fields of the USB setup packet. *)
Record V0CtrlMessage := mkCtrl {
  cmd_ios_request : Z;
  cmd_request_type : Z;
  cmd_request : Z;
  cmd_value : Z;
  cmd_index : Z;
  cmd_length : Z;
  cmd_data_address : Z
}.

Record V0IntrMessage := mkIntr {
  ios_request : Z;
  data_address : Z;
  endpoint : Z;
  msg_length : Z
}.

(** [request.request], with the message built from the request; any other
    request code comes with the handle of its request. *)
Inductive IOCtlVRequest :=
| IOCTLV_USBV0_CTRLMSG (cmd : V0CtrlMessage)
| IOCTLV_USBV0_BLKMSG (buffer : V0IntrMessage)
| IOCTLV_USBV0_INTRMSG (buffer : V0IntrMessage)
| IOCTLV_other (request : Z) (handle : Z).

(** A transfer handed to [libusb_submit_transfer]: a control transfer owns
    its host buffer (setup packet, then payload) and its message; a bulk or
    interrupt transfer points into guest memory and owns its message. *)
Inductive libusb_transfer :=
| LIBUSB_TRANSFER_TYPE_CONTROL (buffer : list byte) (user_data : V0CtrlMessage)
| LIBUSB_TRANSFER_TYPE_BULK (user_data : V0IntrMessage)
| LIBUSB_TRANSFER_TYPE_INTERRUPT (user_data : V0IntrMessage).

Inductive libusb_transfer_status :=
| LIBUSB_TRANSFER_COMPLETED
| LIBUSB_TRANSFER_ERROR
| LIBUSB_TRANSFER_TIMED_OUT
| LIBUSB_TRANSFER_CANCELLED
| LIBUSB_TRANSFER_STALL
| LIBUSB_TRANSFER_NO_DEVICE
| LIBUSB_TRANSFER_OVERFLOW.

#[global] Instance libusb_transfer_status_eq_dec :
  EqDecision libusb_transfer_status.
Proof. solve_decision. Defined.

(** The calls that leave the core, in the order they are made. *)
Inductive effect :=
| libusb_control_transfer (packet : list byte)
| libusb_interrupt_transfer
| libusb_submit_transfer (transfer : libusb_transfer)
| EnqueueReply (request : Z) (return_value : Z)
| DisplayMessage (message : string)
| PanicAlertT (message : string).

(** The handler's result: the source only ever returns [GetNoReply], the
    result that sends nothing back now. *)
Inductive IPCCommandResult :=
| GetNoReply
| GetDefaultReply (return_value : Z).

(** ** A state, trace and undefined-behaviour monad

    A computation reads and writes the object, appends to the trace of
    outside calls, and is [Undefined] where the C++ has no defined meaning
    (a write past the end of an array or a vector). *)

Inductive outcome (A : Type) :=
| Done (a : A)
| Undefined.
Arguments Done {A} a.
Arguments Undefined {A}.

Definition M (A : Type) : Type :=
  BluetoothReal -> outcome (A * BluetoothReal * list effect).

Definition ret {A} (a : A) : M A := fun s => Done (a, s, []).

Definition bind {A B} (m : M A) (k : A -> M B) : M B :=
  fun s =>
    match m s with
    | Undefined => Undefined
    | Done (a, s1, t1) =>
        match k a s1 with
        | Undefined => Undefined
        | Done (b, s2, t2) => Done (b, s2, t1 ++ t2)
        end
    end.

Definition get : M BluetoothReal := fun s => Done (s, s, []).
Definition modify (f : BluetoothReal -> BluetoothReal) : M unit :=
  fun s => Done (tt, f s, []).
Definition emit (e : effect) : M unit := fun s => Done (tt, s, [e]).
Definition undefined {A} : M A := fun _ => Undefined.

Declare Scope M_scope.
Delimit Scope M_scope with M.
Notation "x <- m ;; k" := (bind m (fun x => k))
  (at level 100, m at next level, right associativity) : M_scope.
Notation "m ;;; k" := (bind m (fun _ => k))
  (at level 100, right associativity) : M_scope.
Local Open Scope M_scope.

(** ** Guest memory *)

(** Modelled from the spec: Core/HW/Memmap is not under src/. Guest memory
    is a store of bytes; a 16-bit read takes the byte at the address as the
    high one, so that [swap16] of it is the little-endian value of the first
    two bytes, which is how the spec reads the opcode. *)
Definition Read_U16 (mem : Z -> byte) (address : Z) : Z :=
  256 * Z_of_u8 (mem address) + Z_of_u8 (mem (address + 1)).

Definition CopyFromEmu (mem : Z -> byte) (address : Z) (size : nat) : list byte :=
  map (fun i => mem (address + Z.of_nat i)) (seq 0 size).

Fixpoint CopyToEmu (mem : Z -> byte) (address : Z) (data : list byte)
    : Z -> byte :=
  match data with
  | [] => mem
  | b :: data' => CopyToEmu (<[address := b]> mem) (address + 1) data'
  end.

(** ** Wire layouts *)

(** Modelled from the spec: hci.h and BTBase.h are not under src/. Command
    header: 2-byte opcode, 1-byte parameter length. Event header: 1-byte
    event code, 1-byte parameter length. A command-complete event continues
    with a 1-byte packet count and the 2-byte opcode, which makes the
    five bytes of [SHCIEventCommand]. Multi-byte fields are little-endian. *)
Definition sizeof_hci_cmd_hdr_t : nat := 3.
Definition sizeof_hci_event_hdr_t : nat := 2.
Definition sizeof_SHCIEventCommand : nat := 5.

Record SHCIEventCommand := mkSHCIEventCommand {
  EventType : byte;
  PayloadLength : byte;
  PacketIndicator : byte;
  Opcode : Z
}.

Definition pack_SHCIEventCommand (e : SHCIEventCommand) : list byte :=
  [EventType e; PayloadLength e; PacketIndicator e] ++ le16 (Opcode e).

Definition unpack_SHCIEventCommand (bs : list byte) : SHCIEventCommand :=
  mkSHCIEventCommand (nth 0 bs x00) (nth 1 bs x00) (nth 2 bs x00)
    (of_le16 (nth 3 bs x00) (nth 4 bs x00)).

(** Modelled from the spec: delete-stored-link-key parameters are a 6-byte
    address and a 1-byte delete-all flag. *)
Definition sizeof_hci_delete_stored_link_key_cp : nat := 7.

Record hci_delete_stored_link_key_cp := mk_delete_cp {
  bdaddr : list byte;
  delete_all : byte
}.

Definition unpack_hci_delete_stored_link_key_cp (bs : list byte) :=
  mk_delete_cp (take 6 bs) (nth 6 bs x00).

(** Modelled from the spec: write-stored-link-key parameters are a 1-byte
    count followed by count times a 6-byte address and a 16-byte key; the
    struct itself is the count byte, as the comment in
    [SendHCIStoreLinkKeyCommand] says. *)
Definition sizeof_hci_write_stored_link_key_cp : nat := 1.
Definition sizeof_btaddr_t : nat := 6.
Definition sizeof_linkkey_t : nat := 16.

(** [libusb_fill_control_setup]: the eight bytes of a USB setup packet. *)
Definition LIBUSB_CONTROL_SETUP_SIZE : nat := 8.

Definition libusb_fill_control_setup (bmRequestType bRequest wValue wIndex wLength : Z)
    : list byte :=
  [u8_of_Z bmRequestType; u8_of_Z bRequest] ++ le16 wValue ++ le16 wIndex ++
  le16 wLength.

Record hci_event_hdr_t := mk_event_hdr {
  event : byte;
  event_length : byte
}.

Definition pack_hci_event_hdr_t (h : hci_event_hdr_t) : list byte :=
  [event h; event_length h].

Definition unpack_hci_event_hdr_t (bs : list byte) : hci_event_hdr_t :=
  mk_event_hdr (nth 0 bs x00) (nth 1 bs x00).

(** ** The link-key store, [std::map<btaddr_t, linkkey_t>] *)

(** [operator<] of [std::array]: lexicographic on the unsigned bytes. *)
Fixpoint array_ltb (a b : list byte) : bool :=
  match a, b with
  | [], [] => false
  | [], _ :: _ => true
  | _ :: _, [] => false
  | x :: a', y :: b' =>
      if Z_of_u8 x <? Z_of_u8 y then true
      else if Z_of_u8 y <? Z_of_u8 x then false
      else array_ltb a' b'
  end.

Definition entry_le (p q : list byte * list byte) : Prop :=
  array_ltb q.1 p.1 = false.

#[global] Instance entry_le_dec : RelDecision entry_le.
Proof. intros p q. unfold entry_le. apply _. Defined.

(** Iteration over the map: its entries by ascending address. *)
Definition entries (keys : gmap (list byte) (list byte))
    : list (list byte * list byte) :=
  merge_sort entry_le (map_to_list keys).

(** [v[i..] = data] on a vector or array of fixed size; [None] where the
    write would run past the end. *)
Definition write_at (v : list byte) (i : nat) (data : list byte)
    : option (list byte) :=
  if decide (i + length data <= length v)%nat
  then Some (take i v ++ data ++ drop (i + length data) v)
  else None.

(** The loop of [SendHCIStoreLinkKeyCommand] that copies address then key
    of every entry through [iterator]. *)
Fixpoint copy_entries (es : list (list byte * list byte)) (iterator : nat)
    (packet : list byte) : option (list byte) :=
  match es with
  | [] => Some packet
  | e :: es' =>
      packet1 ← write_at packet iterator e.1;
      packet2 ← write_at packet1 (iterator + length e.1) e.2;
      copy_entries es' (iterator + length e.1 + length e.2) packet2
  end.

(** ** The device *)

Section Device.
Context `{hci_h}.

(** One blocking [libusb_interrupt_transfer] on the event endpoint: the
    adapter's next answer, a failure once it has no more to give. *)
Definition poll : M (option (list byte)) :=
  fun s =>
    match adapter_events s with
    | [] => Done (None, s, [libusb_interrupt_transfer])
    | r :: rest =>
        Done (r, set_adapter_events rest s, [libusb_interrupt_transfer])
    end.

(** The bytes received overwrite the front of the buffer. *)
Definition receive (buffer data : list byte) : list byte :=
  let data' := take (length buffer) data in
  data' ++ drop (length data') buffer.

Fixpoint WaitForHCICommandComplete_loop (tries : nat) (opcode : Z)
    (buffer : list byte) : M unit :=
  match tries with
  | O => ret tt
  | S tries' =>
      r <- poll ;;
      let buffer' := from_option (receive buffer) buffer r in
      if bool_decide (is_Some r) &&
         (Z_of_u8 (event (unpack_hci_event_hdr_t buffer')) =?
            HCI_EVENT_COMMAND_COMPL) &&
         (Opcode (unpack_SHCIEventCommand buffer') =? u16 opcode)
      then ret tt
      else WaitForHCICommandComplete_loop tries' opcode buffer'
  end.

Definition WaitForHCICommandComplete (opcode : Z) : M unit :=
  WaitForHCICommandComplete_loop 100 opcode (replicate 1024 x00).

Definition SendHCIResetCommand : M unit :=
  emit (libusb_control_transfer (le16 HCI_CMD_RESET ++ [x00])).

Definition SendHCIDeleteLinkKeyCommand : M unit :=
  let packet :=
    replicate (sizeof_hci_cmd_hdr_t + sizeof_hci_delete_stored_link_key_cp) x00 in
  let header :=
    le16 HCI_CMD_DELETE_STORED_LINK_KEY ++
    [u8_of_Z (Z.of_nat sizeof_hci_delete_stored_link_key_cp)] in
  let cmd := replicate 6 x00 ++ [x01] in
  match
    packet1 ← write_at packet 0 header;
    write_at packet1 sizeof_hci_cmd_hdr_t cmd
  with
  | Some packet' => emit (libusb_control_transfer packet')
  | None => undefined
  end.

(** [payload_size] is a [u8]: the sum is cut to eight bits, and so is the
    number of keys before it is multiplied. *)
Definition payload_size (n : nat) : Z :=
  (Z.of_nat sizeof_hci_write_stored_link_key_cp +
   Z.of_nat (sizeof_btaddr_t + sizeof_linkkey_t) * (Z.of_nat n mod 256))
  mod 256.

Definition store_link_key_packet (keys : gmap (list byte) (list byte))
    : option (list byte) :=
  let size := payload_size (size keys) in
  let packet := replicate (sizeof_hci_cmd_hdr_t + Z.to_nat size) x00 in
  packet1 ← write_at packet 0
              (le16 HCI_CMD_WRITE_STORED_LINK_KEY ++ [u8_of_Z size]);
  packet2 ← write_at packet1 sizeof_hci_cmd_hdr_t
              [u8_of_Z (Z.of_nat (base.size keys))];
  copy_entries (entries keys)
    (sizeof_hci_cmd_hdr_t + sizeof_hci_write_stored_link_key_cp) packet2.

Definition SendHCIStoreLinkKeyCommand : M bool :=
  s <- get ;;
  if decide (s_link_keys s = ∅) then ret false
  else
    match store_link_key_packet (s_link_keys s) with
    | Some packet => emit (libusb_control_transfer packet) ;;; ret true
    | None => undefined
    end.

(** *** The fake replies *)

Definition FakeVendorCommandReply (ctrl : V0IntrMessage) : M unit :=
  s <- get ;;
  let hci_event :=
    unpack_SHCIEventCommand
      (CopyFromEmu (Memory s) (data_address ctrl) sizeof_SHCIEventCommand) in
  let hci_event :=
    mkSHCIEventCommand
      (u8_of_Z HCI_EVENT_COMMAND_COMPL)
      (u8_of_Z (Z.of_nat sizeof_SHCIEventCommand - 2))
      x01
      (m_fake_vendor_command_reply_opcode s) in
  modify (set_Memory
            (CopyToEmu (Memory s) (data_address ctrl)
               (pack_SHCIEventCommand hci_event))) ;;;
  emit (EnqueueReply (ios_request ctrl) (Z.of_nat sizeof_SHCIEventCommand)).

Definition read_buffer_size_reply : hci_read_buffer_size_rp :=
  mk_read_buffer_size_rp 0 ACL_PKT_SIZE ACL_PKT_NUM SCO_PKT_SIZE SCO_PKT_NUM.

Definition FakeReadBufferSizeReply (ctrl : V0IntrMessage) : M unit :=
  s <- get ;;
  let hci_event :=
    unpack_SHCIEventCommand
      (CopyFromEmu (Memory s) (data_address ctrl) sizeof_SHCIEventCommand) in
  let hci_event :=
    mkSHCIEventCommand
      (u8_of_Z HCI_EVENT_COMMAND_COMPL)
      (u8_of_Z (Z.of_nat sizeof_SHCIEventCommand - 2 +
                Z.of_nat sizeof_hci_read_buffer_size_rp))
      x01
      (u16 HCI_CMD_READ_BUFFER_SIZE) in
  modify (set_Memory
            (CopyToEmu (Memory s) (data_address ctrl)
               (pack_SHCIEventCommand hci_event))) ;;;
  s1 <- get ;;
  modify (set_Memory
            (CopyToEmu (Memory s1)
               (u32 (data_address ctrl + Z.of_nat sizeof_SHCIEventCommand))
               (pack_hci_read_buffer_size_rp read_buffer_size_reply))) ;;;
  emit (EnqueueReply (ios_request ctrl)
          (Z.of_nat (sizeof_SHCIEventCommand + sizeof_hci_read_buffer_size_rp))).

Definition FakeSyncButtonEvent (ctrl : V0IntrMessage) (payload : list byte)
    (size : Z) : M unit :=
  s <- get ;;
  let hci_event :=
    unpack_hci_event_hdr_t
      (CopyFromEmu (Memory s) (data_address ctrl) sizeof_hci_event_hdr_t) in
  let hci_event := mk_event_hdr (u8_of_Z HCI_EVENT_VENDOR) (u8_of_Z size) in
  modify (set_Memory
            (CopyToEmu (Memory s) (data_address ctrl)
               (pack_hci_event_hdr_t hci_event))) ;;;
  s1 <- get ;;
  modify (set_Memory
            (CopyToEmu (Memory s1)
               (u32 (data_address ctrl + Z.of_nat sizeof_hci_event_hdr_t))
               (take (Z.to_nat size) payload))) ;;;
  emit (EnqueueReply (ios_request ctrl)
          (Z.of_nat sizeof_hci_event_hdr_t + size)).

Definition FakeSyncButtonPressedEvent (ctrl : V0IntrMessage) : M unit :=
  FakeSyncButtonEvent ctrl [x08] 1 ;;;
  modify (set_sync_button_state Ignored).

Definition FakeSyncButtonHeldEvent (ctrl : V0IntrMessage) : M unit :=
  FakeSyncButtonEvent ctrl [x09] 1 ;;;
  modify (set_sync_button_state Ignored).

(** *** [IOCtlV] *)

(** The first statement of [IOCtlV]: the keys are written back to an
    adapter that was reset, before anything else is transferred. *)
Definition IOCtlV_reset_keys : M unit :=
  s <- get ;;
  if negb (m_is_wii_bt_module s) && s_need_reset_keys s then
    modify (set_need_reset_keys false) ;;;
    SendHCIDeleteLinkKeyCommand ;;;
    WaitForHCICommandComplete HCI_CMD_DELETE_STORED_LINK_KEY ;;;
    sent <- SendHCIStoreLinkKeyCommand ;;
    if sent : bool then WaitForHCICommandComplete HCI_CMD_WRITE_STORED_LINK_KEY
    else ret tt
  else ret tt.

Definition cmd_opcode (mem : Z -> byte) (cmd : V0CtrlMessage) : Z :=
  swap16 (Read_U16 mem (cmd_data_address cmd)).

Definition IOCtlV_CTRLMSG (cmd : V0CtrlMessage) : M IPCCommandResult :=
  s <- get ;;
  let opcode := cmd_opcode (Memory s) cmd in
  if opcode =? HCI_CMD_READ_BUFFER_SIZE then
    modify (set_fake_read_buffer_size_reply true) ;;;
    ret GetNoReply
  else if negb (m_is_wii_bt_module s) &&
          ((opcode =? 0xFC4C) || (opcode =? 0xFC4F)) then
    modify (set_fake_vendor_command_reply true) ;;;
    modify (set_fake_vendor_command_reply_opcode opcode) ;;;
    ret GetNoReply
  else
    (if opcode =? HCI_CMD_DELETE_STORED_LINK_KEY then
       let delete_cmd :=
         unpack_hci_delete_stored_link_key_cp
           (CopyFromEmu (Memory s) (cmd_data_address cmd)
              sizeof_hci_delete_stored_link_key_cp) in
       if bool_decide (delete_all delete_cmd <> x00) then
         modify (set_link_keys ∅)
       else
         modify (fun s => set_link_keys (delete (bdaddr delete_cmd) (s_link_keys s)) s)
     else ret tt) ;;;
    let buffer :=
      libusb_fill_control_setup (cmd_request_type cmd) (cmd_request cmd)
        (cmd_value cmd) (cmd_index cmd) (cmd_length cmd) ++
      CopyFromEmu (Memory s) (cmd_data_address cmd) (Z.to_nat (cmd_length cmd)) in
    emit (libusb_submit_transfer (LIBUSB_TRANSFER_TYPE_CONTROL buffer cmd)) ;;;
    ret GetNoReply.

Definition submit_data_transfer (bulk : bool) (buffer : V0IntrMessage)
    : M IPCCommandResult :=
  emit (libusb_submit_transfer
          (if bulk then LIBUSB_TRANSFER_TYPE_BULK buffer
           else LIBUSB_TRANSFER_TYPE_INTERRUPT buffer)) ;;;
  ret GetNoReply.

Definition IOCtlV_INTRMSG (buffer : V0IntrMessage) : M IPCCommandResult :=
  s <- get ;;
  if bool_decide (m_sync_button_state s = Pressed) then
    emit (DisplayMessage "Scanning for Wii Remotes") ;;;
    FakeSyncButtonPressedEvent buffer ;;;
    ret GetNoReply
  else if bool_decide (m_sync_button_state s = LongPressed) then
    emit (DisplayMessage "Reset saved Wii Remote pairings") ;;;
    FakeSyncButtonHeldEvent buffer ;;;
    ret GetNoReply
  else if m_fake_read_buffer_size_reply s then
    modify (set_fake_read_buffer_size_reply false) ;;;
    FakeReadBufferSizeReply buffer ;;;
    ret GetNoReply
  else if m_fake_vendor_command_reply s then
    modify (set_fake_vendor_command_reply false) ;;;
    FakeVendorCommandReply buffer ;;;
    ret GetNoReply
  else submit_data_transfer false buffer.

(** The [switch] on [request.request]. *)
Definition IOCtlV_switch (request : IOCtlVRequest) : M IPCCommandResult :=
  match request with
  | IOCTLV_USBV0_CTRLMSG cmd => IOCtlV_CTRLMSG cmd
  | IOCTLV_USBV0_BLKMSG buffer => submit_data_transfer true buffer
  | IOCTLV_USBV0_INTRMSG buffer => IOCtlV_INTRMSG buffer
  | IOCTLV_other _ _ => ret GetNoReply
  end.

Definition IOCtlV (request : IOCtlVRequest) : M IPCCommandResult :=
  IOCtlV_reset_keys ;;; IOCtlV_switch request.

(** *** The completion callbacks *)

Definition note_transfer_status (failed : bool) (message : string) : M unit :=
  s <- get ;;
  if failed then
    if negb (s_showed_failed_transfer s) then
      emit (DisplayMessage message) ;;;
      emit (DisplayMessage "It may not be compatible with passthrough mode.") ;;;
      modify (set_showed_failed_transfer true)
    else ret tt
  else modify (set_showed_failed_transfer false).

(** [tr->buffer] is the host buffer of the control transfer as the
    transport left it; [FillBuffer] is modelled from the spec (Core/IOS/USB
    is not under src/): the adapter's response bytes are copied back to the
    guest buffer of the request. *)
Definition CommandCallback (buffer : list byte) (cmd : V0CtrlMessage)
    (tr_status : libusb_transfer_status) (actual_length : Z) : M unit :=
  note_transfer_status
    (bool_decide (tr_status <> LIBUSB_TRANSFER_COMPLETED) &&
     bool_decide (tr_status <> LIBUSB_TRANSFER_NO_DEVICE))
    "Failed to send a command to the Bluetooth adapter." ;;;
  s <- get ;;
  modify (set_Memory
            (CopyToEmu (Memory s) (cmd_data_address cmd)
               (take (Z.to_nat actual_length)
                  (drop LIBUSB_CONTROL_SETUP_SIZE buffer)))) ;;;
  emit (EnqueueReply (cmd_ios_request cmd) actual_length).

(** [tr->buffer] points into guest memory at the message's data address:
    the event is read from there. Modelled from the spec (hci.h is not under
    src/): the link-key notification parameters are a 6-byte address and a
    16-byte key; the command-complete parameters are a packet count and the
    2-byte opcode. *)
Definition TransferCallback (ctrl : V0IntrMessage)
    (tr_status : libusb_transfer_status) (actual_length : Z) : M unit :=
  note_transfer_status
    (bool_decide (tr_status <> LIBUSB_TRANSFER_COMPLETED) &&
     bool_decide (tr_status <> LIBUSB_TRANSFER_TIMED_OUT) &&
     bool_decide (tr_status <> LIBUSB_TRANSFER_NO_DEVICE))
    "Failed to transfer to or from to the Bluetooth adapter." ;;;
  s <- get ;;
  (if bool_decide (tr_status = LIBUSB_TRANSFER_COMPLETED) &&
      (endpoint ctrl =? HCI_EVENT) then
     let buffer := data_address ctrl in
     let event_code := Z_of_u8 (Memory s buffer) in
     if event_code =? HCI_EVENT_LINK_KEY_NOTIFICATION then
       let addr :=
         CopyFromEmu (Memory s) (buffer + Z.of_nat sizeof_hci_event_hdr_t)
           sizeof_btaddr_t in
       let key :=
         CopyFromEmu (Memory s)
           (buffer + Z.of_nat sizeof_hci_event_hdr_t + Z.of_nat sizeof_btaddr_t)
           sizeof_linkkey_t in
       modify (fun s => set_link_keys (<[addr := key]> (s_link_keys s)) s)
     else if (event_code =? HCI_EVENT_COMMAND_COMPL) &&
             (of_le16 (Memory s (buffer + 3)) (Memory s (buffer + 4)) =?
                HCI_CMD_RESET) then
       modify (set_need_reset_keys true)
     else ret tt
   else ret tt) ;;;
  emit (EnqueueReply (ios_request ctrl) actual_length).

End Device.

(** ** The textual form of the link-key store *)

Definition ascii_code (c : ascii) : Z := Z.of_N (N_of_ascii c).

Definition ascii_of_code (z : Z) : ascii := ascii_of_N (Z.to_N z).

(** The value of a hexadecimal digit of either case. *)
Definition hex_value (c : ascii) : option Z :=
  let n := ascii_code c in
  if (48 <=? n) && (n <=? 57) then Some (n - 48)
  else if (97 <=? n) && (n <=? 102) then Some (n - 97 + 10)
  else if (65 <=? n) && (n <=? 70) then Some (n - 65 + 10)
  else None.

Definition hex_digit (uppercase : bool) (d : Z) : ascii :=
  if d <? 10 then ascii_of_code (48 + d)
  else ascii_of_code ((if uppercase then 65 else 97) + d - 10).

(** Two hexadecimal digits, as [setfill('0') << setw(2)] under [std::hex]
    writes a value below 256, and as "%02x" would. *)
Definition hex2 (uppercase : bool) (b : byte) : string :=
  String (hex_digit uppercase (Z_of_u8 b / 16))
    (String (hex_digit uppercase (Z_of_u8 b mod 16)) EmptyString).

Fixpoint str_find (c : ascii) (s : string) : option nat :=
  match s with
  | EmptyString => None
  | String c' s' =>
      if decide (c' = c) then Some O else S <$> str_find c s'
  end.

(** [s.substr(0, n)] and [s.substr(n)]. *)
Fixpoint str_take (n : nat) (s : string) : string :=
  match n, s with
  | S n', String c s' => String c (str_take n' s')
  | _, _ => EmptyString
  end.

Fixpoint str_drop (n : nat) (s : string) : string :=
  match n, s with
  | S n', String _ s' => str_drop n' s'
  | _, _ => s
  end.

Fixpoint str_concat (l : list string) : string :=
  match l with
  | [] => EmptyString
  | s :: l' => s +:+ str_concat l'
  end.

(** [config_string.pop_back()]. *)
Fixpoint pop_back (s : string) : string :=
  match s with
  | EmptyString => EmptyString
  | String c EmptyString => EmptyString
  | String c s' => String c (pop_back s')
  end.

(** Modelled from the spec: SplitString of Common/StringUtil is not under
    src/. The text is a list of pairs separated by the delimiter. *)
Fixpoint SplitString (s : string) (delim : ascii) : list string :=
  match s with
  | EmptyString => [EmptyString]
  | String c s' =>
      if decide (c = delim) then EmptyString :: SplitString s' delim
      else
        match SplitString s' delim with
        | p :: ps => String c p :: ps
        | [] => [String c EmptyString]
        end
  end.

(** Modelled from the spec: MacAddressToString of Common/Network is not
    under src/. The display form of an address is its six bytes as two
    hexadecimal digits each, separated by colons (AA:BB:CC:DD:EE:FF); the
    case of the digits is left to [uppercase]. *)
Definition MacAddressToString (uppercase : bool) (mac : list byte) : string :=
  hex2 uppercase (nth 0 mac x00) +:+ ":" +:+
  hex2 uppercase (nth 1 mac x00) +:+ ":" +:+
  hex2 uppercase (nth 2 mac x00) +:+ ":" +:+
  hex2 uppercase (nth 3 mac x00) +:+ ":" +:+
  hex2 uppercase (nth 4 mac x00) +:+ ":" +:+
  hex2 uppercase (nth 5 mac x00).

(** Modelled from the spec: StringToMacAddress of Common/Network is not
    under src/. The address is parsed from a colon- or hyphen-delimited
    hexadecimal form: the hexadecimal digits fill the six bytes of [mac],
    high half first, and the characters between them are passed over. Bytes
    the text does not reach keep what [mac] held. *)
Fixpoint StringToMacAddress (mac_string : string) (x : nat) (mac : list byte)
    : list byte :=
  match mac_string with
  | EmptyString => mac
  | String c rest =>
      if (12 <=? x)%nat then mac
      else
        match hex_value c with
        | Some d =>
            let old := Z_of_u8 (nth (x / 2) mac x00) in
            let new := if Nat.even x then 16 * d else old / 16 * 16 + d in
            StringToMacAddress rest (S x) (<[(x / 2)%nat := u8_of_Z new]> mac)
        | None => StringToMacAddress rest x mac
        end
  end.

(** *** [std::stringstream(chunk) >> std::hex >> value] *)

Definition is_space (c : ascii) : bool :=
  let n := ascii_code c in (n =? 32) || ((9 <=? n) && (n <=? 13)).

Fixpoint skipws (s : string) : string :=
  match s with
  | String c s' => if is_space c then skipws s' else s
  | EmptyString => EmptyString
  end.

(** The leading hexadecimal digits of [s], accumulated; [None] when there
    is none. *)
Fixpoint hex_digits (s : string) (acc : option Z) : option Z :=
  match s with
  | EmptyString => acc
  | String c s' =>
      match hex_value c with
      | Some d => hex_digits s' (Some (16 * default 0 acc + d))
      | None => acc
      end
  end.

(** The value the extraction leaves in [value], for a chunk of at most two
    characters (no overflow): [None] when the stream is at its end once
    white space is skipped, so that nothing is written; zero, written with
    the failure, when no digit follows the optional sign and the optional
    0x; the signed number otherwise. *)
Definition extract_hex (chunk : string) : option Z :=
  match skipws chunk with
  | EmptyString => None
  | String c rest =>
      let '(negative, s1) :=
        if decide (c = "-"%char) then (true, rest)
        else if decide (c = "+"%char) then (false, rest)
        else (false, String c rest) in
      let s2 :=
        match s1 with
        | String "0"%char (String x s') =>
            if decide (x = "x"%char \/ x = "X"%char) then s' else s1
        | _ => s1
        end in
      match hex_digits s2 None with
      | None => Some 0
      | Some v => Some (if negative : bool then - v else v)
      end
  end.

(** What the uninitialised locals of one round of the loop of
    [LoadLinkKeys] hold: [btaddr_t address], [linkkey_t key] and, for each
    chunk, [int value]. *)
Record uninitialized := mk_uninitialized {
  uninitialized_address : list byte;
  uninitialized_key : list byte;
  uninitialized_value : nat -> Z
}.

(** [key[pos] = value] on a [std::array]: undefined past its end. *)
Definition array_set (a : list byte) (pos : nat) (v : byte) : option (list byte) :=
  if decide (pos < length a)%nat then Some (<[pos := v]> a) else None.

(** The inner loop of [LoadLinkKeys], two characters a round. *)
Fixpoint decode_key (key_string : string) (pos : nat) (key : list byte)
    (value : nat -> Z) : option (list byte) :=
  match key_string with
  | EmptyString => Some key
  | String c1 EmptyString =>
      array_set key pos
        (u8_of_Z (default (value pos) (extract_hex (String c1 EmptyString))))
  | String c1 (String c2 rest) =>
      key' ← array_set key pos
               (u8_of_Z (default (value pos)
                   (extract_hex (String c1 (String c2 EmptyString)))));
      decode_key rest (S pos) key' value
  end.

Definition LoadLinkKeys_pair (u : uninitialized) (pair' : string)
    (keys : gmap (list byte) (list byte))
    : option (gmap (list byte) (list byte)) :=
  match str_find "="%char pair' with
  | None => Some keys
  | Some index =>
      let address :=
        StringToMacAddress (str_take index pair') 0 (uninitialized_address u) in
      let address := reverse address in
      let key_string := str_drop (index + 1) pair' in
      key ← decode_key key_string 0 (uninitialized_key u) (uninitialized_value u);
      Some (<[address := key]> keys)
  end.

Fixpoint LoadLinkKeys_pairs (u : nat -> uninitialized) (round : nat)
    (pairs : list string) (keys : gmap (list byte) (list byte))
    : option (gmap (list byte) (list byte)) :=
  match pairs with
  | [] => Some keys
  | pair' :: pairs' =>
      keys' ← LoadLinkKeys_pair (u round) pair' keys;
      LoadLinkKeys_pairs u (S round) pairs' keys'
  end.

(** [entries] is the configuration value [m_bt_passthrough_link_keys];
    the result is [s_link_keys], [None] where the behaviour is undefined. *)
Definition LoadLinkKeys (u : nat -> uninitialized) (entries : string)
    (keys : gmap (list byte) (list byte))
    : option (gmap (list byte) (list byte)) :=
  if decide (entries = EmptyString) then Some keys
  else LoadLinkKeys_pairs u 0 (SplitString entries ","%char) keys.

Definition SaveLinkKeys_entry (uppercase : bool) (entry : list byte * list byte)
    : string :=
  MacAddressToString uppercase (reverse entry.1) +:+ "=" +:+
  str_concat (hex2 false <$> entry.2) +:+ ",".

(** The result is the configuration value [m_bt_passthrough_link_keys]. *)
Definition SaveLinkKeys (uppercase : bool) (keys : gmap (list byte) (list byte))
    : string :=
  pop_back (str_concat (SaveLinkKeys_entry uppercase <$> entries keys)).

(** The three mutations of the store, as the callbacks and [IOCtlV] make
    them. *)
Definition Upsert (addr key : list byte) (keys : gmap (list byte) (list byte)) :=
  <[addr := key]> keys.
Definition Delete (addr : list byte) (keys : gmap (list byte) (list byte)) :=
  delete addr keys.
Definition DeleteAll (keys : gmap (list byte) (list byte))
    : gmap (list byte) (list byte) := ∅.

Inductive reachable : gmap (list byte) (list byte) -> Prop :=
| reachable_empty : reachable ∅
| reachable_Upsert keys addr key :
    reachable keys ->
    length addr = sizeof_btaddr_t -> length key = sizeof_linkkey_t ->
    reachable (Upsert addr key keys)
| reachable_Delete keys addr :
    reachable keys -> reachable (Delete addr keys)
| reachable_DeleteAll keys :
    reachable keys -> reachable (DeleteAll keys).

(** ** Saved states *)

Inductive PointerWrap_Mode :=
| MODE_READ | MODE_WRITE | MODE_MEASURE | MODE_VERIFY.

#[global] Instance PointerWrap_Mode_eq_dec : EqDecision PointerWrap_Mode.
Proof. solve_decision. Defined.

(** Modelled from the spec: PointerWrap of Common/ChunkFile is not under
    src/. Execution state is saved and loaded through it: a cursor over the
    bytes of the state and a mode. [Do] puts the variable into the state
    when saving, takes it from the state when loading, and in the two other
    modes only moves past it. *)
Record PointerWrap := mkPointerWrap {
  ptr : list byte;
  mode : PointerWrap_Mode
}.

Definition GetMode (p : PointerWrap) : PointerWrap_Mode := mode p.
Definition SetMode (m : PointerWrap_Mode) (p : PointerWrap) : PointerWrap :=
  mkPointerWrap (ptr p) m.

Definition Do (x : bool) (p : PointerWrap) : bool * PointerWrap :=
  match mode p with
  | MODE_READ =>
      (from_option (fun b => bool_decide (b <> x00)) x (head (ptr p)),
       mkPointerWrap (tail (ptr p)) MODE_READ)
  | MODE_WRITE =>
      (x, mkPointerWrap (ptr p ++ [if x then x01 else x00]) MODE_WRITE)
  | MODE_MEASURE => (x, p)
  | MODE_VERIFY => (x, mkPointerWrap (tail (ptr p)) MODE_VERIFY)
  end.

Definition DoState (p : PointerWrap) : M PointerWrap :=
  let passthrough_bluetooth := true in
  let '(passthrough_bluetooth, p) := Do passthrough_bluetooth p in
  (if bool_decide (GetMode p = MODE_READ) then
     emit (PanicAlertT
             "Attempted to load a state. Bluetooth will likely be broken now.")
   else ret tt) ;;;
  if negb passthrough_bluetooth && bool_decide (GetMode p = MODE_READ) then
    emit (DisplayMessage
            "State needs Bluetooth passthrough to be disabled. Aborting load.") ;;;
    ret (SetMode MODE_VERIFY p)
  else ret p.

(** ** Runs of the device *)

(** What can happen to the object: the guest's requests, the completions
    the transfer thread delivers, the samples of the sync button, and the
    stores into guest memory made by the guest or by the transport when a
    transfer into guest memory fills its buffer. *)
Inductive call :=
| call_IOCtlV (request : IOCtlVRequest)
| call_CommandCallback (buffer : list byte) (cmd : V0CtrlMessage)
    (tr_status : libusb_transfer_status) (actual_length : Z)
| call_TransferCallback (ctrl : V0IntrMessage)
    (tr_status : libusb_transfer_status) (actual_length : Z)
| call_UpdateSyncButtonState (is_held : bool) (now : Z)
| call_TriggerSyncButtonPressedEvent
| call_TriggerSyncButtonHeldEvent
| call_DoState (p : PointerWrap)
| memory_store (address : Z) (data : list byte).

Section Runs.
Context `{hci_h}.

Definition exec (c : call) : M unit :=
  match c with
  | call_IOCtlV request => IOCtlV request ;;; ret tt
  | call_CommandCallback buffer cmd tr_status actual_length =>
      CommandCallback buffer cmd tr_status actual_length
  | call_TransferCallback ctrl tr_status actual_length =>
      TransferCallback ctrl tr_status actual_length
  | call_UpdateSyncButtonState is_held now =>
      modify (UpdateSyncButtonState is_held now)
  | call_TriggerSyncButtonPressedEvent => modify TriggerSyncButtonPressedEvent
  | call_TriggerSyncButtonHeldEvent => modify TriggerSyncButtonHeldEvent
  | call_DoState p => DoState p ;;; ret tt
  | memory_store address data =>
      modify (fun s => set_Memory (CopyToEmu (Memory s) address data) s)
  end.

Fixpoint run (cs : list call) : M unit :=
  match cs with
  | [] => ret tt
  | c :: cs' => exec c ;;; run cs'
  end.

End Runs.

(** The object as its constructor and [Open] leave it, over a given guest
    memory, adapter and store. *)
Definition opened (is_wii_bt_module : bool) (mem : Z -> byte)
    (answers : list (option (list byte)))
    (keys : gmap (list byte) (list byte)) : BluetoothReal :=
  mkBluetoothReal is_wii_bt_module Unpressed 0 false false 0 keys false false
    mem answers.

(** A device to evaluate with: a third-party adapter, empty guest memory,
    an adapter that answers no poll, no keys. *)
Definition example_memory : Z -> byte := fun _ => x00.
Definition example_device : BluetoothReal :=
  opened false example_memory [] ∅.

(** The replies, and the transfers submitted, that carry a given request
    handle. *)
Definition transfer_request (tr : libusb_transfer) : Z :=
  match tr with
  | LIBUSB_TRANSFER_TYPE_CONTROL _ cmd => cmd_ios_request cmd
  | LIBUSB_TRANSFER_TYPE_BULK m => ios_request m
  | LIBUSB_TRANSFER_TYPE_INTERRUPT m => ios_request m
  end.

Definition is_reply_to (h : Z) (e : effect) : bool :=
  match e with
  | EnqueueReply r _ => bool_decide (r = h)
  | _ => false
  end.

Definition is_submit_for (h : Z) (e : effect) : bool :=
  match e with
  | libusb_submit_transfer tr => bool_decide (transfer_request tr = h)
  | _ => false
  end.

Definition is_submit (e : effect) : bool :=
  match e with
  | libusb_submit_transfer _ => true
  | _ => false
  end.

Definition request_handle (request : IOCtlVRequest) : Z :=
  match request with
  | IOCTLV_USBV0_CTRLMSG cmd => cmd_ios_request cmd
  | IOCTLV_USBV0_BLKMSG m => ios_request m
  | IOCTLV_USBV0_INTRMSG m => ios_request m
  | IOCTLV_other _ h => h
  end.

Definition trace_of {A} (o : outcome (A * BluetoothReal * list effect))
    : list effect :=
  match o with
  | Done (_, _, t) => t
  | Undefined => []
  end.

Definition state_of {A} (o : outcome (A * BluetoothReal * list effect))
    (d : BluetoothReal) : BluetoothReal :=
  match o with
  | Done (_, s, _) => s
  | Undefined => d
  end.

(** * Properties *)

(** ** Bytes and integers *)

Lemma Z_of_u8_range b : 0 <= Z_of_u8 b < 256.
Proof.
  unfold Z_of_u8. pose proof (Byte.to_N_bounded b) as Hb.
  split; [apply N2Z.is_nonneg|].
  apply N2Z.inj_le in Hb. change (Z.of_N 255) with 255 in Hb. lia.
Qed.

Lemma u8_of_Z_of_u8 b : u8_of_Z (Z_of_u8 b) = b.
Proof.
  unfold u8_of_Z. rewrite Z.mod_small by apply Z_of_u8_range.
  unfold Z_of_u8. rewrite N2Z.id, Byte.of_to_N. reflexivity.
Qed.

Lemma Z_of_u8_of_Z z : Z_of_u8 (u8_of_Z z) = z mod 256.
Proof.
  unfold u8_of_Z, Z_of_u8.
  assert (Hr : 0 <= z mod 256 < 256) by (apply Z.mod_pos_bound; lia).
  destruct (Byte.of_N (Z.to_N (z mod 256))) as [b|] eqn:E.
  - apply Byte.to_of_N in E. simpl. rewrite E. apply Z2N.id. lia.
  - exfalso.
    pose proof (Byte.to_of_N_option_map (Z.to_N (z mod 256))) as Ho.
    rewrite E in Ho. simpl in Ho.
    destruct (N.leb_spec (Z.to_N (z mod 256)) 255) as [_|Hlt]; [discriminate|].
    lia.
Qed.

Lemma land_shifted_byte x y : 0 <= x < 256 -> Z.land (y * 2 ^ 8) x = 0.
Proof.
  intros Hx. apply Z.bits_inj'. intros n Hn.
  rewrite Z.land_spec, Z.bits_0.
  destruct (Z.lt_ge_cases n 8).
  - rewrite Z.mul_pow2_bits_low by lia. reflexivity.
  - destruct (Z.eq_dec x 0) as [->|Hx0].
    + rewrite Z.bits_0. apply andb_false_r.
    + rewrite (Z.bits_above_log2 x n); [apply andb_false_r|lia|].
      apply Z.lt_le_trans with 8; [|lia].
      apply Z.log2_lt_pow2; lia.
Qed.

Lemma swap16_Read_U16 mem a :
  swap16 (Read_U16 mem a) = of_le16 (mem a) (mem (a + 1)).
Proof.
  unfold swap16, Read_U16, of_le16, u16.
  pose proof (Z_of_u8_range (mem a)) as Ha.
  pose proof (Z_of_u8_range (mem (a + 1))) as Hb.
  set (x := Z_of_u8 (mem a)) in *. set (y := Z_of_u8 (mem (a + 1))) in *.
  change 255 with (Z.ones 8). rewrite Z.land_ones by lia.
  rewrite Z.shiftl_mul_pow2, Z.shiftr_div_pow2 by lia.
  replace ((256 * x + y) mod 2 ^ 8) with y
    by (change (2 ^ 8) with 256;
        rewrite Z.add_comm, Z.mul_comm, Z_mod_plus_full, Z.mod_small; lia).
  rewrite (Z.mod_small (256 * x + y)) by lia.
  replace ((256 * x + y) / 2 ^ 8) with x
    by (change (2 ^ 8) with 256;
        rewrite Z.add_comm, Z.mul_comm, Z_div_plus_full, Z.div_small; lia).
  pose proof (Z.add_lor_land (y * 2 ^ 8) x) as Hadd.
  rewrite land_shifted_byte in Hadd by lia. lia.
Qed.

(** ** The monad *)

Lemma bind_Done {A B} (m : M A) (k : A -> M B) s a s1 t1 :
  m s = Done (a, s1, t1) ->
  bind m k s =
    match k a s1 with
    | Done (b, s2, t2) => Done (b, s2, t1 ++ t2)
    | Undefined => Undefined
    end.
Proof. intros E. unfold bind. rewrite E. reflexivity. Qed.

Lemma bind_Undefined {A B} (m : M A) (k : A -> M B) s :
  m s = Undefined -> bind m k s = Undefined.
Proof. intros E. unfold bind. rewrite E. reflexivity. Qed.

Lemma bind_Done_inv {A B} (m : M A) (k : A -> M B) s b s2 t :
  bind m k s = Done (b, s2, t) ->
  exists a s1 t1 t2,
    m s = Done (a, s1, t1) /\ k a s1 = Done (b, s2, t2) /\ t = t1 ++ t2.
Proof.
  unfold bind. destruct (m s) as [[[a s1] t1]|] eqn:Em; [|discriminate].
  destruct (k a s1) as [[[b' s2'] t2]|] eqn:Ek; [|discriminate].
  intros [= -> -> <-]. exists a, s1, t1, t2. auto.
Qed.

Lemma bind_ret {A B} (a : A) (k : A -> M B) s : bind (ret a) k s = k a s.
Proof. unfold bind, ret. destruct (k a s) as [[[b s2] t2]|]; reflexivity. Qed.

Lemma bind_get {B} (k : BluetoothReal -> M B) s : bind get k s = k s s.
Proof. unfold bind, get. destruct (k s s) as [[[b s2] t2]|]; reflexivity. Qed.

Lemma bind_modify {B} f (k : unit -> M B) s :
  bind (modify f) k s = k tt (f s).
Proof.
  unfold bind, modify. destruct (k tt (f s)) as [[[b s2] t2]|]; reflexivity.
Qed.

Lemma bind_emit {B} e (k : unit -> M B) s :
  bind (emit e) k s =
    match k tt s with
    | Done (b, s2, t2) => Done (b, s2, e :: t2)
    | Undefined => Undefined
    end.
Proof. reflexivity. Qed.

Lemma bind_assoc {A B C} (m : M A) (k : A -> M B) (k' : B -> M C) s :
  bind (bind m k) k' s = bind m (fun a => bind (k a) k') s.
Proof.
  unfold bind. destruct (m s) as [[[a s1] t1]|]; [|reflexivity].
  destruct (k a s1) as [[[b s2] t2]|]; [|reflexivity].
  destruct (k' b s2) as [[[c s3] t3]|]; [|reflexivity].
  rewrite app_assoc. reflexivity.
Qed.

Create Rewrite HintDb monad.
#[global] Hint Rewrite @bind_ret @bind_get @bind_modify @bind_emit : monad.

Ltac msimpl := repeat (autorewrite with monad; cbv beta iota).

Lemma set_adapter_events_same s : set_adapter_events (adapter_events s) s = s.
Proof. destruct s; reflexivity. Qed.

Lemma set_adapter_events_twice e1 e2 s :
  set_adapter_events e2 (set_adapter_events e1 s) = set_adapter_events e2 s.
Proof. reflexivity. Qed.

(** ** The bounded wait and the key resynchronisation *)

Section Resync.
Context `{hci_h}.

(** The wait makes at most [tries] polls, consumes as many answers of the
    adapter, and touches nothing else. *)
Lemma WaitForHCICommandComplete_loop_spec tries opcode buffer s :
  exists k, (k <= tries)%nat /\
    WaitForHCICommandComplete_loop tries opcode buffer s =
      Done (tt, set_adapter_events (drop k (adapter_events s)) s,
            replicate k libusb_interrupt_transfer).
Proof.
  revert buffer s. induction tries as [|n IH]; intros buffer s.
  - exists O. split; [lia|]. simpl. unfold ret.
    rewrite drop_0, set_adapter_events_same. reflexivity.
  - simpl. destruct (adapter_events s) as [|r rest] eqn:Ev.
    + destruct (IH buffer s) as (k & Hk & E).
      exists (S k). split; [lia|].
      rewrite (bind_Done _ _ s None s [libusb_interrupt_transfer])
        by (unfold poll; rewrite Ev; reflexivity).
      simpl. rewrite E, Ev, drop_nil. reflexivity.
    + rewrite (bind_Done _ _ s r (set_adapter_events rest s)
                 [libusb_interrupt_transfer])
        by (unfold poll; rewrite Ev; reflexivity).
      match goal with |- context [if ?c then _ else _] => destruct c end.
      * exists 1%nat. split; [lia|]. reflexivity.
      * destruct (IH (from_option (receive buffer) buffer r)
                    (set_adapter_events rest s)) as (k & Hk & E).
        exists (S k). split; [lia|]. rewrite E. reflexivity.
Qed.

Lemma WaitForHCICommandComplete_spec opcode s :
  exists k, (k <= 100)%nat /\
    WaitForHCICommandComplete opcode s =
      Done (tt, set_adapter_events (drop k (adapter_events s)) s,
            replicate k libusb_interrupt_transfer).
Proof. apply WaitForHCICommandComplete_loop_spec. Qed.

(** The delete-all command: header with the opcode and the length 7, an
    all-zero address, the delete-all flag set. *)
Definition delete_all_packet : list byte :=
  le16 HCI_CMD_DELETE_STORED_LINK_KEY ++ [x07] ++ replicate 6 x00 ++ [x01].

Lemma SendHCIDeleteLinkKeyCommand_spec s :
  SendHCIDeleteLinkKeyCommand s =
    Done (tt, s, [libusb_control_transfer delete_all_packet]).
Proof. reflexivity. Qed.

Lemma IOCtlV_reset_keys_idle s :
  m_is_wii_bt_module s = true \/ s_need_reset_keys s = false ->
  IOCtlV_reset_keys s = Done (tt, s, []).
Proof.
  intros Hs. unfold IOCtlV_reset_keys, bind, get.
  destruct Hs as [-> | ->]; [reflexivity|].
  rewrite andb_false_r. reflexivity.
Qed.

(** What the resynchronisation does when it runs: the two commands, each
    followed by at most a hundred polls; undefined where the packet of the
    second cannot be built. *)
Lemma IOCtlV_reset_keys_run s :
  m_is_wii_bt_module s = false -> s_need_reset_keys s = true ->
  match (if decide (s_link_keys s = ∅) then Some None
         else Some <$> store_link_key_packet (s_link_keys s)) with
  | None => IOCtlV_reset_keys s = Undefined
  | Some sent =>
      exists k1 k2, (k1 <= 100)%nat /\ (k2 <= 100)%nat /\
        (sent = None -> k2 = O) /\
        IOCtlV_reset_keys s =
          Done (tt,
                set_adapter_events (drop (k1 + k2) (adapter_events s))
                  (set_need_reset_keys false s),
                [libusb_control_transfer delete_all_packet] ++
                replicate k1 libusb_interrupt_transfer ++
                from_option (fun packet => [libusb_control_transfer packet]) [] sent ++
                replicate k2 libusb_interrupt_transfer)
  end.
Proof.
  intros Hw Hn.
  set (s1 := set_need_reset_keys false s).
  destruct (WaitForHCICommandComplete_spec HCI_CMD_DELETE_STORED_LINK_KEY s1)
    as (k1 & Hk1 & E1).
  set (s2 := set_adapter_events (drop k1 (adapter_events s1)) s1) in *.
  assert (Hhead : forall k : M unit,
    IOCtlV_reset_keys s =
      match (sent <- SendHCIStoreLinkKeyCommand ;;
             if sent : bool
             then WaitForHCICommandComplete HCI_CMD_WRITE_STORED_LINK_KEY
             else ret tt) s2 with
      | Done (b, s3, t3) =>
          Done (b, s3, [libusb_control_transfer delete_all_packet] ++
                       replicate k1 libusb_interrupt_transfer ++ t3)
      | Undefined => Undefined
      end).
  { intros _. unfold IOCtlV_reset_keys.
    rewrite bind_get, Hw, Hn. cbn [negb andb]. rewrite bind_modify.
    fold s1.
    rewrite (bind_Done _ _ s1 tt s1 [libusb_control_transfer delete_all_packet])
      by apply SendHCIDeleteLinkKeyCommand_spec.
    rewrite (bind_Done _ _ s1 tt s2 _ E1).
    destruct ((sent <- SendHCIStoreLinkKeyCommand ;;
               if sent : bool
               then WaitForHCICommandComplete HCI_CMD_WRITE_STORED_LINK_KEY
               else ret tt) s2) as [[[b s3] t3]|]; reflexivity. }
  specialize (Hhead (ret tt)).
  assert (Hkeys : s_link_keys s2 = s_link_keys s) by reflexivity.
  destruct (decide (s_link_keys s = ∅)) as [Hempty|Hne].
  - exists k1, O. repeat split; [lia|lia|].
    rewrite Hhead. unfold SendHCIStoreLinkKeyCommand.
    rewrite (bind_Done _ _ s2 false s2 []).
    + unfold ret. rewrite Nat.add_0_r, !app_nil_r. reflexivity.
    + rewrite bind_get.
      rewrite Hkeys. destruct (decide (s_link_keys s = ∅)); [reflexivity|done].
  - destruct (store_link_key_packet (s_link_keys s)) as [packet|] eqn:Ep; simpl.
    + destruct (WaitForHCICommandComplete_spec HCI_CMD_WRITE_STORED_LINK_KEY s2)
        as (k2 & Hk2 & E2).
      exists k1, k2. repeat split; [lia|lia|discriminate|].
      rewrite Hhead.
      rewrite (bind_Done _ _ s2 true s2 [libusb_control_transfer packet]).
      * rewrite E2. unfold s2 at 1 2. simpl adapter_events.
        rewrite drop_drop. reflexivity.
      * unfold SendHCIStoreLinkKeyCommand.
        rewrite bind_get.
        rewrite Hkeys. destruct (decide (s_link_keys s = ∅)); [done|].
        rewrite Ep. reflexivity.
    + rewrite Hhead. rewrite bind_Undefined; [reflexivity|].
      unfold SendHCIStoreLinkKeyCommand.
      rewrite bind_get.
      rewrite Hkeys. destruct (decide (s_link_keys s = ∅)); [done|].
      rewrite Ep. reflexivity.
Qed.

(** Whenever it is defined, the resynchronisation changes only the resync
    latch and the adapter's pending answers, and makes only blocking calls. *)
Lemma IOCtlV_reset_keys_frame s s1 t1 :
  IOCtlV_reset_keys s = Done (tt, s1, t1) ->
  (exists b evs, s1 = set_adapter_events evs (set_need_reset_keys b s)) /\
  Forall (fun e => is_submit e = false /\ forall h, is_reply_to h e = false) t1.
Proof.
  intros E.
  destruct (m_is_wii_bt_module s) eqn:Hw.
  { rewrite IOCtlV_reset_keys_idle in E by auto. injection E as <- <-.
    split; [|constructor]. exists (s_need_reset_keys s), (adapter_events s).
    destruct s; reflexivity. }
  destruct (s_need_reset_keys s) eqn:Hn.
  2:{ rewrite IOCtlV_reset_keys_idle in E by auto. injection E as <- <-.
      split; [|constructor]. exists (s_need_reset_keys s), (adapter_events s).
      destruct s; reflexivity. }
  pose proof (IOCtlV_reset_keys_run s Hw Hn) as Hrun.
  destruct (if decide (s_link_keys s = ∅) then Some None
            else Some <$> store_link_key_packet (s_link_keys s))
    as [sent|]; [|congruence].
  destruct Hrun as (k1 & k2 & _ & _ & _ & E').
  rewrite E' in E. injection E as <- <-.
  split; [eauto|].
  assert (Hpolls : forall k,
    Forall (fun e => is_submit e = false /\ forall h, is_reply_to h e = false)
      (replicate k libusb_interrupt_transfer)).
  { intros k. apply Forall_replicate. split; reflexivity. }
  apply Forall_cons. split; [split; reflexivity|].
  apply Forall_app. split; [apply Hpolls|].
  apply Forall_app. split; [destruct sent; repeat constructor|apply Hpolls].
Qed.

End Resync.

(** ** The request handler, after the resynchronisation *)

Section Handler.
Context `{hci_h}.

Lemma IOCtlV_after_reset_keys request s s1 t1 :
  IOCtlV_reset_keys s = Done (tt, s1, t1) ->
  IOCtlV request s =
    match IOCtlV_switch request s1 with
    | Done (r, s2, t2) => Done (r, s2, t1 ++ t2)
    | Undefined => Undefined
    end.
Proof.
  intros E. unfold IOCtlV.
  exact (bind_Done IOCtlV_reset_keys (fun _ => IOCtlV_switch request) _ _ _ _ E).
Qed.

Lemma IOCtlV_undefined request s :
  IOCtlV_reset_keys s = Undefined -> IOCtlV request s = Undefined.
Proof. intros E. unfold IOCtlV. apply bind_Undefined, E. Qed.

(** The event a sync-button press puts in the guest's buffer: the vendor
    event code, the length 1, and the payload. *)
Definition sync_button_event_memory (payload : byte) (buffer : V0IntrMessage)
    (mem : Z -> byte) : Z -> byte :=
  CopyToEmu
    (CopyToEmu mem (data_address buffer) [u8_of_Z HCI_EVENT_VENDOR; x01])
    (u32 (data_address buffer + 2)) [payload].

Lemma IOCtlV_INTRMSG_Pressed buffer s :
  m_sync_button_state s = Pressed ->
  IOCtlV_INTRMSG buffer s =
    Done (GetNoReply,
          set_sync_button_state Ignored
            (set_Memory (sync_button_event_memory x08 buffer (Memory s)) s),
          [DisplayMessage "Scanning for Wii Remotes";
           EnqueueReply (ios_request buffer) 3]).
Proof.
  intros Hs. unfold IOCtlV_INTRMSG. rewrite bind_get, Hs. reflexivity.
Qed.

Lemma IOCtlV_INTRMSG_LongPressed buffer s :
  m_sync_button_state s = LongPressed ->
  IOCtlV_INTRMSG buffer s =
    Done (GetNoReply,
          set_sync_button_state Ignored
            (set_Memory (sync_button_event_memory x09 buffer (Memory s)) s),
          [DisplayMessage "Reset saved Wii Remote pairings";
           EnqueueReply (ios_request buffer) 3]).
Proof.
  intros Hs. unfold IOCtlV_INTRMSG. rewrite bind_get, Hs. reflexivity.
Qed.

End Handler.

(** ** The sync button *)

Section SyncButtonFacts.
Context `{hci_h}.

Lemma UpdateSyncButtonState_next is_held now s :
  0 <= SYNC_BUTTON_HOLD_MS_TO_RESET ->
  m_sync_button_state (UpdateSyncButtonState is_held now s) =
    match m_sync_button_state s, is_held with
    | Unpressed, true => Held
    | Unpressed, false => Unpressed
    | Held, true =>
        if SYNC_BUTTON_HOLD_MS_TO_RESET <? now - m_sync_button_held_timer s
        then LongPressed else Held
    | Held, false => Pressed
    | Pressed, _ => Pressed
    | LongPressed, _ => LongPressed
    | Ignored, true => Ignored
    | Ignored, false => Unpressed
    end.
Proof.
  intros Hthr. unfold UpdateSyncButtonState, GetTimeDifference.
  destruct s as [w st tm rb vc vo keys nr sf mem evs]; simpl.
  destruct st, is_held; simpl; try reflexivity.
  - replace (now - now) with 0 by lia.
    destruct (Z.ltb_spec SYNC_BUTTON_HOLD_MS_TO_RESET 0); [lia|reflexivity].
  - destruct (SYNC_BUTTON_HOLD_MS_TO_RESET <? now - tm); reflexivity.
Qed.

(** C7. The sync-button state machine follows the specified sequences:
    from Unpressed a held sample gives Held (and starts the timer); from
    Held a held sample gives LongPressed once more than the hold time has
    elapsed and a released sample gives Pressed; an interrupt request that
    finds Pressed or LongPressed synthesizes the event (0x08 or 0x09) and
    leaves Ignored; Ignored goes back to Unpressed on a released sample and
    stays on a held one. No other sample changes the state. *)
Theorem sync_button_state_machine (s : BluetoothReal) (now : Z)
    (buffer : V0IntrMessage) (sP sL : BluetoothReal) (tP tL : list effect) :
  0 <= SYNC_BUTTON_HOLD_MS_TO_RESET ->
  IOCtlV_reset_keys (set_sync_button_state Pressed s) = Done (tt, sP, tP) ->
  IOCtlV_reset_keys (set_sync_button_state LongPressed s) = Done (tt, sL, tL) ->
  let next held st0 :=
    m_sync_button_state
      (UpdateSyncButtonState held now (set_sync_button_state st0 s)) in
  next true Unpressed = Held /\
  m_sync_button_held_timer
    (UpdateSyncButtonState true now (set_sync_button_state Unpressed s)) = now /\
  next false Unpressed = Unpressed /\
  next true Held =
    (if SYNC_BUTTON_HOLD_MS_TO_RESET <? now - m_sync_button_held_timer s
     then LongPressed else Held) /\
  next false Held = Pressed /\
  next true Pressed = Pressed /\ next false Pressed = Pressed /\
  next true LongPressed = LongPressed /\ next false LongPressed = LongPressed /\
  next false Ignored = Unpressed /\
  next true Ignored = Ignored /\
  IOCtlV (IOCTLV_USBV0_INTRMSG buffer) (set_sync_button_state Pressed s) =
    Done (GetNoReply,
          set_sync_button_state Ignored
            (set_Memory (sync_button_event_memory x08 buffer (Memory s)) sP),
          tP ++ [DisplayMessage "Scanning for Wii Remotes";
                 EnqueueReply (ios_request buffer) 3]) /\
  IOCtlV (IOCTLV_USBV0_INTRMSG buffer) (set_sync_button_state LongPressed s) =
    Done (GetNoReply,
          set_sync_button_state Ignored
            (set_Memory (sync_button_event_memory x09 buffer (Memory s)) sL),
          tL ++ [DisplayMessage "Reset saved Wii Remote pairings";
                 EnqueueReply (ios_request buffer) 3]).
Proof.
  intros Hthr EP EL next.
  assert (Hnext : forall held st0,
    next held st0 =
      match st0, held with
      | Unpressed, true => Held
      | Unpressed, false => Unpressed
      | Held, true =>
          if SYNC_BUTTON_HOLD_MS_TO_RESET <? now - m_sync_button_held_timer s
          then LongPressed else Held
      | Held, false => Pressed
      | Pressed, _ => Pressed
      | LongPressed, _ => LongPressed
      | Ignored, true => Ignored
      | Ignored, false => Unpressed
      end).
  { intros held st0. unfold next.
    rewrite UpdateSyncButtonState_next by assumption. reflexivity. }
  repeat match goal with |- _ /\ _ => split end;
    try (rewrite Hnext; reflexivity).
  - unfold UpdateSyncButtonState, GetTimeDifference. simpl.
    destruct (SYNC_BUTTON_HOLD_MS_TO_RESET <? now - now); reflexivity.
  - rewrite (IOCtlV_after_reset_keys _ _ _ _ EP).
    destruct (IOCtlV_reset_keys_frame _ _ _ EP) as [(b & evs & ->) _].
    unfold IOCtlV_switch. rewrite IOCtlV_INTRMSG_Pressed by reflexivity.
    reflexivity.
  - rewrite (IOCtlV_after_reset_keys _ _ _ _ EL).
    destruct (IOCtlV_reset_keys_frame _ _ _ EL) as [(b & evs & ->) _].
    unfold IOCtlV_switch. rewrite IOCtlV_INTRMSG_LongPressed by reflexivity.
    reflexivity.
Qed.

End SyncButtonFacts.

Lemma sync_button_state_machine_witness :
  (0 <= @SYNC_BUTTON_HOLD_MS_TO_RESET hci_std) /\
  m_sync_button_state
    (@UpdateSyncButtonState hci_std true 11000
       (set_sync_button_state Held example_device)) = LongPressed /\
  m_sync_button_state
    (state_of
       (@IOCtlV hci_std (IOCTLV_USBV0_INTRMSG (mkIntr 8 100 129 64))
          (set_sync_button_state LongPressed example_device))
       example_device) = Ignored.
Proof.
  assert (Hthr : 0 <= @SYNC_BUTTON_HOLD_MS_TO_RESET hci_std)
    by (simpl; lia).
  pose proof (@sync_button_state_machine hci_std example_device 11000
                (mkIntr 8 100 129 64) _ _ [] [] Hthr eq_refl eq_refl) as W.
  cbv zeta in W.
  destruct W as (_ & _ & _ & WH & _ & _ & _ & _ & _ & _ & _ & _ & WL).
  split; [exact Hthr|]. split.
  - rewrite WH. reflexivity.
  - rewrite WL. reflexivity.
Defined.

(** ** What each branch of the handler does *)

Section Branches.
Context `{hci_h}.

(** A command-complete event in the guest's buffer: the event code, the
    parameter length, the packet count 1 and the opcode. *)
Definition command_complete_event (param_length opcode : Z) : list byte :=
  [u8_of_Z HCI_EVENT_COMMAND_COMPL; u8_of_Z param_length; x01] ++ le16 opcode.

Definition vendor_reply_memory (opcode : Z) (buffer : V0IntrMessage)
    (mem : Z -> byte) : Z -> byte :=
  CopyToEmu mem (data_address buffer) (command_complete_event 3 opcode).

Definition read_buffer_size_memory (buffer : V0IntrMessage)
    (mem : Z -> byte) : Z -> byte :=
  CopyToEmu
    (CopyToEmu mem (data_address buffer)
       (command_complete_event
          (3 + Z.of_nat sizeof_hci_read_buffer_size_rp)
          (u16 HCI_CMD_READ_BUFFER_SIZE)))
    (u32 (data_address buffer + 5))
    (pack_hci_read_buffer_size_rp
       (mk_read_buffer_size_rp 0 ACL_PKT_SIZE ACL_PKT_NUM
          SCO_PKT_SIZE SCO_PKT_NUM)).

(** The host buffer of a forwarded control request: the setup packet, then
    the payload as it stands in guest memory. *)
Definition forwarded_buffer (mem : Z -> byte) (cmd : V0CtrlMessage) : list byte :=
  libusb_fill_control_setup (cmd_request_type cmd) (cmd_request cmd)
    (cmd_value cmd) (cmd_index cmd) (cmd_length cmd) ++
  CopyFromEmu mem (cmd_data_address cmd) (Z.to_nat (cmd_length cmd)).

Lemma IOCtlV_CTRLMSG_read_buffer_size cmd s :
  cmd_opcode (Memory s) cmd = HCI_CMD_READ_BUFFER_SIZE ->
  IOCtlV_CTRLMSG cmd s =
    Done (GetNoReply, set_fake_read_buffer_size_reply true s, []).
Proof.
  intros Ho. unfold IOCtlV_CTRLMSG. rewrite bind_get, Ho, Z.eqb_refl.
  reflexivity.
Qed.

Lemma IOCtlV_CTRLMSG_vendor cmd s :
  cmd_opcode (Memory s) cmd <> HCI_CMD_READ_BUFFER_SIZE ->
  m_is_wii_bt_module s = false ->
  cmd_opcode (Memory s) cmd = 0xFC4C \/ cmd_opcode (Memory s) cmd = 0xFC4F ->
  IOCtlV_CTRLMSG cmd s =
    Done (GetNoReply,
          set_fake_vendor_command_reply_opcode (cmd_opcode (Memory s) cmd)
            (set_fake_vendor_command_reply true s),
          []).
Proof.
  intros Hn Hw Ho. unfold IOCtlV_CTRLMSG. rewrite bind_get.
  destruct (Z.eqb_spec (cmd_opcode (Memory s) cmd) HCI_CMD_READ_BUFFER_SIZE);
    [done|].
  rewrite Hw. destruct Ho as [-> | ->]; reflexivity.
Qed.

(** The store after a control request that is forwarded: what
    [hci_delete_stored_link_key_cp] reads at the data address decides. *)
Definition keys_after_forward (s : BluetoothReal) (cmd : V0CtrlMessage)
    : gmap (list byte) (list byte) :=
  if cmd_opcode (Memory s) cmd =? HCI_CMD_DELETE_STORED_LINK_KEY then
    let delete_cmd :=
      unpack_hci_delete_stored_link_key_cp
        (CopyFromEmu (Memory s) (cmd_data_address cmd)
           sizeof_hci_delete_stored_link_key_cp) in
    if bool_decide (delete_all delete_cmd <> x00) then ∅
    else delete (bdaddr delete_cmd) (s_link_keys s)
  else s_link_keys s.

Lemma set_link_keys_same s : set_link_keys (s_link_keys s) s = s.
Proof. destruct s; reflexivity. Qed.

Lemma IOCtlV_CTRLMSG_forward cmd s :
  cmd_opcode (Memory s) cmd <> HCI_CMD_READ_BUFFER_SIZE ->
  m_is_wii_bt_module s = true \/
    (cmd_opcode (Memory s) cmd <> 0xFC4C /\ cmd_opcode (Memory s) cmd <> 0xFC4F) ->
  IOCtlV_CTRLMSG cmd s =
    Done (GetNoReply,
          set_link_keys (keys_after_forward s cmd) s,
          [libusb_submit_transfer
             (LIBUSB_TRANSFER_TYPE_CONTROL (forwarded_buffer (Memory s) cmd) cmd)]).
Proof.
  intros Hn Hv. unfold IOCtlV_CTRLMSG, keys_after_forward. rewrite bind_get.
  destruct (Z.eqb_spec (cmd_opcode (Memory s) cmd) HCI_CMD_READ_BUFFER_SIZE);
    [done|].
  assert (Hgate :
    negb (m_is_wii_bt_module s) &&
    ((cmd_opcode (Memory s) cmd =? 0xFC4C) ||
     (cmd_opcode (Memory s) cmd =? 0xFC4F)) = false).
  { destruct Hv as [-> | [H1 H2]]; [reflexivity|].
    apply Z.eqb_neq in H1, H2. rewrite H1, H2. apply andb_false_r. }
  rewrite Hgate.
  destruct (cmd_opcode (Memory s) cmd =? HCI_CMD_DELETE_STORED_LINK_KEY).
  - destruct (bool_decide _); reflexivity.
  - rewrite bind_ret, set_link_keys_same. reflexivity.
Qed.

(** A control request does one of three things. *)
Lemma IOCtlV_CTRLMSG_cases cmd s :
  IOCtlV_CTRLMSG cmd s =
    Done (GetNoReply, set_fake_read_buffer_size_reply true s, []) \/
  (m_is_wii_bt_module s = false /\
   IOCtlV_CTRLMSG cmd s =
     Done (GetNoReply,
           set_fake_vendor_command_reply_opcode (cmd_opcode (Memory s) cmd)
             (set_fake_vendor_command_reply true s),
           [])) \/
  IOCtlV_CTRLMSG cmd s =
    Done (GetNoReply,
          set_link_keys (keys_after_forward s cmd) s,
          [libusb_submit_transfer
             (LIBUSB_TRANSFER_TYPE_CONTROL (forwarded_buffer (Memory s) cmd) cmd)]).
Proof.
  destruct (Z.eq_dec (cmd_opcode (Memory s) cmd) HCI_CMD_READ_BUFFER_SIZE)
    as [Ho|Ho].
  { left. apply IOCtlV_CTRLMSG_read_buffer_size, Ho. }
  destruct (m_is_wii_bt_module s) eqn:Hw.
  { right; right. apply IOCtlV_CTRLMSG_forward; auto. }
  destruct (Z.eq_dec (cmd_opcode (Memory s) cmd) 0xFC4C) as [H1|H1].
  { right; left. split; [reflexivity|]. apply IOCtlV_CTRLMSG_vendor; auto. }
  destruct (Z.eq_dec (cmd_opcode (Memory s) cmd) 0xFC4F) as [H2|H2].
  { right; left. split; [reflexivity|]. apply IOCtlV_CTRLMSG_vendor; auto. }
  right; right. apply IOCtlV_CTRLMSG_forward; auto.
Qed.

Lemma IOCtlV_INTRMSG_read_buffer_size buffer s :
  m_sync_button_state s <> Pressed ->
  m_sync_button_state s <> LongPressed ->
  m_fake_read_buffer_size_reply s = true ->
  IOCtlV_INTRMSG buffer s =
    Done (GetNoReply,
          set_Memory (read_buffer_size_memory buffer (Memory s))
            (set_fake_read_buffer_size_reply false s),
          [EnqueueReply (ios_request buffer)
             (Z.of_nat (5 + sizeof_hci_read_buffer_size_rp))]).
Proof.
  intros HP HL Hr. unfold IOCtlV_INTRMSG. rewrite bind_get.
  rewrite !bool_decide_eq_false_2 by assumption. rewrite Hr. reflexivity.
Qed.

Lemma IOCtlV_INTRMSG_vendor buffer s :
  m_sync_button_state s <> Pressed ->
  m_sync_button_state s <> LongPressed ->
  m_fake_read_buffer_size_reply s = false ->
  m_fake_vendor_command_reply s = true ->
  IOCtlV_INTRMSG buffer s =
    Done (GetNoReply,
          set_Memory
            (vendor_reply_memory (m_fake_vendor_command_reply_opcode s) buffer
               (Memory s))
            (set_fake_vendor_command_reply false s),
          [EnqueueReply (ios_request buffer) 5]).
Proof.
  intros HP HL Hr Hv. unfold IOCtlV_INTRMSG. rewrite bind_get.
  rewrite !bool_decide_eq_false_2 by assumption. rewrite Hr, Hv. reflexivity.
Qed.

Lemma IOCtlV_INTRMSG_forward buffer s :
  m_sync_button_state s <> Pressed ->
  m_sync_button_state s <> LongPressed ->
  m_fake_read_buffer_size_reply s = false ->
  m_fake_vendor_command_reply s = false ->
  IOCtlV_INTRMSG buffer s =
    Done (GetNoReply, s,
          [libusb_submit_transfer (LIBUSB_TRANSFER_TYPE_INTERRUPT buffer)]).
Proof.
  intros HP HL Hr Hv. unfold IOCtlV_INTRMSG. rewrite bind_get.
  rewrite !bool_decide_eq_false_2 by assumption. rewrite Hr, Hv. reflexivity.
Qed.

End Branches.

(** ** What the calls leave alone *)





Ltac destruct_ifs_in E :=
  repeat match type of E with
         | context [if ?c then _ else _] => destruct c
         end.

Section Frames.
Context `{hci_h}.


Lemma IOCtlV_INTRMSG_is_wii buffer s r s' t :
  IOCtlV_INTRMSG buffer s = Done (r, s', t) ->
  m_is_wii_bt_module s' = m_is_wii_bt_module s.
Proof.
  unfold IOCtlV_INTRMSG. rewrite bind_get. intros E.
  destruct_ifs_in E; injection E as <- <- <-; reflexivity.
Qed.






Lemma run_nil s : run [] s = Done (tt, s, []).
Proof. reflexivity. Qed.




End Frames.

(** ** Read-buffer-size is answered by this core *)

(** Guest memory with a read-buffer-size command (opcode 0x1005, no
    parameters) at address 10, the control request that carries it, and an
    interrupt request for 64 bytes at address 100. *)
Definition example_read_buffer_size_memory : Z -> byte :=
  CopyToEmu example_memory 10 [x05; x10; x00].
Definition example_cmd : V0CtrlMessage := mkCtrl 7 32 0 0 0 3 10.
Definition example_intr : V0IntrMessage := mkIntr 8 100 129 64.

Section ReadBufferSize.
Context `{hci_h}.


End ReadBufferSize.



(** ** The vendor pairing commands *)

(** Guest memory that also holds the vendor command 0xFC4C at address 20
    and the vendor command 0xFC4F at address 30, with their requests. *)
Definition example_vendor_memory : Z -> byte :=
  CopyToEmu (CopyToEmu example_read_buffer_size_memory 20 [x4c; xfc; x00])
    30 [x4f; xfc; x00].
Definition example_vendor_cmd : V0CtrlMessage := mkCtrl 9 32 0 0 0 3 20.
Definition example_intr' : V0IntrMessage := mkIntr 12 200 129 64.

Section VendorCommands.
Context `{hci_h}.

Lemma IOCtlV_reset_keys_clears s s1 t1 :
  m_is_wii_bt_module s = false ->
  IOCtlV_reset_keys s = Done (tt, s1, t1) ->
  s_need_reset_keys s1 = false.
Proof.
  intros Hw E. destruct (s_need_reset_keys s) eqn:Hn.
  - pose proof (IOCtlV_reset_keys_run s Hw Hn) as Hrun.
    destruct (if decide (s_link_keys s = ∅) then Some None
              else Some <$> store_link_key_packet (s_link_keys s))
      as [sent|]; [|congruence].
    destruct Hrun as (k1 & k2 & _ & _ & _ & E').
    rewrite E' in E. injection E as <- _. reflexivity.
  - rewrite IOCtlV_reset_keys_idle in E by auto.
    injection E as <- _. exact Hn.
Qed.



End VendorCommands.





(** ** Three places where the handler departs from what is asked of it *)

(** Two paired devices and their keys. *)
Definition example_address : list byte := [x11; x22; x33; x44; x55; x66].
Definition example_address' : list byte := [xaa; xbb; xcc; xdd; xee; xff].
Definition example_keys : gmap (list byte) (list byte) :=
  <[example_address := replicate 16 x01]>
    (<[example_address' := replicate 16 x02]> ∅).

(** A delete-stored-link-key command at address 40: the header (opcode
    0x0C12, parameter length 7), the address of the first device, and the
    delete-all flag clear. *)
Definition example_delete_memory : Z -> byte :=
  CopyToEmu example_memory 40
    ([x12; x0c; x07] ++ example_address ++ [x00]).
Definition example_delete_cmd : V0CtrlMessage := mkCtrl 13 32 0 0 0 10 40.

(** The same command for an address whose fourth byte is zero, with the
    delete-all flag set. *)
Definition example_delete_all_memory : Z -> byte :=
  CopyToEmu example_memory 40
    ([x12; x0c; x07] ++ [x11; x22; x33; x00; x55; x66] ++ [x01]).

(** C5, the code at two requests. [IOCtlV] reads
    [hci_delete_stored_link_key_cp] at the data address, where the command
    header stands, and not after the header as
    [SendHCIDeleteLinkKeyCommand] lays the command out: the flag it tests
    is the fourth byte of the address. The request is forwarded in both
    cases; with the flag clear and the address 11:22:33:44:55:66 the whole
    store is emptied instead of the one entry, and with the flag set and a
    zero fourth address byte nothing is removed. *)
Theorem delete_stored_link_key_reads_the_header :
  let run_on mem :=
    @IOCtlV hci_std (IOCTLV_USBV0_CTRLMSG example_delete_cmd)
      (set_link_keys example_keys (set_Memory mem example_device)) in
  cmd_opcode example_delete_memory example_delete_cmd =
    @HCI_CMD_DELETE_STORED_LINK_KEY hci_std /\
  CopyFromEmu example_delete_memory 43 7 = example_address ++ [x00] /\
  trace_of (run_on example_delete_memory) =
    [libusb_submit_transfer
       (LIBUSB_TRANSFER_TYPE_CONTROL
          (forwarded_buffer example_delete_memory example_delete_cmd)
          example_delete_cmd)] /\
  map_to_list
    (s_link_keys (state_of (run_on example_delete_memory) example_device)) =
    [] /\
  map_to_list (Delete example_address example_keys) =
    [(example_address', replicate 16 x02)] /\
  CopyFromEmu example_delete_all_memory 43 7 =
    [x11; x22; x33; x00; x55; x66; x01] /\
  trace_of (run_on example_delete_all_memory) =
    [libusb_submit_transfer
       (LIBUSB_TRANSFER_TYPE_CONTROL
          (forwarded_buffer example_delete_all_memory example_delete_cmd)
          example_delete_cmd)] /\
  map_to_list
    (s_link_keys (state_of (run_on example_delete_all_memory) example_device)) =
    map_to_list example_keys.
Proof.
  intros run_on.
  repeat match goal with |- _ /\ _ => split end; vm_compute; reflexivity.
Qed.

(** Twelve paired devices. *)
Definition example_twelve_keys : gmap (list byte) (list byte) :=
  list_to_map
    ((fun b => ([x00; x00; x00; x00; x00; b], replicate 16 b)) <$>
     [x00; x01; x02; x03; x04; x05; x06; x07; x08; x09; x0a; x0b]).

(** C3, the code with twelve keys in the store. [payload_size] is a [u8]:
    1 + 22 * 12 = 265 is cut to 9, the packet is allocated with 3 + 9 = 12
    bytes, and the loop that copies the twelve entries writes past its end.
    After a reset on a third-party adapter the next request, of any kind,
    has no defined behaviour. *)
Theorem store_link_key_command_overflows :
  size example_twelve_keys = 12%nat /\
  payload_size 12 = 9 /\
  @store_link_key_packet hci_std example_twelve_keys = None /\
  @IOCtlV hci_std (IOCTLV_USBV0_BLKMSG example_intr)
    (set_need_reset_keys true
       (set_link_keys example_twelve_keys example_device)) = Undefined.
Proof.
  repeat match goal with |- _ /\ _ => split end; vm_compute; reflexivity.
Qed.

(** C1, the code at a read-buffer-size request and at a vendor request on a
    third-party adapter. [IOCtlV] returns [GetNoReply] with an empty trace:
    no reply is enqueued for the request's handle (7, then 9) and no
    transfer is submitted whose completion would enqueue one. The
    synthesized reply goes to the handle of the interrupt request (8). *)
Theorem latched_control_request_gets_no_reply :
  exists s1 s2 s3,
    @IOCtlV hci_std (IOCTLV_USBV0_CTRLMSG example_cmd)
      (set_Memory example_vendor_memory example_device) =
      Done (GetNoReply, s1, []) /\
    @IOCtlV hci_std (IOCTLV_USBV0_INTRMSG example_intr) s1 =
      Done (GetNoReply, s2, [EnqueueReply 8 12]) /\
    @IOCtlV hci_std (IOCTLV_USBV0_CTRLMSG example_vendor_cmd) s2 =
      Done (GetNoReply, s3, []) /\
    request_handle (IOCTLV_USBV0_CTRLMSG example_cmd) = 7 /\
    request_handle (IOCTLV_USBV0_CTRLMSG example_vendor_cmd) = 9.
Proof.
  eexists _, _, _.
  repeat match goal with |- _ /\ _ => split end; reflexivity.
Qed.

(** ** Strings *)

Fixpoint str_all (p : ascii -> bool) (s : string) : bool :=
  match s with
  | EmptyString => true
  | String c s' => p c && str_all p s'
  end.

Definition not_char (c : ascii) : ascii -> bool :=
  fun x => negb (bool_decide (x = c)).

Lemma str_app_nil s : EmptyString +:+ s = s.
Proof. reflexivity. Qed.

Lemma str_app_cons x a b : String x a +:+ b = String x (a +:+ b).
Proof. reflexivity. Qed.

Ltac str_simpl := rewrite ?str_app_cons, ?str_app_nil; simpl.

Lemma str_app_assoc a b c : (a +:+ b) +:+ c = a +:+ (b +:+ c).
Proof. induction a as [|x a IH]; str_simpl; [reflexivity|]. now rewrite IH. Qed.

Lemma str_all_app p a b : str_all p (a +:+ b) = str_all p a && str_all p b.
Proof.
  induction a as [|x a IH]; str_simpl; [reflexivity|].
  rewrite IH. apply andb_assoc.
Qed.

Lemma not_char_true c x : not_char c x = true -> x <> c.
Proof.
  unfold not_char. intros Hx ->.
  rewrite bool_decide_eq_true_2 in Hx by reflexivity. discriminate.
Qed.

Lemma str_find_app c s1 s2 :
  str_all (not_char c) s1 = true ->
  str_find c (s1 +:+ String c s2) = Some (String.length s1).
Proof.
  induction s1 as [|x s1 IH]; str_simpl.
  - intros _. destruct (decide (c = c)); [reflexivity|done].
  - intros [Hx Hs]%andb_true_iff. apply not_char_true in Hx.
    destruct (decide (x = c)); [done|]. rewrite IH by assumption.
    reflexivity.
Qed.

Lemma str_find_none c s :
  str_all (not_char c) s = true -> str_find c s = None.
Proof.
  induction s as [|x s IH]; simpl; [reflexivity|].
  intros [Hx Hs]%andb_true_iff. apply not_char_true in Hx.
  destruct (decide (x = c)); [done|]. rewrite IH by assumption. reflexivity.
Qed.

Lemma str_take_app s1 s2 : str_take (String.length s1) (s1 +:+ s2) = s1.
Proof.
  induction s1 as [|x s1 IH]; str_simpl; [destruct s2; reflexivity|].
  now rewrite IH.
Qed.

Lemma str_drop_app s1 c s2 :
  str_drop (String.length s1 + 1) (s1 +:+ String c s2) = s2.
Proof.
  induction s1 as [|x s1 IH]; str_simpl; [destruct s2; reflexivity|exact IH].
Qed.

Lemma SplitString_one delim p :
  str_all (not_char delim) p = true -> SplitString p delim = [p].
Proof.
  induction p as [|x p IH]; simpl; [reflexivity|].
  intros [Hx Hp]%andb_true_iff. apply not_char_true in Hx.
  destruct (decide (x = delim)); [done|]. rewrite IH by assumption.
  reflexivity.
Qed.

Lemma SplitString_app delim p rest :
  str_all (not_char delim) p = true ->
  SplitString (p +:+ String delim rest) delim = p :: SplitString rest delim.
Proof.
  induction p as [|x p IH]; str_simpl.
  - intros _. destruct (decide (delim = delim)); [reflexivity|done].
  - intros [Hx Hp]%andb_true_iff. apply not_char_true in Hx.
    destruct (decide (x = delim)); [done|]. rewrite IH by assumption.
    reflexivity.
Qed.

Lemma pop_back_app p rest :
  rest <> EmptyString -> pop_back (p +:+ rest) = p +:+ pop_back rest.
Proof.
  intros Hr. induction p as [|x p IH]; str_simpl; [reflexivity|].
  rewrite IH. destruct (p +:+ rest) eqn:E; [|reflexivity].
  destruct p; [done|discriminate].
Qed.

(** ** Hexadecimal digits *)

Lemma hex2_no_comma up b : str_all (not_char ","%char) (hex2 up b) = true.
Proof. destruct up, b; reflexivity. Qed.

Lemma hex2_no_equals up b : str_all (not_char "="%char) (hex2 up b) = true.
Proof. destruct up, b; reflexivity. Qed.

(** Two digits written under [std::hex], in either case, are read back as
    the byte. *)
Lemma extract_hex_hex2 up b : extract_hex (hex2 up b) = Some (Z_of_u8 b).
Proof. destruct up, b; reflexivity. Qed.

Lemma hex_value_hex_digit up d :
  0 <= d < 16 -> hex_value (hex_digit up d) = Some d.
Proof.
  intros Hd. assert (exists n, d = Z.of_nat n /\ (n < 16)%nat) as (n & -> & Hn).
  { exists (Z.to_nat d). lia. }
  do 16 (destruct n as [|n]; [destruct up; reflexivity|]). lia.
Qed.

(** ** One entry of the configuration text *)

(** An entry as [SaveLinkKeys] writes it, without the comma: the address
    in display order, an equals sign, the key in hexadecimal. The two flags
    are the case of the digits of the address and of the key. *)
Definition pair_text (up upk : bool) (addr key : list byte) : string :=
  MacAddressToString up (reverse addr) +:+ "=" +:+
  str_concat (hex2 upk <$> key).

Lemma StringToMacAddress_cons c rest x mac :
  StringToMacAddress (String c rest) x mac =
    if (12 <=? x)%nat then mac
    else
      match hex_value c with
      | Some d =>
          StringToMacAddress rest (S x)
            (<[(x / 2)%nat :=
                 u8_of_Z (if Nat.even x then 16 * d
                          else Z_of_u8 (nth (x / 2) mac x00) / 16 * 16 + d)]>
               mac)
      | None => StringToMacAddress rest x mac
      end.
Proof. reflexivity. Qed.

Lemma StringToMacAddress_digit up d rest x mac :
  (x < 12)%nat -> 0 <= d < 16 ->
  StringToMacAddress (String (hex_digit up d) rest) x mac =
    StringToMacAddress rest (S x)
      (<[(x / 2)%nat :=
           u8_of_Z (if Nat.even x then 16 * d
                    else Z_of_u8 (nth (x / 2) mac x00) / 16 * 16 + d)]> mac).
Proof.
  intros Hx Hd. rewrite StringToMacAddress_cons.
  destruct (Nat.leb_spec 12 x); [lia|].
  rewrite hex_value_hex_digit by assumption. reflexivity.
Qed.

Lemma StringToMacAddress_hex2 up b rest k mac :
  (k < 6)%nat -> (k < length mac)%nat ->
  StringToMacAddress (hex2 up b +:+ rest) (2 * k) mac =
    StringToMacAddress rest (2 * S k) (<[k := b]> mac).
Proof.
  intros Hk Hlen. unfold hex2. rewrite !str_app_cons, str_app_nil.
  pose proof (Z_of_u8_range b) as Hb.
  assert (Hhi : 0 <= Z_of_u8 b / 16 < 16)
    by (split; [apply Z.div_pos; lia|apply Z.div_lt_upper_bound; lia]).
  assert (Hlo : 0 <= Z_of_u8 b mod 16 < 16) by (apply Z.mod_pos_bound; lia).
  rewrite StringToMacAddress_digit by (assumption || lia).
  rewrite StringToMacAddress_digit by (assumption || lia).
  assert (Hdiv : (2 * k / 2 = k)%nat)
    by (rewrite Nat.mul_comm; apply Nat.div_mul; lia).
  assert (Hdiv' : (S (2 * k) / 2 = k)%nat).
  { replace (S (2 * k)) with (1 + k * 2)%nat by lia.
    rewrite Nat.div_add by lia. reflexivity. }
  assert (He : Nat.even (2 * k) = true)
    by (rewrite Nat.even_mul; reflexivity).
  assert (Ho : Nat.even (S (2 * k)) = false).
  { rewrite Nat.even_succ, <- Nat.negb_even, He. reflexivity. }
  rewrite Hdiv, Hdiv', He, Ho.
  rewrite (nth_lookup_Some _ _ _ _ (list_lookup_insert_eq _ _ _ Hlen)).
  rewrite list_insert_insert_eq, Z_of_u8_of_Z.
  replace (2 * S k)%nat with (S (S (2 * k))) by lia.
  do 2 f_equal.
  etransitivity; [|apply u8_of_Z_of_u8]. f_equal.
  rewrite (Z.mod_small (16 * (Z_of_u8 b / 16)))
    by (pose proof (Z.mul_div_le (Z_of_u8 b) 16); lia).
  rewrite (Z.mul_comm 16), Z.div_mul by lia.
  pose proof (Z.div_mod (Z_of_u8 b) 16). lia.
Qed.

Lemma StringToMacAddress_colon rest x mac :
  StringToMacAddress (String ":"%char rest) x mac =
    if (12 <=? x)%nat then mac else StringToMacAddress rest x mac.
Proof. reflexivity. Qed.

(** What [MacAddressToString] writes, in either case, is read back by
    [StringToMacAddress] whatever the buffer held. *)
Lemma StringToMacAddress_MacAddressToString up mac buffer :
  length mac = 6%nat -> length buffer = 6%nat ->
  StringToMacAddress (MacAddressToString up mac) 0 buffer = mac.
Proof.
  intros Hm Hb.
  destruct mac as [|m0 [|m1 [|m2 [|m3 [|m4 [|m5 [|]]]]]]]; try discriminate.
  destruct buffer as [|b0 [|b1 [|b2 [|b3 [|b4 [|b5 [|]]]]]]]; try discriminate.
  unfold MacAddressToString. simpl nth.
  rewrite (StringToMacAddress_hex2 up m0 _ 0) by (simpl; lia).
  rewrite str_app_cons, str_app_nil, StringToMacAddress_colon. simpl Nat.leb. cbv iota.
  rewrite (StringToMacAddress_hex2 up m1 _ 1) by (simpl; lia).
  rewrite str_app_cons, str_app_nil, StringToMacAddress_colon. simpl Nat.leb. cbv iota.
  rewrite (StringToMacAddress_hex2 up m2 _ 2) by (simpl; lia).
  rewrite str_app_cons, str_app_nil, StringToMacAddress_colon. simpl Nat.leb. cbv iota.
  rewrite (StringToMacAddress_hex2 up m3 _ 3) by (simpl; lia).
  rewrite str_app_cons, str_app_nil, StringToMacAddress_colon. simpl Nat.leb. cbv iota.
  rewrite (StringToMacAddress_hex2 up m4 _ 4) by (simpl; lia).
  rewrite str_app_cons, str_app_nil, StringToMacAddress_colon. simpl Nat.leb. cbv iota.
  rewrite <- (str_app_nil (hex2 up m5)) at 1.
  replace (EmptyString +:+ hex2 up m5) with (hex2 up m5 +:+ EmptyString)
    by (unfold hex2; reflexivity).
  rewrite (StringToMacAddress_hex2 up m5 _ 5) by (simpl; lia).
  reflexivity.
Qed.

Lemma MacAddressToString_length up mac :
  String.length (MacAddressToString up mac) = 17%nat.
Proof. reflexivity. Qed.

Lemma MacAddressToString_plain up mac c :
  c = "="%char \/ c = ","%char ->
  str_all (not_char c) (MacAddressToString up mac) = true.
Proof.
  intros Hc. unfold MacAddressToString.
  assert (Hh : forall b, str_all (not_char c) (hex2 up b) = true).
  { intros b. destruct Hc as [-> | ->];
      [apply hex2_no_equals|apply hex2_no_comma]. }
  assert (Hcolon : not_char c ":"%char = true)
    by (destruct Hc as [-> | ->]; reflexivity).
  rewrite !str_all_app, !Hh. simpl. rewrite Hcolon. reflexivity.
Qed.

Lemma str_concat_cons s l : str_concat (s :: l) = s +:+ str_concat l.
Proof. reflexivity. Qed.

Lemma hex_key_plain upk key c :
  c = "="%char \/ c = ","%char ->
  str_all (not_char c) (str_concat (hex2 upk <$> key)) = true.
Proof.
  intros Hc. induction key as [|b key IH]; [reflexivity|].
  rewrite fmap_cons, str_concat_cons, str_all_app, IH, andb_true_r.
  destruct Hc as [-> | ->]; [apply hex2_no_equals|apply hex2_no_comma].
Qed.

Lemma pair_text_no_comma up upk addr key :
  str_all (not_char ","%char) (pair_text up upk addr key) = true.
Proof.
  unfold pair_text. rewrite !str_all_app.
  rewrite MacAddressToString_plain, hex_key_plain by auto. reflexivity.
Qed.

(** The inner loop reads back a key written two digits a byte, into the
    buffer from [pos] on. *)
Lemma decode_key_hex upk key pos buffer value :
  (pos + length key <= length buffer)%nat ->
  decode_key (str_concat (hex2 upk <$> key)) pos buffer value =
    Some (take pos buffer ++ key ++ drop (pos + length key) buffer).
Proof.
  revert pos buffer. induction key as [|b key IH]; intros pos buffer Hlen.
  - simpl. rewrite Nat.add_0_r, take_drop. reflexivity.
  - simpl in Hlen. rewrite fmap_cons, str_concat_cons. unfold hex2 at 1.
    rewrite !str_app_cons, str_app_nil. simpl decode_key.
    change (String (hex_digit upk (Z_of_u8 b / 16))
              (String (hex_digit upk (Z_of_u8 b mod 16)) EmptyString))
      with (hex2 upk b).
    rewrite extract_hex_hex2. simpl default. rewrite u8_of_Z_of_u8.
    unfold array_set. destruct (decide (pos < length buffer)%nat); [|lia].
    simpl. rewrite IH by (rewrite length_insert; lia).
    f_equal.
    rewrite (take_S_r _ _ b) by (apply list_lookup_insert_eq; lia).
    rewrite take_insert_ge by lia.
    rewrite drop_insert_lt by lia.
    rewrite <- app_assoc. simpl.
    replace (S (pos + length key))%nat with (pos + S (length key))%nat by lia.
    reflexivity.
Qed.

(** A well-formed entry is loaded: the address, reversed into wire order,
    gets the key, whatever the locals held before. *)
Lemma LoadLinkKeys_pair_text u up upk addr key keys :
  length addr = 6%nat -> length key = 16%nat ->
  length (uninitialized_address u) = 6%nat ->
  length (uninitialized_key u) = 16%nat ->
  LoadLinkKeys_pair u (pair_text up upk addr key) keys =
    Some (<[addr := key]> keys).
Proof.
  intros Ha Hk Hua Huk. unfold LoadLinkKeys_pair, pair_text.
  rewrite str_app_cons, str_app_nil.
  rewrite str_find_app by (apply MacAddressToString_plain; auto).
  rewrite str_take_app, str_drop_app.
  rewrite StringToMacAddress_MacAddressToString
    by (rewrite ?length_reverse; assumption).
  rewrite reverse_involutive.
  rewrite decode_key_hex by lia.
  simpl. rewrite Hk, <- Huk, drop_all, app_nil_r. reflexivity.
Qed.

(** An entry without an equals sign is skipped. *)
Lemma LoadLinkKeys_pair_skip u p keys :
  str_find "="%char p = None -> LoadLinkKeys_pair u p keys = Some keys.
Proof. intros Hp. unfold LoadLinkKeys_pair. rewrite Hp. reflexivity. Qed.

(** ** The whole text *)

Definition upsert_entry (keys : gmap (list byte) (list byte))
    (e : list byte * list byte) : gmap (list byte) (list byte) :=
  Upsert e.1 e.2 keys.

(** What an entry of the text can be for the loader: skipped, for want of
    an equals sign, or well formed, an address and a full key. *)
Inductive entry_form : string -> option (list byte * list byte) -> Prop :=
| entry_without_equals p :
    str_find "="%char p = None -> entry_form p None
| entry_well_formed up upk addr key :
    length addr = 6%nat -> length key = 16%nat ->
    entry_form (pair_text up upk addr key) (Some (addr, key)).

Lemma pair_text_has_equals up upk addr key :
  str_find "="%char (pair_text up upk addr key) = Some 17%nat.
Proof.
  unfold pair_text. rewrite str_app_cons, str_app_nil.
  rewrite str_find_app by (apply MacAddressToString_plain; auto).
  reflexivity.
Qed.

Lemma foldl_upsert_list_to_map (es : list (list byte * list byte)) :
  NoDup es.*1 -> foldl upsert_entry ∅ es = list_to_map es.
Proof.
  induction es as [|e es IH] using rev_ind; intros Hnd; [reflexivity|].
  rewrite fmap_app in Hnd. apply NoDup_app in Hnd as (Hes & Hne & _).
  rewrite foldl_snoc, IH by assumption.
  destruct e as [a k]. unfold upsert_entry, Upsert. simpl.
  rewrite list_to_map_snoc; [reflexivity|].
  intros Hin. apply (Hne a Hin). simpl. left.
Qed.

Section Load.
Variable u : nat -> uninitialized.
Hypothesis uninitialized_address_length :
  forall i, length (uninitialized_address (u i)) = 6%nat.
Hypothesis uninitialized_key_length :
  forall i, length (uninitialized_key (u i)) = 16%nat.

Lemma LoadLinkKeys_pairs_forms round pairs forms keys :
  Forall2 entry_form pairs forms ->
  LoadLinkKeys_pairs u round pairs keys =
    Some (foldl upsert_entry keys (omap id forms)).
Proof.
  intros Hf. revert round keys.
  induction Hf as [|p f pairs forms Hp _ IH]; intros round keys;
    [reflexivity|].
  simpl LoadLinkKeys_pairs. destruct Hp as [p Hp|up upk addr key Ha Hk].
  - rewrite LoadLinkKeys_pair_skip by assumption. simpl. apply IH.
  - rewrite LoadLinkKeys_pair_text by auto. simpl. apply IH.
Qed.

(** The whole of [LoadLinkKeys] on a text whose entries are of the two
    forms: the empty text is a single entry without an equals sign. *)
Lemma LoadLinkKeys_forms (entries : string)
    (forms : list (option (list byte * list byte)))
    (keys : gmap (list byte) (list byte)) :
  Forall2 entry_form (SplitString entries ","%char) forms ->
  LoadLinkKeys u entries keys =
    Some (foldl upsert_entry keys (omap id forms)).
Proof.
  intros Hf. unfold LoadLinkKeys.
  destruct (decide (entries = EmptyString)) as [->|Hne].
  - simpl in Hf. apply Forall2_cons_inv_l in Hf as (f & forms' & Hp & Hn & ->).
    apply Forall2_nil_inv_l in Hn as ->.
    inversion Hp; subst. reflexivity.
  - apply LoadLinkKeys_pairs_forms, Hf.
Qed.


Lemma str_app_nil_r s : s +:+ EmptyString = s.
Proof. induction s as [|c s IH]; [reflexivity|]. now rewrite str_app_cons, IH. Qed.

Lemma SaveLinkKeys_entry_pair_text up e :
  SaveLinkKeys_entry up e = pair_text up false e.1 e.2 +:+ ",".
Proof.
  unfold SaveLinkKeys_entry, pair_text. rewrite !str_app_assoc. reflexivity.
Qed.

Lemma SplitString_saved up es :
  es <> [] ->
  SplitString (pop_back (str_concat (SaveLinkKeys_entry up <$> es))) ","%char =
    (fun e => pair_text up false e.1 e.2) <$> es.
Proof.
  induction es as [|e es IH]; [done|]. intros _.
  rewrite fmap_cons, str_concat_cons, SaveLinkKeys_entry_pair_text.
  rewrite str_app_assoc, str_app_cons, str_app_nil.
  destruct es as [|e' es].
  - simpl str_concat.
    rewrite pop_back_app by discriminate. simpl pop_back.
    rewrite str_app_nil_r.
    rewrite SplitString_one by apply pair_text_no_comma. reflexivity.
  - rewrite pop_back_app.
    2:{ rewrite fmap_cons, str_concat_cons, SaveLinkKeys_entry_pair_text.
        unfold pair_text, MacAddressToString, hex2.
        rewrite !str_app_cons. discriminate. }
    assert (Hpop : forall c s, s <> EmptyString ->
              pop_back (String c s) = String c (pop_back s)).
    { intros c s Hs. destruct s; [done|reflexivity]. }
    rewrite Hpop.
    2:{ rewrite fmap_cons, str_concat_cons, SaveLinkKeys_entry_pair_text.
        unfold pair_text, MacAddressToString, hex2.
        rewrite !str_app_cons. discriminate. }
    rewrite SplitString_app by apply pair_text_no_comma.
    rewrite IH by discriminate. reflexivity.
Qed.

End Load.

Lemma reachable_lengths keys :
  reachable keys ->
  map_Forall (fun addr key => length addr = 6%nat /\ length key = 16%nat) keys.
Proof.
  induction 1 as [|keys addr key _ IH Ha Hk|keys addr _ IH|keys _ IH].
  - apply map_Forall_empty.
  - apply map_Forall_insert_2; auto.
  - apply map_Forall_delete, IH.
  - apply map_Forall_empty.
Qed.

Lemma entries_Permutation keys : entries keys ≡ₚ map_to_list keys.
Proof. apply merge_sort_Permutation. Qed.

(** C6. For every store reached by upserts, deletions of one entry and
    deletions of all, saving it to the configuration text and loading that
    text into an empty store gives the store back, whatever the case of the
    digits of the addresses and whatever the uninitialised locals held. *)
Theorem LoadLinkKeys_SaveLinkKeys (uppercase : bool)
    (u : nat -> uninitialized) (keys : gmap (list byte) (list byte)) :
  (forall i, length (uninitialized_address (u i)) = 6%nat) ->
  (forall i, length (uninitialized_key (u i)) = 16%nat) ->
  reachable keys ->
  LoadLinkKeys u (SaveLinkKeys uppercase keys) ∅ = Some keys.
Proof.
  intros Hua Huk Hr. unfold SaveLinkKeys.
  pose proof (entries_Permutation keys) as Hperm.
  pose proof (reachable_lengths keys Hr) as Hlen.
  destruct (entries keys) as [|e es] eqn:Ees.
  - symmetry in Hperm. apply Permutation_nil_r in Hperm.
    apply map_to_list_empty_iff in Hperm as ->. reflexivity.
  - rewrite (LoadLinkKeys_forms u Hua Huk _ (Some <$> (e :: es))).
    + assert (Hid : forall l : list (list byte * list byte),
                omap id (Some <$> l) = l).
      { induction l as [|x l IHl]; [reflexivity|].
        simpl. f_equal. exact IHl. }
      rewrite Hid, foldl_upsert_list_to_map.
      * f_equal. symmetry. apply list_to_map_flip. now symmetry.
      * rewrite Hperm. apply NoDup_fst_map_to_list.
    + rewrite SplitString_saved by discriminate.
      apply Forall2_fmap, Forall_Forall2_diag, Forall_forall.
      intros [addr key] Hin. simpl.
      assert (Hin' : (addr, key) ∈ map_to_list keys)
        by (rewrite <- Hperm; exact Hin).
      apply elem_of_map_to_list in Hin'.
      destruct (Hlen _ _ Hin') as [Ha Hk].
      now apply entry_well_formed.
Qed.

(** Locals that hold 0xEE, 0xDD and 77 before they are assigned. *)
Definition example_uninitialized : nat -> uninitialized :=
  fun _ => mk_uninitialized (replicate 6 xee) (replicate 16 xdd) (fun _ => 77).

Lemma LoadLinkKeys_SaveLinkKeys_witness :
  reachable example_keys /\
  SaveLinkKeys true example_keys =
    "66:55:44:33:22:11=01010101010101010101010101010101,FF:EE:DD:CC:BB:AA=02020202020202020202020202020202" /\
  LoadLinkKeys example_uninitialized (SaveLinkKeys true example_keys) ∅ =
    Some example_keys.
Proof.
  assert (Hr : reachable example_keys).
  { apply reachable_Upsert; [|reflexivity|reflexivity].
    apply reachable_Upsert; [|reflexivity|reflexivity].
    apply reachable_empty. }
  split; [exact Hr|]. split; [vm_compute; reflexivity|].
  apply (LoadLinkKeys_SaveLinkKeys true example_uninitialized example_keys);
    [reflexivity|reflexivity|exact Hr].
Defined.



(** ** Saved states *)

Definition load_warning : effect :=
  PanicAlertT "Attempted to load a state. Bluetooth will likely be broken now.".
Definition abort_message : effect :=
  DisplayMessage "State needs Bluetooth passthrough to be disabled. Aborting load.".

(** C9 (amended). When a saved state is loaded while passthrough is
    active the operator is always warned and the object is left as it was:
    [DoState] reads one flag of the state into a local and nothing into the
    object. The load is aborted, the mode set to verify and a message
    shown, only when that flag says the state was saved without
    passthrough; when it was saved with passthrough the load goes on. In
    the other modes nothing is said and nothing changes. *)
Theorem DoState_warns_and_aborts_foreign_states (p : PointerWrap)
    (s : BluetoothReal) :
  let passthrough_bluetooth := (Do true p).1 in
  let reading := bool_decide (mode p = MODE_READ) in
  DoState p s =
    Done (if negb passthrough_bluetooth && reading
          then SetMode MODE_VERIFY (Do true p).2 else (Do true p).2,
          s,
          (if reading then [load_warning] else []) ++
          (if negb passthrough_bluetooth && reading then [abort_message]
           else [])).
Proof.
  unfold DoState, Do, GetMode, load_warning, abort_message.
  destruct p as [bytes []]; simpl; try reflexivity.
  destruct (from_option _ _ _); reflexivity.
Qed.

(** C9 as stated fails for a state that was saved with passthrough: its
    flag reads true, the operator is warned, and the load is not aborted,
    the mode stays [MODE_READ]. *)
Lemma DoState_keeps_loading_passthrough_state :
  DoState (mkPointerWrap [x01; x2a] MODE_READ) example_device =
    Done (mkPointerWrap [x2a] MODE_READ, example_device, [load_warning]).
Proof. reflexivity. Qed.

(** ** The resynchronisation precedes the request *)

Section ResyncTrace.
Context `{hci_h}.

(** The write-stored-link-keys command built from the whole store: the
    header with the opcode and the parameter length, the number of keys,
    then address and key of every entry by ascending address. *)
Definition write_stored_link_keys_packet (keys : gmap (list byte) (list byte))
    : list byte :=
  le16 HCI_CMD_WRITE_STORED_LINK_KEY ++
  [u8_of_Z (1 + 22 * Z.of_nat (size keys))] ++
  [u8_of_Z (Z.of_nat (size keys))] ++
  concat ((fun e : list byte * list byte => e.1 ++ e.2) <$> entries keys).

Lemma write_at_app pre zeros data :
  (length data <= length zeros)%nat ->
  write_at (pre ++ zeros) (length pre) data =
    Some ((pre ++ data) ++ drop (length data) zeros).
Proof.
  intros Hd. unfold write_at.
  destruct (decide _) as [_|Hn]; [|rewrite length_app in Hn; lia].
  rewrite take_app_length, drop_app_add', <- app_assoc by reflexivity.
  reflexivity.
Qed.

Lemma copy_entries_spec es pre zeros :
  Forall (fun e : list byte * list byte =>
            length e.1 = 6%nat /\ length e.2 = 16%nat) es ->
  length zeros = (22 * length es)%nat ->
  copy_entries es (length pre) (pre ++ zeros) =
    Some (pre ++ concat ((fun e : list byte * list byte => e.1 ++ e.2) <$> es)).
Proof.
  intros Hwf. revert pre zeros.
  induction Hwf as [|e es [Ha Hk] _ IH]; intros pre zeros Hz.
  - simpl in *. destruct zeros; [|discriminate]. reflexivity.
  - simpl in Hz. simpl copy_entries.
    rewrite write_at_app by lia. simpl.
    rewrite <- (length_app pre e.1).
    rewrite write_at_app by (rewrite length_drop; lia). simpl.
    rewrite drop_drop.
    rewrite <- (length_app (pre ++ e.1) e.2).
    rewrite IH by (rewrite length_drop; lia).
    simpl. rewrite <- !app_assoc. reflexivity.
Qed.

Lemma entries_length keys : length (entries keys) = size keys.
Proof.
  rewrite (Permutation_length (entries_Permutation keys)).
  apply length_map_to_list.
Qed.

(** With at most eleven well-formed entries nothing is cut and the packet
    is the command for the whole store. *)
Lemma store_link_key_packet_full keys :
  (size keys <= 11)%nat ->
  map_Forall (fun addr key => length addr = 6%nat /\ length key = 16%nat) keys ->
  store_link_key_packet keys = Some (write_stored_link_keys_packet keys).
Proof.
  intros Hn Hwf. unfold store_link_key_packet, write_stored_link_keys_packet.
  assert (Hp : payload_size (size keys) = 1 + 22 * Z.of_nat (size keys)).
  { unfold payload_size.
    change (Z.of_nat sizeof_hci_write_stored_link_key_cp) with 1.
    change (Z.of_nat (sizeof_btaddr_t + sizeof_linkkey_t)) with 22.
    assert (0 <= Z.of_nat (size keys) <= 11) by lia.
    rewrite (Z.mod_small (Z.of_nat (size keys))) by lia.
    rewrite Z.mod_small by lia. reflexivity. }
  rewrite Hp.
  set (hdr := le16 HCI_CMD_WRITE_STORED_LINK_KEY ++
              [u8_of_Z (1 + 22 * Z.of_nat (size keys))]).
  set (num := [u8_of_Z (Z.of_nat (size keys))]).
  replace (sizeof_hci_cmd_hdr_t + Z.to_nat (1 + 22 * Z.of_nat (size keys)))%nat
    with (3 + (1 + 22 * size keys))%nat by (unfold sizeof_hci_cmd_hdr_t; lia).
  assert (E1 : write_at (replicate (3 + (1 + 22 * size keys)) x00) 0 hdr =
               Some (hdr ++ replicate (1 + 22 * size keys) x00)).
  { refine (write_at_app [] (replicate (3 + (1 + 22 * size keys)) x00) hdr _).
    rewrite length_replicate. unfold hdr, le16. simpl. lia. }
  rewrite E1. cbn [mbind option_bind].
  assert (E2 : write_at (hdr ++ replicate (1 + 22 * size keys) x00)
                 sizeof_hci_cmd_hdr_t num =
               Some ((hdr ++ num) ++ replicate (22 * size keys) x00)).
  { refine (write_at_app hdr (replicate (1 + 22 * size keys) x00) num _).
    rewrite length_replicate. simpl. lia. }
  rewrite E2. cbn [mbind option_bind].
  change (sizeof_hci_cmd_hdr_t + sizeof_hci_write_stored_link_key_cp)%nat
    with (length (hdr ++ num)).
  rewrite copy_entries_spec.
  - unfold hdr, num. rewrite <- !app_assoc. reflexivity.
  - apply Forall_forall. intros [addr key] Hin.
    assert (Hin' : (addr, key) ∈ map_to_list keys).
    { rewrite <- (entries_Permutation keys). exact Hin. }
    apply elem_of_map_to_list in Hin'. exact (Hwf _ _ Hin').
  - rewrite length_replicate, entries_length. reflexivity.
Qed.

Lemma IOCtlV_switch_total request s :
  exists s' t, IOCtlV_switch request s = Done (GetNoReply, s', t).
Proof.
  destruct request as [cmd|buffer|buffer|r h]; simpl.
  - destruct (IOCtlV_CTRLMSG_cases cmd s) as [E|[[_ E]|E]]; rewrite E; eauto.
  - eauto.
  - unfold IOCtlV_INTRMSG. rewrite bind_get.
    repeat match goal with
           | |- context [if ?c then _ else _] => destruct c
           end; eauto.
  - eauto.
Qed.

(** X1. After a detected reset on a third-party adapter with one to eleven
    keys in the store, a request of any kind is handled only after the
    delete-all command, at most a hundred polls for its completion, the
    write command built from the whole store, and at most a hundred polls
    for its completion: whatever the request submits or answers comes after
    them in the trace. *)
Theorem resync_precedes_request (s : BluetoothReal) (request : IOCtlVRequest) :
  m_is_wii_bt_module s = false ->
  s_need_reset_keys s = true ->
  s_link_keys s <> ∅ ->
  (size (s_link_keys s) <= 11)%nat ->
  map_Forall (fun addr key => length addr = 6%nat /\ length key = 16%nat)
    (s_link_keys s) ->
  exists k1 k2 s2 t2,
    (k1 <= 100)%nat /\ (k2 <= 100)%nat /\
    IOCtlV_switch request
      (set_adapter_events (drop (k1 + k2) (adapter_events s))
         (set_need_reset_keys false s)) = Done (GetNoReply, s2, t2) /\
    IOCtlV request s =
      Done (GetNoReply, s2,
            ([libusb_control_transfer delete_all_packet] ++
             replicate k1 libusb_interrupt_transfer ++
             [libusb_control_transfer
                (write_stored_link_keys_packet (s_link_keys s))] ++
             replicate k2 libusb_interrupt_transfer) ++ t2).
Proof.
  intros Hw Hn Hne Hsize Hwf.
  pose proof (IOCtlV_reset_keys_run s Hw Hn) as Hrun.
  destruct (decide (s_link_keys s = ∅)); [done|].
  rewrite store_link_key_packet_full in Hrun by assumption.
  simpl in Hrun. destruct Hrun as (k1 & k2 & Hk1 & Hk2 & _ & E).
  destruct (IOCtlV_switch_total request
              (set_adapter_events (drop (k1 + k2) (adapter_events s))
                 (set_need_reset_keys false s))) as (s2 & t2 & E2).
  exists k1, k2, s2, t2. repeat split; [assumption|assumption|exact E2|].
  rewrite (IOCtlV_after_reset_keys _ _ _ _ E), E2. reflexivity.
Qed.

End ResyncTrace.

Lemma resync_precedes_request_witness :
  exists k1 k2 s2 t2,
    (k1 <= 100)%nat /\ (k2 <= 100)%nat /\
    @IOCtlV_switch hci_std (IOCTLV_USBV0_BLKMSG example_intr)
      (set_adapter_events
         (drop (k1 + k2)
            (adapter_events
               (set_need_reset_keys true
                  (opened false example_memory [None; None] example_keys))))
         (set_need_reset_keys false
            (set_need_reset_keys true
               (opened false example_memory [None; None] example_keys)))) =
      Done (GetNoReply, s2, t2) /\
    @IOCtlV hci_std (IOCTLV_USBV0_BLKMSG example_intr)
      (set_need_reset_keys true
         (opened false example_memory [None; None] example_keys)) =
      Done (GetNoReply, s2,
            ([libusb_control_transfer (@delete_all_packet hci_std)] ++
             replicate k1 libusb_interrupt_transfer ++
             [libusb_control_transfer
                (@write_stored_link_keys_packet hci_std example_keys)] ++
             replicate k2 libusb_interrupt_transfer) ++ t2).
Proof.
  apply (@resync_precedes_request hci_std
           (set_need_reset_keys true
              (opened false example_memory [None; None] example_keys))
           (IOCTLV_USBV0_BLKMSG example_intr)).
  - reflexivity.
  - reflexivity.
  - apply insert_non_empty.
  - vm_compute. lia.
  - apply map_Forall_insert_2; [split; reflexivity|].
    apply map_Forall_insert_2; [split; reflexivity|].
    apply map_Forall_empty.
Defined.

(** ** Every request that is handled is answered once *)

(** The request handles a trace answers or hands to the transport. *)
Definition handled (t : list effect) : list Z :=
  omap (fun e => match e with
                 | EnqueueReply r _ => Some r
                 | libusb_submit_transfer tr => Some (transfer_request tr)
                 | _ => None
                 end) t.

(** The replies of a trace: handle and return value. *)
Definition replies (t : list effect) : list (Z * Z) :=
  omap (fun e => match e with
                 | EnqueueReply r n => Some (r, n)
                 | _ => None
                 end) t.

Section Once.
Context `{hci_h}.

(** The control requests that [IOCtlV] latches instead of forwarding. *)
Definition is_latched (s : BluetoothReal) (request : IOCtlVRequest) : bool :=
  match request with
  | IOCTLV_USBV0_CTRLMSG cmd =>
      let opcode := cmd_opcode (Memory s) cmd in
      (opcode =? HCI_CMD_READ_BUFFER_SIZE) ||
      negb (m_is_wii_bt_module s) && ((opcode =? 0xFC4C) || (opcode =? 0xFC4F))
  | _ => false
  end.

Definition is_transfer_request (request : IOCtlVRequest) : bool :=
  match request with
  | IOCTLV_other _ _ => false
  | _ => true
  end.

(** X2. A control, bulk or interrupt request that is not latched is, within
    [IOCtlV]'s own [switch], either answered once or submitted once to the
    transport, under its own handle, and nothing else is answered or
    submitted. *)
Theorem unlatched_request_handled_once (request : IOCtlVRequest)
    (s : BluetoothReal) :
  is_transfer_request request = true ->
  is_latched s request = false ->
  handled (trace_of (IOCtlV_switch request s)) = [request_handle request].
Proof.
  intros Ht Hl. destruct request as [cmd|buffer|buffer|r h]; simpl in *.
  - apply orb_false_iff in Hl as [Hr Hv]. apply Z.eqb_neq in Hr.
    rewrite IOCtlV_CTRLMSG_forward; [reflexivity|exact Hr|].
    destruct (m_is_wii_bt_module s); [left; reflexivity|right].
    simpl in Hv. apply orb_false_iff in Hv as [H1 H2].
    split; apply Z.eqb_neq; assumption.
  - reflexivity.
  - unfold IOCtlV_INTRMSG. rewrite bind_get.
    repeat match goal with
           | |- context [if ?c then _ else _] => destruct c
           end; reflexivity.
  - discriminate.
Qed.

(** X3. The completion of a control transfer answers the request once, with
    the byte count the transport reports, whatever the status. *)
Theorem CommandCallback_replies_once (buffer : list byte)
    (cmd : V0CtrlMessage) (tr_status : libusb_transfer_status)
    (actual_length : Z) (s : BluetoothReal) :
  exists s' t,
    CommandCallback buffer cmd tr_status actual_length s = Done (tt, s', t) /\
    replies t = [(cmd_ios_request cmd, actual_length)] /\
    handled t = [cmd_ios_request cmd].
Proof.
  unfold CommandCallback, note_transfer_status.
  destruct (bool_decide (tr_status <> LIBUSB_TRANSFER_COMPLETED) &&
            bool_decide (tr_status <> LIBUSB_TRANSFER_NO_DEVICE));
    [destruct (s_showed_failed_transfer s) eqn:E|];
    unfold bind, get, modify, emit, ret; simpl; rewrite ?E; simpl;
    eexists _, _; (split; [reflexivity|]); split; reflexivity.
Qed.

(** X4. The completion of a bulk or interrupt transfer answers the request
    once, with the byte count the transport reports, whatever the status
    and whatever the event. *)
Theorem TransferCallback_replies_once (ctrl : V0IntrMessage)
    (tr_status : libusb_transfer_status) (actual_length : Z)
    (s : BluetoothReal) :
  exists s' t,
    TransferCallback ctrl tr_status actual_length s = Done (tt, s', t) /\
    replies t = [(ios_request ctrl, actual_length)] /\
    handled t = [ios_request ctrl].
Proof.
  unfold TransferCallback, note_transfer_status.
  destruct (bool_decide (tr_status <> LIBUSB_TRANSFER_COMPLETED) &&
            bool_decide (tr_status <> LIBUSB_TRANSFER_TIMED_OUT) &&
            bool_decide (tr_status <> LIBUSB_TRANSFER_NO_DEVICE));
    [destruct (s_showed_failed_transfer s) eqn:E|];
    unfold bind, get, modify, emit, ret; simpl; rewrite ?E; simpl;
    repeat match goal with
           | |- context [if ?c then _ else _] => destruct c
           end; simpl;
    eexists _, _; (split; [reflexivity|]); split; reflexivity.
Qed.

End Once.

Lemma unlatched_request_handled_once_witness :
  handled
    (trace_of
       (@IOCtlV_switch hci_std (IOCTLV_USBV0_INTRMSG example_intr)
          example_device)) =
  [request_handle (IOCTLV_USBV0_INTRMSG example_intr)].
Proof.
  apply (@unlatched_request_handled_once hci_std); reflexivity.
Defined.

(** ** What the completion of an event transfer records *)

Section Events.
Context `{hci_h}.

(** The address and the key of a link-key notification in the guest
    buffer of the request: they follow the two bytes of the event header. *)
Definition notified_address (s : BluetoothReal) (ctrl : V0IntrMessage)
    : list byte :=
  CopyFromEmu (Memory s) (data_address ctrl + 2) 6.

Definition notified_key (s : BluetoothReal) (ctrl : V0IntrMessage)
    : list byte :=
  CopyFromEmu (Memory s) (data_address ctrl + 8) 16.

(** X5. A completed transfer on the event endpoint that carries a link-key
    notification upserts the store with the notified address and key, and
    the request is answered. *)
Theorem TransferCallback_link_key_notification (ctrl : V0IntrMessage)
    (actual_length : Z) (s : BluetoothReal) :
  endpoint ctrl = HCI_EVENT ->
  Z_of_u8 (Memory s (data_address ctrl)) = HCI_EVENT_LINK_KEY_NOTIFICATION ->
  TransferCallback ctrl LIBUSB_TRANSFER_COMPLETED actual_length s =
    Done (tt,
          set_link_keys
            (<[notified_address s ctrl := notified_key s ctrl]> (s_link_keys s))
            (set_showed_failed_transfer false s),
          [EnqueueReply (ios_request ctrl) actual_length]).
Proof.
  intros He Hc. unfold TransferCallback, note_transfer_status.
  unfold bind, get, modify, emit, ret. simpl.
  rewrite He, Z.eqb_refl, Hc, Z.eqb_refl.
  unfold notified_address, notified_key.
  replace (data_address ctrl + 8) with (data_address ctrl + 2 + 6) by lia.
  reflexivity.
Qed.

(** X6. A completed transfer on the event endpoint that carries the
    command-complete event of a reset raises the needs-key-resync latch and
    leaves the store alone. *)
Theorem TransferCallback_reset_detected (ctrl : V0IntrMessage)
    (actual_length : Z) (s : BluetoothReal) :
  endpoint ctrl = HCI_EVENT ->
  Z_of_u8 (Memory s (data_address ctrl)) = HCI_EVENT_COMMAND_COMPL ->
  HCI_EVENT_COMMAND_COMPL <> HCI_EVENT_LINK_KEY_NOTIFICATION ->
  of_le16 (Memory s (data_address ctrl + 3)) (Memory s (data_address ctrl + 4)) =
    HCI_CMD_RESET ->
  TransferCallback ctrl LIBUSB_TRANSFER_COMPLETED actual_length s =
    Done (tt,
          set_need_reset_keys true (set_showed_failed_transfer false s),
          [EnqueueReply (ios_request ctrl) actual_length]).
Proof.
  intros He Hc Hne Ho. unfold TransferCallback, note_transfer_status.
  unfold bind, get, modify, emit, ret. simpl.
  rewrite He, Z.eqb_refl, Hc, Ho, !Z.eqb_refl.
  apply Z.eqb_neq in Hne. rewrite Hne. reflexivity.
Qed.

(** X7. A transfer that did not complete, or that is not on the event
    endpoint, changes neither the store nor the latch. *)
Theorem TransferCallback_other_keeps_store (ctrl : V0IntrMessage)
    (tr_status : libusb_transfer_status) (actual_length : Z)
    (s : BluetoothReal) :
  tr_status <> LIBUSB_TRANSFER_COMPLETED \/ endpoint ctrl <> HCI_EVENT ->
  exists s' t,
    TransferCallback ctrl tr_status actual_length s = Done (tt, s', t) /\
    s_link_keys s' = s_link_keys s /\
    s_need_reset_keys s' = s_need_reset_keys s.
Proof.
  intros Hn. unfold TransferCallback.
  assert (Hg : bool_decide (tr_status = LIBUSB_TRANSFER_COMPLETED) &&
               (endpoint ctrl =? HCI_EVENT) = false).
  { destruct Hn as [Hn|Hn].
    - rewrite bool_decide_eq_false_2 by exact Hn. reflexivity.
    - apply Z.eqb_neq in Hn. rewrite Hn. apply andb_false_r. }
  unfold note_transfer_status, bind, get, modify, emit, ret. simpl.
  destruct (bool_decide (tr_status <> LIBUSB_TRANSFER_COMPLETED) &&
            bool_decide (tr_status <> LIBUSB_TRANSFER_TIMED_OUT) &&
            bool_decide (tr_status <> LIBUSB_TRANSFER_NO_DEVICE));
    [destruct (s_showed_failed_transfer s) eqn:E|];
    simpl; rewrite ?E; simpl; rewrite Hg; simpl; eauto.
Qed.

End Events.

(** A link-key notification at address 100 for the device
    11:22:33:44:55:66 (wire order), and the command-complete event of a
    reset at the same place. *)
Definition example_notification_memory : Z -> byte :=
  CopyToEmu example_memory 100
    ([x18; x16] ++ example_address ++ replicate 16 x07).

Definition example_reset_memory : Z -> byte :=
  CopyToEmu example_memory 100 [x0e; x04; x01; x03; x0c; x00].

Lemma TransferCallback_link_key_notification_witness :
  @TransferCallback hci_std example_intr LIBUSB_TRANSFER_COMPLETED 24
    (opened false example_notification_memory [] ∅) =
  Done (tt,
        set_link_keys
          (<[notified_address
               (opened false example_notification_memory [] ∅) example_intr :=
             notified_key
               (opened false example_notification_memory [] ∅) example_intr]>
             ∅)
          (set_showed_failed_transfer false
             (opened false example_notification_memory [] ∅)),
        [EnqueueReply 8 24]) /\
  notified_address (opened false example_notification_memory [] ∅)
    example_intr = example_address /\
  notified_key (opened false example_notification_memory [] ∅)
    example_intr = replicate 16 x07.
Proof.
  split; [|split; vm_compute; reflexivity].
  apply (@TransferCallback_link_key_notification hci_std example_intr 24
           (opened false example_notification_memory [] ∅));
    vm_compute; reflexivity.
Defined.

Lemma TransferCallback_reset_detected_witness :
  @TransferCallback hci_std example_intr LIBUSB_TRANSFER_COMPLETED 6
    (opened false example_reset_memory [] ∅) =
  Done (tt,
        set_need_reset_keys true
          (set_showed_failed_transfer false
             (opened false example_reset_memory [] ∅)),
        [EnqueueReply 8 6]).
Proof.
  apply (@TransferCallback_reset_detected hci_std example_intr 6
           (opened false example_reset_memory [] ∅));
    vm_compute; congruence.
Defined.

Lemma TransferCallback_other_keeps_store_witness :
  exists s' t,
    @TransferCallback hci_std example_intr LIBUSB_TRANSFER_TIMED_OUT 0
      (opened false example_reset_memory [] example_keys) = Done (tt, s', t) /\
    s_link_keys s' = example_keys /\
    s_need_reset_keys s' = false.
Proof.
  apply (@TransferCallback_other_keeps_store hci_std example_intr
           LIBUSB_TRANSFER_TIMED_OUT 0
           (opened false example_reset_memory [] example_keys)).
  left. discriminate.
Defined.

(** ** The hold time, the bounded wait, the store after a delete command *)

Lemma of_le16_le16 z :
  of_le16 (u8_of_Z (u16 z)) (u8_of_Z (u16 z / 256)) = u16 z.
Proof.
  unfold of_le16. rewrite !Z_of_u8_of_Z.
  assert (Hr : 0 <= u16 z < 65536) by (apply Z.mod_pos_bound; lia).
  rewrite (Z.mod_small (u16 z / 256)).
  - rewrite (Z.div_mod (u16 z) 256) at 3 by lia. lia.
  - split; [apply Z.div_pos; lia|apply Z.div_lt_upper_bound; lia].
Qed.

Section Bounds.
Context `{hci_h}.

(** X8. A button held for exactly the hold time is still Held: the test is
    for strictly more. *)
Theorem sync_button_held_at_threshold (s : BluetoothReal) (now : Z) :
  m_sync_button_state s = Held ->
  GetTimeDifference now (m_sync_button_held_timer s) =
    SYNC_BUTTON_HOLD_MS_TO_RESET ->
  m_sync_button_state (UpdateSyncButtonState true now s) = Held.
Proof.
  intros Hs Ht. unfold UpdateSyncButtonState. rewrite Hs. simpl.
  rewrite Ht, Z.ltb_irrefl, !andb_false_r. exact Hs.
Qed.

(** X9. An adapter that answers nothing is polled a hundred times and no
    more. *)
Theorem WaitForHCICommandComplete_gives_up (opcode : Z) (s : BluetoothReal) :
  adapter_events s = [] ->
  WaitForHCICommandComplete opcode s =
    Done (tt, s, replicate 100 libusb_interrupt_transfer).
Proof.
  intros Ev. unfold WaitForHCICommandComplete.
  generalize (replicate 1024 x00). generalize 100%nat.
  induction n as [|n IH]; intros buffer; [reflexivity|].
  simpl. rewrite (bind_Done _ _ s None s [libusb_interrupt_transfer])
    by (unfold poll; rewrite Ev; reflexivity).
  simpl. rewrite IH. reflexivity.
Qed.

Lemma receive_prefix (buffer pre rest : list byte) :
  (length pre <= length buffer)%nat ->
  exists tl, receive buffer (pre ++ rest) = pre ++ tl.
Proof.
  intros Hl. unfold receive. rewrite take_app_ge by exact Hl.
  rewrite <- app_assoc. eexists. reflexivity.
Qed.

Lemma WaitForHCICommandComplete_loop_stops (tries : nat) (opcode : Z)
    (buffer : list byte) (s : BluetoothReal)
    (rest : list byte) (answers : list (option (list byte))) :
  (5 <= length buffer)%nat ->
  adapter_events s =
    Some ([u8_of_Z HCI_EVENT_COMMAND_COMPL; x04; x01] ++ le16 opcode ++ rest)
    :: answers ->
  0 <= HCI_EVENT_COMMAND_COMPL < 256 ->
  WaitForHCICommandComplete_loop (S tries) opcode buffer s =
    Done (tt, set_adapter_events answers s, [libusb_interrupt_transfer]).
Proof.
  intros Hb Ev Hc. cbn [WaitForHCICommandComplete_loop].
  rewrite (bind_Done _ _ s _ (set_adapter_events answers s)
             [libusb_interrupt_transfer])
    by (unfold poll; rewrite Ev; reflexivity).
  cbn [from_option].
  destruct (receive_prefix buffer
              ([u8_of_Z HCI_EVENT_COMMAND_COMPL; x04; x01] ++ le16 opcode)
              rest Hb) as [tl E].
  rewrite <- app_assoc in E. rewrite E.
  rewrite bool_decide_eq_true_2 by eauto.
  unfold unpack_hci_event_hdr_t, unpack_SHCIEventCommand, le16.
  cbn [app nth event Opcode andb].
  rewrite Z_of_u8_of_Z, Z.mod_small, Z.eqb_refl by exact Hc.
  rewrite of_le16_le16, Z.eqb_refl. reflexivity.
Qed.

(** X10. The wait ends at the first answer that is the command-complete event
    of the opcode waited for. *)
Theorem WaitForHCICommandComplete_stops (opcode : Z) (s : BluetoothReal)
    (rest : list byte) (answers : list (option (list byte))) :
  adapter_events s =
    Some ([u8_of_Z HCI_EVENT_COMMAND_COMPL; x04; x01] ++ le16 opcode ++ rest)
    :: answers ->
  0 <= HCI_EVENT_COMMAND_COMPL < 256 ->
  WaitForHCICommandComplete opcode s =
    Done (tt, set_adapter_events answers s, [libusb_interrupt_transfer]).
Proof.
  intros Ev Hc.
  apply (WaitForHCICommandComplete_loop_stops 99 opcode (replicate 1024 x00)
           s rest answers); [|exact Ev|exact Hc].
  rewrite length_replicate. lia.
Qed.

End Bounds.

Section DeleteCommand.
Context `{hci_h}.

(** X11. What a delete-stored-link-key request does to the store, byte by byte
    of the guest buffer: the request is forwarded, the flag tested is the
    byte at offset 6 of the data address and the address erased is the six
    bytes at offset 0, the command header included. *)
Theorem delete_stored_link_key_store_effect (cmd : V0CtrlMessage)
    (s : BluetoothReal) :
  cmd_opcode (Memory s) cmd = HCI_CMD_DELETE_STORED_LINK_KEY ->
  HCI_CMD_DELETE_STORED_LINK_KEY <> HCI_CMD_READ_BUFFER_SIZE ->
  HCI_CMD_DELETE_STORED_LINK_KEY <> 0xFC4C ->
  HCI_CMD_DELETE_STORED_LINK_KEY <> 0xFC4F ->
  IOCtlV_CTRLMSG cmd s =
    Done (GetNoReply,
          set_link_keys
            (if bool_decide (Memory s (cmd_data_address cmd + 6) <> x00)
             then ∅
             else delete (CopyFromEmu (Memory s) (cmd_data_address cmd) 6)
                    (s_link_keys s)) s,
          [libusb_submit_transfer
             (LIBUSB_TRANSFER_TYPE_CONTROL
                (forwarded_buffer (Memory s) cmd) cmd)]).
Proof.
  intros Ho Hr H1 H2.
  rewrite IOCtlV_CTRLMSG_forward by (rewrite Ho; auto).
  unfold keys_after_forward. rewrite Ho, Z.eqb_refl. reflexivity.
Qed.

End DeleteCommand.

Lemma sync_button_held_at_threshold_witness :
  m_sync_button_state
    (@UpdateSyncButtonState hci_std true 10000
       (set_sync_button_state Held example_device)) = Held.
Proof.
  apply (@sync_button_held_at_threshold hci_std
           (set_sync_button_state Held example_device) 10000); reflexivity.
Defined.

Lemma WaitForHCICommandComplete_gives_up_witness :
  @WaitForHCICommandComplete hci_std 0x0C12 example_device =
    Done (tt, example_device, replicate 100 libusb_interrupt_transfer).
Proof.
  apply (@WaitForHCICommandComplete_gives_up hci_std 0x0C12 example_device).
  reflexivity.
Defined.

Lemma WaitForHCICommandComplete_stops_witness :
  @WaitForHCICommandComplete hci_std 0x0C12
    (opened false example_memory
       [Some ([u8_of_Z (@HCI_EVENT_COMMAND_COMPL hci_std); x04; x01] ++
              le16 0x0C12 ++ [x00]); None] ∅) =
    Done (tt,
          set_adapter_events [None]
            (opened false example_memory
               [Some ([u8_of_Z (@HCI_EVENT_COMMAND_COMPL hci_std); x04; x01] ++
                      le16 0x0C12 ++ [x00]); None] ∅),
          [libusb_interrupt_transfer]).
Proof.
  apply (@WaitForHCICommandComplete_stops hci_std 0x0C12 _ [x00] [None]).
  - reflexivity.
  - vm_compute. split; congruence.
Defined.

Lemma delete_stored_link_key_store_effect_witness :
  @IOCtlV_CTRLMSG hci_std example_delete_cmd
    (set_link_keys example_keys
       (set_Memory example_delete_memory example_device)) =
    Done (GetNoReply,
          set_link_keys
            (if bool_decide (example_delete_memory 46 <> x00)
             then ∅
             else delete (CopyFromEmu example_delete_memory 40 6) example_keys)
            (set_link_keys example_keys
               (set_Memory example_delete_memory example_device)),
          [libusb_submit_transfer
             (LIBUSB_TRANSFER_TYPE_CONTROL
                (forwarded_buffer example_delete_memory example_delete_cmd)
                example_delete_cmd)]).
Proof.
  apply (@delete_stored_link_key_store_effect hci_std example_delete_cmd
           (set_link_keys example_keys
              (set_Memory example_delete_memory example_device)));
    vm_compute; congruence.
Defined.

(** ** The byte order of an address *)

(** X12. The address written AA:BB:CC:DD:EE:FF in the configuration text is
    stored in wire order, FF:EE:DD:CC:BB:AA, and saving the stored value
    gives the text back (with the key in lowercase digits). *)
Theorem address_byte_order (uppercase : bool) (u : nat -> uninitialized)
    (key : list byte) :
  (forall i, length (uninitialized_address (u i)) = 6%nat) ->
  (forall i, length (uninitialized_key (u i)) = 16%nat) ->
  length key = 16%nat ->
  LoadLinkKeys u
    ("AA:BB:CC:DD:EE:FF=" +:+ str_concat (hex2 uppercase <$> key)) ∅ =
    Some {[ [xff; xee; xdd; xcc; xbb; xaa] := key ]} /\
  SaveLinkKeys true {[ [xff; xee; xdd; xcc; xbb; xaa] := key ]} =
    "AA:BB:CC:DD:EE:FF=" +:+ str_concat (hex2 false <$> key).
Proof.
  intros Hua Huk Hk. split.
  - rewrite (LoadLinkKeys_forms u Hua Huk _
               [Some ([xff; xee; xdd; xcc; xbb; xaa], key)]);
      [reflexivity|].
    change ("AA:BB:CC:DD:EE:FF=" +:+ str_concat (hex2 uppercase <$> key))
      with (pair_text true uppercase [xff; xee; xdd; xcc; xbb; xaa] key).
    rewrite SplitString_one by apply pair_text_no_comma.
    constructor; [|constructor].
    apply entry_well_formed; [reflexivity|exact Hk].
  - unfold SaveLinkKeys.
    assert (E : entries {[ [xff; xee; xdd; xcc; xbb; xaa] := key ]} =
                [([xff; xee; xdd; xcc; xbb; xaa], key)]).
    { pose proof (entries_Permutation
                    {[ [xff; xee; xdd; xcc; xbb; xaa] := key ]}) as Hp.
      rewrite map_to_list_singleton in Hp.
      apply Permutation_singleton_r in Hp. exact Hp. }
    rewrite E. simpl fmap. rewrite str_concat_cons.
    simpl str_concat. rewrite str_app_nil_r, SaveLinkKeys_entry_pair_text.
    rewrite pop_back_app by discriminate. simpl pop_back.
    rewrite str_app_nil_r. reflexivity.
Qed.

Lemma address_byte_order_witness :
  LoadLinkKeys example_uninitialized
    ("AA:BB:CC:DD:EE:FF=" +:+
     str_concat (hex2 false <$> replicate 16 x5a)) ∅ =
    Some {[ [xff; xee; xdd; xcc; xbb; xaa] := replicate 16 x5a ]} /\
  SaveLinkKeys true {[ [xff; xee; xdd; xcc; xbb; xaa] := replicate 16 x5a ]} =
    "AA:BB:CC:DD:EE:FF=" +:+ str_concat (hex2 false <$> replicate 16 x5a).
Proof.
  apply (address_byte_order false example_uninitialized (replicate 16 x5a));
    reflexivity.
Defined.

(** ** The latched control requests *)

Section Latched.
Context `{hci_h}.

(** X13. A control request that is latched is neither answered nor
    submitted by [IOCtlV]'s [switch]: its trace is empty, and all that is
    left of the request is the latch, with the opcode for the vendor
    commands. The request handle is not kept. *)
Theorem latched_request_handled_never (cmd : V0CtrlMessage)
    (s : BluetoothReal) :
  is_latched s (IOCTLV_USBV0_CTRLMSG cmd) = true ->
  exists s',
    IOCtlV_switch (IOCTLV_USBV0_CTRLMSG cmd) s = Done (GetNoReply, s', []) /\
    (s' = set_fake_read_buffer_size_reply true s \/
     s' = set_fake_vendor_command_reply_opcode (cmd_opcode (Memory s) cmd)
            (set_fake_vendor_command_reply true s)).
Proof.
  intros Hl. simpl in Hl. simpl IOCtlV_switch.
  destruct (Z.eqb_spec (cmd_opcode (Memory s) cmd) HCI_CMD_READ_BUFFER_SIZE)
    as [Hr|Hr].
  - eexists. split; [apply IOCtlV_CTRLMSG_read_buffer_size, Hr|]. left.
    reflexivity.
  - simpl in Hl. apply andb_true_iff in Hl as [Hw Hv].
    apply negb_true_iff in Hw. apply orb_true_iff in Hv.
    eexists. split; [|right; reflexivity].
    apply IOCtlV_CTRLMSG_vendor; [exact Hr|exact Hw|].
    destruct Hv as [Hv|Hv]; apply Z.eqb_eq in Hv; auto.
Qed.

End Latched.

Lemma latched_request_handled_never_witness :
  exists s',
    @IOCtlV_switch hci_std (IOCTLV_USBV0_CTRLMSG example_vendor_cmd)
      (set_Memory example_vendor_memory example_device) =
      Done (GetNoReply, s', []) /\
    (s' = set_fake_read_buffer_size_reply true
            (set_Memory example_vendor_memory example_device) \/
     s' = set_fake_vendor_command_reply_opcode
            (cmd_opcode
               (Memory (set_Memory example_vendor_memory example_device))
               example_vendor_cmd)
            (set_fake_vendor_command_reply true
               (set_Memory example_vendor_memory example_device))).
Proof.
  apply (@latched_request_handled_never hci_std example_vendor_cmd
           (set_Memory example_vendor_memory example_device)).
  reflexivity.
Defined.

(** * Further properties of the handlers *)

(** ** When the keys are written back *)

(** The blocking transfers the core makes itself: the commands of the
    resynchronisation and the polls for their completion. *)
Definition is_blocking (e : effect) : bool :=
  match e with
  | libusb_control_transfer _ => true
  | libusb_interrupt_transfer => true
  | _ => false
  end.

Section ResyncOnce.
Context `{hci_h}.

(** The [switch] of [IOCtlV] makes no blocking transfer and leaves the
    needs-key-resync latch, the adapter's identity and the adapter alone. *)
Lemma IOCtlV_switch_frame request s r s' t :
  IOCtlV_switch request s = Done (r, s', t) ->
  s_need_reset_keys s' = s_need_reset_keys s /\
  m_is_wii_bt_module s' = m_is_wii_bt_module s /\
  adapter_events s' = adapter_events s /\
  Forall (fun e => is_blocking e = false) t.
Proof.
  destruct request as [cmd|buffer|buffer|rq h]; simpl.
  - destruct (IOCtlV_CTRLMSG_cases cmd s) as [E|[[_ E]|E]]; rewrite E;
      intros [= <- <- <-]; repeat split; repeat constructor.
  - intros [= <- <- <-]. repeat split. repeat constructor.
  - unfold IOCtlV_INTRMSG. rewrite bind_get. intros E.
    destruct_ifs_in E; injection E as <- <- <-; repeat split;
      repeat constructor.
  - intros [= <- <- <-]. repeat split. constructor.
Qed.

(** X14. On the first-party module the keys are never written back: a
    request of any kind makes no blocking transfer to the adapter, and the
    needs-key-resync latch is left as it is, set if it was set. *)
Theorem first_party_module_never_resyncs (request : IOCtlVRequest)
    (s : BluetoothReal) :
  m_is_wii_bt_module s = true ->
  exists s' t,
    IOCtlV request s = Done (GetNoReply, s', t) /\
    s_need_reset_keys s' = s_need_reset_keys s /\
    adapter_events s' = adapter_events s /\
    Forall (fun e => is_blocking e = false) t.
Proof.
  intros Hw.
  destruct (IOCtlV_switch_total request s) as (s' & t & E).
  exists s', t.
  rewrite (IOCtlV_after_reset_keys request s s [])
    by (apply IOCtlV_reset_keys_idle; auto).
  rewrite E. split; [reflexivity|].
  destruct (IOCtlV_switch_frame _ _ _ _ _ E) as (Hn & _ & He & Ht). auto.
Qed.

(** X15. The keys are written back once: after a request that was handled
    on a third-party adapter the latch is clear, and the request that
    follows it makes no blocking transfer to the adapter. *)
Theorem resync_happens_once (request request' : IOCtlVRequest)
    (s s1 : BluetoothReal) (t1 : list effect) :
  m_is_wii_bt_module s = false ->
  IOCtlV request s = Done (GetNoReply, s1, t1) ->
  s_need_reset_keys s1 = false /\
  exists s2 t2,
    IOCtlV request' s1 = Done (GetNoReply, s2, t2) /\
    s_need_reset_keys s2 = false /\
    Forall (fun e => is_blocking e = false) t2.
Proof.
  intros Hw E. unfold IOCtlV in E.
  apply bind_Done_inv in E as ([] & s0 & t0 & t0' & E0 & Esw & ->).
  pose proof (IOCtlV_reset_keys_clears _ _ _ Hw E0) as Hc.
  destruct (IOCtlV_switch_frame _ _ _ _ _ Esw) as (Hn & _ & _ & _).
  assert (Hn1 : s_need_reset_keys s1 = false) by congruence.
  split; [exact Hn1|].
  destruct (IOCtlV_switch_total request' s1) as (s2 & t2 & E2).
  exists s2, t2.
  rewrite (IOCtlV_after_reset_keys request' s1 s1 [])
    by (apply IOCtlV_reset_keys_idle; auto).
  rewrite E2. split; [reflexivity|].
  destruct (IOCtlV_switch_frame _ _ _ _ _ E2) as (Hn2 & _ & _ & Ht).
  split; [congruence|exact Ht].
Qed.

(** X16. With an empty store only the delete-all command is sent: it is
    followed by at most a hundred polls and by the request itself, and no
    write command is made. *)
Theorem resync_with_empty_store (request : IOCtlVRequest) (s : BluetoothReal) :
  m_is_wii_bt_module s = false ->
  s_need_reset_keys s = true ->
  s_link_keys s = ∅ ->
  exists k s2 t2,
    (k <= 100)%nat /\
    IOCtlV_switch request
      (set_adapter_events (drop k (adapter_events s))
         (set_need_reset_keys false s)) = Done (GetNoReply, s2, t2) /\
    IOCtlV request s =
      Done (GetNoReply, s2,
            [libusb_control_transfer delete_all_packet] ++
            replicate k libusb_interrupt_transfer ++ t2).
Proof.
  intros Hw Hn He.
  pose proof (IOCtlV_reset_keys_run s Hw Hn) as Hrun.
  destruct (decide (s_link_keys s = ∅)); [|done].
  destruct Hrun as (k1 & k2 & Hk1 & _ & Hk2 & E).
  specialize (Hk2 eq_refl). subst k2. rewrite Nat.add_0_r in E.
  simpl in E. rewrite app_nil_r in E.
  destruct (IOCtlV_switch_total request
              (set_adapter_events (drop k1 (adapter_events s))
                 (set_need_reset_keys false s))) as (s2 & t2 & E2).
  exists k1, s2, t2. split; [exact Hk1|]. split; [exact E2|].
  rewrite (IOCtlV_after_reset_keys _ _ _ _ E), E2.
  reflexivity.
Qed.

End ResyncOnce.

Lemma first_party_module_never_resyncs_witness :
  exists s' t,
    @IOCtlV hci_std (IOCTLV_USBV0_BLKMSG example_intr)
      (set_need_reset_keys true
         (opened true example_memory [] example_keys)) =
      Done (GetNoReply, s', t) /\
    s_need_reset_keys s' = true /\
    adapter_events s' = [] /\
    Forall (fun e => is_blocking e = false) t.
Proof.
  apply (@first_party_module_never_resyncs hci_std
           (IOCTLV_USBV0_BLKMSG example_intr)
           (set_need_reset_keys true
              (opened true example_memory [] example_keys))).
  reflexivity.
Defined.

Lemma resync_with_empty_store_witness :
  exists k s2 t2,
    (k <= 100)%nat /\
    @IOCtlV_switch hci_std (IOCTLV_USBV0_BLKMSG example_intr)
      (set_adapter_events
         (drop k (adapter_events (set_need_reset_keys true example_device)))
         (set_need_reset_keys false
            (set_need_reset_keys true example_device))) =
      Done (GetNoReply, s2, t2) /\
    @IOCtlV hci_std (IOCTLV_USBV0_BLKMSG example_intr)
      (set_need_reset_keys true example_device) =
      Done (GetNoReply, s2,
            [libusb_control_transfer (@delete_all_packet hci_std)] ++
            replicate k libusb_interrupt_transfer ++ t2).
Proof.
  apply (@resync_with_empty_store hci_std (IOCTLV_USBV0_BLKMSG example_intr)
           (set_need_reset_keys true example_device)); reflexivity.
Defined.

Lemma resync_happens_once_witness :
  let o := @IOCtlV hci_std (IOCTLV_USBV0_BLKMSG example_intr)
             (set_need_reset_keys true example_device) in
  s_need_reset_keys (state_of o example_device) = false /\
  exists s2 t2,
    @IOCtlV hci_std (IOCTLV_USBV0_INTRMSG example_intr')
      (state_of o example_device) = Done (GetNoReply, s2, t2) /\
    s_need_reset_keys s2 = false /\
    Forall (fun e => is_blocking e = false) t2.
Proof.
  intros o.
  apply (@resync_happens_once hci_std (IOCTLV_USBV0_BLKMSG example_intr)
           (IOCTLV_USBV0_INTRMSG example_intr')
           (set_need_reset_keys true example_device)
           (state_of o example_device) (trace_of o)).
  - reflexivity.
  - vm_compute. reflexivity.
Defined.

(** ** More on loading the configuration text *)

Lemma foldl_upsert_lookup_notin (es : list (list byte * list byte))
    (keys : gmap (list byte) (list byte)) (a : list byte) :
  a ∉ es.*1 -> foldl upsert_entry keys es !! a = keys !! a.
Proof.
  revert keys. induction es as [|[a' k'] es IH]; intros keys Hn;
    [reflexivity|].
  simpl in *. apply not_elem_of_cons in Hn as [Hne Hn].
  rewrite IH by exact Hn. unfold upsert_entry, Upsert. simpl.
  apply lookup_insert_ne. congruence.
Qed.

Lemma foldl_upsert_lookup_last (es1 es2 : list (list byte * list byte))
    (keys : gmap (list byte) (list byte)) (a k : list byte) :
  a ∉ es2.*1 ->
  foldl upsert_entry keys (es1 ++ (a, k) :: es2) !! a = Some k.
Proof.
  intros Hn. rewrite foldl_app. simpl.
  rewrite foldl_upsert_lookup_notin by exact Hn.
  unfold upsert_entry, Upsert. simpl. apply lookup_insert_eq.
Qed.

(** X17. Loading merges the text into the store that is there: for every
    text of skipped and well-formed entries, an address that several
    entries give ends with the key of the last of them, and an address the
    text does not give keeps the key the store had for it, or none. *)
Theorem LoadLinkKeys_last_entry_wins (u : nat -> uninitialized)
    (entries : string) (forms : list (option (list byte * list byte)))
    (keys : gmap (list byte) (list byte)) (addr : list byte) :
  (forall i, length (uninitialized_address (u i)) = 6%nat) ->
  (forall i, length (uninitialized_key (u i)) = 16%nat) ->
  Forall2 entry_form (SplitString entries ","%char) forms ->
  exists keys',
    LoadLinkKeys u entries keys = Some keys' /\
    (forall key es1 es2,
       omap id forms = es1 ++ (addr, key) :: es2 -> addr ∉ es2.*1 ->
       keys' !! addr = Some key) /\
    (addr ∉ (omap id forms).*1 -> keys' !! addr = keys !! addr).
Proof.
  intros Hua Huk Hf. eexists. split.
  - apply (LoadLinkKeys_forms u Hua Huk), Hf.
  - split.
    + intros key es1 es2 -> Hn. apply foldl_upsert_lookup_last, Hn.
    + apply foldl_upsert_lookup_notin.
Qed.

(** The characters of a string. *)
Fixpoint str_length (s : string) : nat :=
  match s with
  | EmptyString => O
  | String _ s' => S (str_length s')
  end.

(** An entry whose key, the text after the equals sign, has more than 32
    characters. *)
Definition key_too_long (p : string) : Prop :=
  exists index,
    str_find "="%char p = Some index /\
    (32 < str_length (str_drop (index + 1) p))%nat.

Lemma decode_key_overflow (m : nat) (key_string : string) (pos : nat)
    (key : list byte) (value : nat -> Z) :
  (length key - pos = m)%nat ->
  (2 * m < str_length key_string)%nat ->
  decode_key key_string pos key value = None.
Proof.
  revert key_string pos key.
  induction m as [|m IH]; intros key_string pos key Hm Hl.
  - destruct key_string as [|c1 [|c2 rest]]; simpl in Hl; [lia| |];
      simpl; unfold array_set;
      (destruct (decide (pos < length key)%nat); [lia|reflexivity]).
  - destruct key_string as [|c1 [|c2 rest]]; simpl in Hl; [lia|lia|].
    simpl. unfold array_set.
    destruct (decide (pos < length key)%nat); [|lia]. simpl.
    apply IH; [rewrite length_insert; lia|lia].
Qed.

Lemma LoadLinkKeys_pair_too_long u p keys :
  length (uninitialized_key u) = 16%nat ->
  key_too_long p -> LoadLinkKeys_pair u p keys = None.
Proof.
  intros Huk (index & Hf & Hl). unfold LoadLinkKeys_pair. rewrite Hf.
  rewrite (decode_key_overflow 16); [reflexivity|lia|lia].
Qed.

(** X18. An entry with more than 32 characters after its equals sign is
    decoded past the end of the 16-byte key array: loading a text that has
    one such entry anywhere has no defined result, whatever the other
    entries are. *)
Theorem LoadLinkKeys_key_too_long (u : nat -> uninitialized)
    (entries : string) (keys : gmap (list byte) (list byte)) :
  (forall i, length (uninitialized_key (u i)) = 16%nat) ->
  Exists key_too_long (SplitString entries ","%char) ->
  LoadLinkKeys u entries keys = None.
Proof.
  intros Huk Hex. unfold LoadLinkKeys.
  destruct (decide (entries = EmptyString)) as [->|_].
  { simpl in Hex. apply Exists_cons in Hex as [(i & Hf & _)|Hex];
      [discriminate|]. inversion Hex. }
  generalize 0%nat. revert keys.
  induction Hex as [p ps Hp|p ps _ IH]; intros keys round; simpl.
  - rewrite LoadLinkKeys_pair_too_long by auto. reflexivity.
  - destruct (LoadLinkKeys_pair (u round) p keys) as [keys'|];
      [simpl; apply IH|reflexivity].
Qed.

(** X19. A key the text gives with fewer than 16 bytes is not refused: the
    bytes given are stored, followed by what the uninitialised key array
    held after them. *)
Theorem LoadLinkKeys_pair_short_key (u : uninitialized) (up upk : bool)
    (addr key : list byte) (keys : gmap (list byte) (list byte)) :
  length addr = 6%nat ->
  (length key <= 16)%nat ->
  length (uninitialized_address u) = 6%nat ->
  length (uninitialized_key u) = 16%nat ->
  LoadLinkKeys_pair u (pair_text up upk addr key) keys =
    Some (<[addr := key ++ drop (length key) (uninitialized_key u)]> keys).
Proof.
  intros Ha Hk Hua Huk. unfold LoadLinkKeys_pair, pair_text.
  rewrite str_app_cons, str_app_nil.
  rewrite str_find_app by (apply MacAddressToString_plain; auto).
  rewrite str_take_app, str_drop_app.
  rewrite StringToMacAddress_MacAddressToString
    by (rewrite ?length_reverse; assumption).
  rewrite reverse_involutive.
  rewrite decode_key_hex by lia.
  reflexivity.
Qed.

Lemma LoadLinkKeys_last_entry_wins_witness :
  exists keys',
    LoadLinkKeys example_uninitialized
      "11:22:33:44:55:66=01010101010101010101010101010101,11:22:33:44:55:66=02020202020202020202020202020202"
      example_keys = Some keys' /\
    (forall key es1 es2,
       omap id
         [Some ([x66; x55; x44; x33; x22; x11], replicate 16 x01);
          Some ([x66; x55; x44; x33; x22; x11], replicate 16 x02)] =
         es1 ++ ([x66; x55; x44; x33; x22; x11], key) :: es2 ->
       [x66; x55; x44; x33; x22; x11] ∉ es2.*1 ->
       keys' !! [x66; x55; x44; x33; x22; x11] = Some key) /\
    ([x66; x55; x44; x33; x22; x11] ∉
       (omap id
          [Some ([x66; x55; x44; x33; x22; x11], replicate 16 x01);
           Some ([x66; x55; x44; x33; x22; x11], replicate 16 x02)]).*1 ->
     keys' !! [x66; x55; x44; x33; x22; x11] =
       example_keys !! [x66; x55; x44; x33; x22; x11]).
Proof.
  apply (LoadLinkKeys_last_entry_wins example_uninitialized
           "11:22:33:44:55:66=01010101010101010101010101010101,11:22:33:44:55:66=02020202020202020202020202020202"
           [Some ([x66; x55; x44; x33; x22; x11], replicate 16 x01);
            Some ([x66; x55; x44; x33; x22; x11], replicate 16 x02)]
           example_keys [x66; x55; x44; x33; x22; x11]
           (fun _ => eq_refl) (fun _ => eq_refl)).
  change (SplitString
            "11:22:33:44:55:66=01010101010101010101010101010101,11:22:33:44:55:66=02020202020202020202020202020202"
            ","%char)
    with [pair_text false true [x66; x55; x44; x33; x22; x11]
            (replicate 16 x01);
          pair_text false true [x66; x55; x44; x33; x22; x11]
            (replicate 16 x02)].
  repeat constructor.
Defined.

Lemma LoadLinkKeys_key_too_long_witness :
  LoadLinkKeys example_uninitialized
    "junk,11:22:33:44:55:66=0102030405060708090A0B0C0D0E0F1011"
    example_keys = None.
Proof.
  apply (LoadLinkKeys_key_too_long example_uninitialized
           "junk,11:22:33:44:55:66=0102030405060708090A0B0C0D0E0F1011"
           example_keys (fun _ => eq_refl)).
  change (SplitString
            "junk,11:22:33:44:55:66=0102030405060708090A0B0C0D0E0F1011"
            ","%char)
    with ["junk"; "11:22:33:44:55:66=0102030405060708090A0B0C0D0E0F1011"].
  apply Exists_cons_tl, Exists_cons_hd.
  exists 17%nat. split; [reflexivity|]. simpl. lia.
Defined.

Lemma LoadLinkKeys_pair_short_key_witness :
  LoadLinkKeys_pair (example_uninitialized 0)
    (pair_text false true example_address [x01; x02]) ∅ =
  Some (<[example_address :=
            [x01; x02] ++ drop 2 (uninitialized_key (example_uninitialized 0))]>
          ∅).
Proof.
  apply (LoadLinkKeys_pair_short_key (example_uninitialized 0) false true
           example_address [x01; x02] ∅);
    [reflexivity|simpl; lia|reflexivity|reflexivity].
Defined.

(** ** Guest memory *)

Lemma CopyToEmu_lookup (mem : Z -> byte) (a : Z) (data : list byte) (x : Z) :
  CopyToEmu mem a data x =
    if decide (a <= x < a + Z.of_nat (length data))
    then nth (Z.to_nat (x - a)) data x00
    else mem x.
Proof.
  revert mem a. induction data as [|b data IH]; intros mem a.
  - simpl. destruct (decide _); [lia|reflexivity].
  - cbn [CopyToEmu]. rewrite IH.
    destruct (decide (a + 1 <= x < a + 1 + Z.of_nat (length data)))
      as [Hin|Hout].
    + destruct (decide _) as [_|Hn]; [|simpl in Hn; lia].
      replace (Z.to_nat (x - a)) with (S (Z.to_nat (x - (a + 1)))) by lia.
      reflexivity.
    + destruct (decide (x = a)) as [->|Hne].
      * rewrite fn_lookup_insert.
        destruct (decide _) as [_|Hn]; [|simpl in Hn; lia].
        replace (a - a) with 0 by lia. reflexivity.
      * rewrite fn_lookup_insert_ne by congruence.
        destruct (decide _) as [Hin|_]; [simpl in Hin; lia|reflexivity].
Qed.

Lemma CopyFromEmu_length (mem : Z -> byte) (a : Z) (n : nat) :
  length (CopyFromEmu mem a n) = n.
Proof. unfold CopyFromEmu. rewrite length_map, length_seq. reflexivity. Qed.

Lemma CopyFromEmu_nth (mem : Z -> byte) (a : Z) (n i : nat) :
  (i < n)%nat -> nth i (CopyFromEmu mem a n) x00 = mem (a + Z.of_nat i).
Proof.
  intros Hi. unfold CopyFromEmu.
  rewrite (nth_indep _ x00 (mem (a + Z.of_nat 0)))
    by (rewrite length_map, length_seq; exact Hi).
  rewrite (map_nth (fun i => mem (a + Z.of_nat i))), seq_nth by exact Hi.
  reflexivity.
Qed.

Section GuestMemory.
Context `{hci_h}.

(** X20. An interrupt request that is answered with a synthesized event
    changes guest memory only within the bytes it reports, counted from the
    data address of the request, whatever length the request gave for its
    buffer; an interrupt request that is submitted changes nothing. *)
Theorem fake_reply_stays_in_reported_bytes (buffer : V0IntrMessage)
    (s s' : BluetoothReal) (r : IPCCommandResult) (t : list effect) :
  0 <= data_address buffer ->
  data_address buffer + 5 < 4294967296 ->
  IOCtlV_INTRMSG buffer s = Done (r, s', t) ->
  (exists n,
     replies t = [(ios_request buffer, n)] /\
     forall a, a < data_address buffer \/ data_address buffer + n <= a ->
               Memory s' a = Memory s a) \/
  (replies t = [] /\ Memory s' = Memory s).
Proof.
  intros H0 H1 E.
  assert (Hu : forall k, 0 <= k <= 5 ->
            u32 (data_address buffer + k) = data_address buffer + k).
  { intros k Hk. unfold u32. apply Z.mod_small. lia. }
  destruct (decide (m_sync_button_state s = Pressed)) as [HP|HP].
  { rewrite IOCtlV_INTRMSG_Pressed in E by exact HP.
    injection E as <- <- <-. left. exists 3. split; [reflexivity|].
    intros a Ha. simpl. unfold sync_button_event_memory.
    rewrite (Hu 2) by lia. rewrite !CopyToEmu_lookup. simpl length.
    repeat (destruct (decide _); [lia|]). reflexivity. }
  destruct (decide (m_sync_button_state s = LongPressed)) as [HL|HL].
  { rewrite IOCtlV_INTRMSG_LongPressed in E by exact HL.
    injection E as <- <- <-. left. exists 3. split; [reflexivity|].
    intros a Ha. simpl. unfold sync_button_event_memory.
    rewrite (Hu 2) by lia. rewrite !CopyToEmu_lookup. simpl length.
    repeat (destruct (decide _); [lia|]). reflexivity. }
  destruct (m_fake_read_buffer_size_reply s) eqn:Hr.
  { rewrite IOCtlV_INTRMSG_read_buffer_size in E by assumption.
    injection E as <- <- <-. left.
    exists (Z.of_nat (5 + sizeof_hci_read_buffer_size_rp)).
    split; [reflexivity|].
    intros a Ha. simpl. unfold read_buffer_size_memory.
    rewrite (Hu 5) by lia. rewrite !CopyToEmu_lookup.
    rewrite pack_hci_read_buffer_size_rp_length.
    unfold command_complete_event, le16. simpl length.
    repeat (destruct (decide _); [lia|]). reflexivity. }
  destruct (m_fake_vendor_command_reply s) eqn:Hv.
  { rewrite IOCtlV_INTRMSG_vendor in E by assumption.
    injection E as <- <- <-. left. exists 5. split; [reflexivity|].
    intros a Ha. simpl. unfold vendor_reply_memory.
    rewrite !CopyToEmu_lookup.
    unfold command_complete_event, le16. simpl length.
    repeat (destruct (decide _); [lia|]). reflexivity. }
  rewrite IOCtlV_INTRMSG_forward in E by assumption.
  injection E as <- <- <-. right. split; reflexivity.
Qed.

(** X21. A control request that is forwarded and completes with the host
    buffer as it was submitted leaves every byte of guest memory as it was:
    the payload that went out after the eight bytes of the setup packet is
    the payload that comes back, and the request is answered with the byte
    count of the transport. *)
Theorem forwarded_command_round_trip (cmd : V0CtrlMessage)
    (s s1 : BluetoothReal) (r : IPCCommandResult) (buffer : list byte)
    (tr_status : libusb_transfer_status) (actual_length : Z) :
  0 <= actual_length <= cmd_length cmd ->
  IOCtlV_CTRLMSG cmd s =
    Done (r, s1,
          [libusb_submit_transfer (LIBUSB_TRANSFER_TYPE_CONTROL buffer cmd)]) ->
  exists s2 t2,
    CommandCallback buffer cmd tr_status actual_length s1 = Done (tt, s2, t2) /\
    replies t2 = [(cmd_ios_request cmd, actual_length)] /\
    forall a, Memory s2 a = Memory s a.
Proof.
  intros Hlen E.
  assert (Hb : buffer = forwarded_buffer (Memory s) cmd /\
               Memory s1 = Memory s).
  { destruct (IOCtlV_CTRLMSG_cases cmd s) as [E'|[[_ E']|E']];
      rewrite E' in E; try discriminate.
    injection E as <- <- <-. split; reflexivity. }
  destruct Hb as [-> Hm].
  assert (Hd : drop LIBUSB_CONTROL_SETUP_SIZE
                 (forwarded_buffer (Memory s) cmd) =
               CopyFromEmu (Memory s) (cmd_data_address cmd)
                 (Z.to_nat (cmd_length cmd))).
  { unfold forwarded_buffer. apply drop_app_length'. reflexivity. }
  assert (Hcopy : forall a,
    CopyToEmu (Memory s) (cmd_data_address cmd)
      (take (Z.to_nat actual_length)
         (drop LIBUSB_CONTROL_SETUP_SIZE (forwarded_buffer (Memory s) cmd))) a =
    Memory s a).
  { intros a. rewrite CopyToEmu_lookup, Hd.
    rewrite length_take, CopyFromEmu_length.
    destruct (decide _) as [Hin|]; [|reflexivity].
    rewrite nth_lookup, lookup_take_lt by lia.
    rewrite <- nth_lookup, CopyFromEmu_nth by lia.
    f_equal. lia. }
  unfold CommandCallback, note_transfer_status.
  destruct (bool_decide (tr_status <> LIBUSB_TRANSFER_COMPLETED) &&
            bool_decide (tr_status <> LIBUSB_TRANSFER_NO_DEVICE));
    [destruct (s_showed_failed_transfer s1) eqn:Es|];
    unfold bind, get, modify, emit, ret; simpl; rewrite ?Es; simpl;
    eexists _, _; (split; [reflexivity|]); (split; [reflexivity|]);
    intros a; simpl; rewrite Hm; apply Hcopy.
Qed.

End GuestMemory.

Lemma fake_reply_stays_in_reported_bytes_witness :
  let s := set_fake_read_buffer_size_reply true example_device in
  let o := @IOCtlV_INTRMSG hci_std example_intr s in
  (exists n,
     replies (trace_of o) = [(ios_request example_intr, n)] /\
     forall a, a < data_address example_intr \/
               data_address example_intr + n <= a ->
               Memory (state_of o example_device) a = Memory s a) \/
  (replies (trace_of o) = [] /\ Memory (state_of o example_device) = Memory s).
Proof.
  intros s o.
  apply (@fake_reply_stays_in_reported_bytes hci_std example_intr s
           (state_of o example_device) GetNoReply (trace_of o)).
  - simpl. lia.
  - simpl. lia.
  - reflexivity.
Defined.

Lemma forwarded_command_round_trip_witness :
  let s := set_Memory example_delete_memory example_device in
  let o := @IOCtlV_CTRLMSG hci_std example_delete_cmd s in
  exists s2 t2,
    CommandCallback
      (forwarded_buffer example_delete_memory example_delete_cmd)
      example_delete_cmd LIBUSB_TRANSFER_COMPLETED 4
      (state_of o example_device) = Done (tt, s2, t2) /\
    replies t2 = [(cmd_ios_request example_delete_cmd, 4)] /\
    forall a, Memory s2 a = Memory s a.
Proof.
  intros s o.
  apply (@forwarded_command_round_trip hci_std example_delete_cmd s
           (state_of o example_device) GetNoReply
           (forwarded_buffer example_delete_memory example_delete_cmd)
           LIBUSB_TRANSFER_COMPLETED 4).
  - simpl. lia.
  - vm_compute. reflexivity.
Defined.

(** ** The notice of a failed transfer *)

(** The completions that count as failed: for a control transfer every
    status but completed and no-device, for a bulk or interrupt transfer
    every status but completed, timed-out and no-device. *)
Definition is_completion (c : call) : bool :=
  match c with
  | call_CommandCallback _ _ _ _ => true
  | call_TransferCallback _ _ _ => true
  | _ => false
  end.

Definition is_failed_completion (c : call) : bool :=
  match c with
  | call_CommandCallback _ _ tr_status _ =>
      bool_decide (tr_status <> LIBUSB_TRANSFER_COMPLETED) &&
      bool_decide (tr_status <> LIBUSB_TRANSFER_NO_DEVICE)
  | call_TransferCallback _ tr_status _ =>
      bool_decide (tr_status <> LIBUSB_TRANSFER_COMPLETED) &&
      bool_decide (tr_status <> LIBUSB_TRANSFER_TIMED_OUT) &&
      bool_decide (tr_status <> LIBUSB_TRANSFER_NO_DEVICE)
  | _ => false
  end.

(** The messages a trace shows on screen. *)
Definition messages (t : list effect) : list string :=
  omap (fun e => match e with
                 | DisplayMessage m => Some m
                 | _ => None
                 end) t.

Lemma messages_app t1 t2 : messages (t1 ++ t2) = messages t1 ++ messages t2.
Proof. unfold messages. apply omap_app. Qed.

Section Notice.
Context `{hci_h}.

Lemma exec_failed_completion c s :
  is_failed_completion c = true ->
  exists s' t,
    exec c s = Done (tt, s', t) /\
    s_showed_failed_transfer s' = true /\
    length (messages t) = if s_showed_failed_transfer s then 0%nat else 2%nat.
Proof.
  destruct c as [rq|buffer cmd st n|ctrl st n| | | | |]; try discriminate;
    simpl; intros Hf.
  - unfold CommandCallback, note_transfer_status. rewrite Hf.
    destruct (s_showed_failed_transfer s) eqn:Es;
      unfold bind, get, modify, emit, ret; simpl; rewrite ?Es; simpl;
      eexists _, _; (split; [reflexivity|]); simpl; auto.
  - unfold TransferCallback, note_transfer_status. rewrite Hf.
    destruct (s_showed_failed_transfer s) eqn:Es;
      unfold bind, get, modify, emit, ret; simpl; rewrite ?Es; simpl;
      rewrite (andb_false_intro1 _ _ (proj2 (bool_decide_eq_false _)
        (proj1 (bool_decide_eq_true _)
           (proj1 (proj1 (andb_true_iff _ _)
              (proj1 (proj1 (andb_true_iff _ _) Hf)))))));
      eexists _, _; (split; [reflexivity|]); simpl; auto.
Qed.

Lemma exec_completed c s :
  is_completion c = true ->
  is_failed_completion c = false ->
  exists s' t,
    exec c s = Done (tt, s', t) /\
    s_showed_failed_transfer s' = false /\
    messages t = [].
Proof.
  destruct c as [rq|buffer cmd st n|ctrl st n| | | | |]; try discriminate;
    simpl; intros _ Hf.
  - unfold CommandCallback, note_transfer_status. rewrite Hf.
    unfold bind, get, modify, emit, ret. simpl.
    eexists _, _. split; [reflexivity|]. simpl. auto.
  - unfold TransferCallback, note_transfer_status. rewrite Hf.
    unfold bind, get, modify, emit, ret. simpl.
    repeat match goal with
           | |- context [if ?c then _ else _] => destruct c
           end; simpl;
      eexists _, _; (split; [reflexivity|]); simpl; auto.
Qed.

Lemma run_failed_completions (calls : list call) (s : BluetoothReal) :
  Forall (fun c => is_failed_completion c = true) calls ->
  calls <> [] ->
  exists s' t,
    run calls s = Done (tt, s', t) /\
    s_showed_failed_transfer s' = true /\
    length (messages t) = if s_showed_failed_transfer s then 0%nat else 2%nat.
Proof.
  intros Hall. revert s.
  induction Hall as [|c calls Hc Hall IH]; intros s Hne; [done|].
  destruct (exec_failed_completion c s Hc) as (s1 & t1 & E1 & Hs1 & Hm1).
  cbn [run]. rewrite (bind_Done _ _ _ _ _ _ E1).
  destruct calls as [|c' calls'].
  - simpl. unfold ret. exists s1, (t1 ++ []).
    rewrite app_nil_r. auto.
  - destruct (IH s1) as (s2 & t2 & E2 & Hs2 & Hm2); [discriminate|].
    rewrite E2. exists s2, (t1 ++ t2). split; [reflexivity|].
    split; [exact Hs2|].
    rewrite messages_app, length_app, Hm1, Hm2, Hs1.
    destruct (s_showed_failed_transfer s); reflexivity.
Qed.

(** X22. The notice of a failed transfer is shown once for a run of
    failures: however many completions fail in a row, the two messages are
    displayed once if no notice was standing when the first of them came
    and not at all if one was, and the notice stands afterwards. A
    completion that did not fail withdraws the notice, so that a run of
    failures that follows one is always announced, once. *)
Theorem failed_transfer_notice_shown_once (calls : list call)
    (s : BluetoothReal) :
  Forall (fun c => is_failed_completion c = true) calls ->
  calls <> [] ->
  (exists s' t,
     run calls s = Done (tt, s', t) /\
     s_showed_failed_transfer s' = true /\
     length (messages t) =
       if s_showed_failed_transfer s then 0%nat else 2%nat) /\
  (forall c,
     is_completion c = true -> is_failed_completion c = false ->
     exists s' t,
       run (c :: calls) s = Done (tt, s', t) /\
       s_showed_failed_transfer s' = true /\
       length (messages t) = 2%nat).
Proof.
  intros Hall Hne. split; [apply run_failed_completions; assumption|].
  intros c Hc Hok.
  destruct (exec_completed c s Hc Hok) as (s1 & t1 & E1 & Hs1 & Hm1).
  destruct (run_failed_completions calls s1 Hall Hne)
    as (s2 & t2 & E2 & Hs2 & Hm2).
  cbn [run]. rewrite (bind_Done _ _ _ _ _ _ E1), E2.
  exists s2, (t1 ++ t2). split; [reflexivity|]. split; [exact Hs2|].
  rewrite messages_app, length_app, Hm1, Hm2, Hs1. reflexivity.
Qed.

End Notice.

Lemma failed_transfer_notice_shown_once_witness :
  (exists s' t,
     @run hci_std
       [call_CommandCallback [] example_cmd LIBUSB_TRANSFER_TIMED_OUT 0;
        call_TransferCallback example_intr LIBUSB_TRANSFER_STALL 0]
       example_device = Done (tt, s', t) /\
     s_showed_failed_transfer s' = true /\
     length (messages t) =
       if s_showed_failed_transfer example_device then 0%nat else 2%nat) /\
  (forall c,
     is_completion c = true -> is_failed_completion c = false ->
     exists s' t,
       @run hci_std
         (c :: [call_CommandCallback [] example_cmd LIBUSB_TRANSFER_TIMED_OUT 0;
                call_TransferCallback example_intr LIBUSB_TRANSFER_STALL 0])
         example_device = Done (tt, s', t) /\
       s_showed_failed_transfer s' = true /\
       length (messages t) = 2%nat).
Proof.
  apply (@failed_transfer_notice_shown_once hci_std
           [call_CommandCallback [] example_cmd LIBUSB_TRANSFER_TIMED_OUT 0;
            call_TransferCallback example_intr LIBUSB_TRANSFER_STALL 0]
           example_device).
  - repeat constructor.
  - discriminate.
Defined.

(** ** From a notified key to the command that writes it back *)

Section KeyWrittenBack.
Context `{hci_h}.

(** X23. A key the adapter notifies is the key that is written back to it:
    on a third-party adapter with an empty store, after the completion of an
    event transfer that carries a link-key notification, then of one that
    carries the command-complete event of a reset, the next request of any
    kind first sends the delete-all command and then the write command for
    exactly the notified address and key, each followed by at most a
    hundred polls, before the request itself is handled. *)
Theorem notified_key_is_written_back (ctrl ctrl' : V0IntrMessage)
    (n n' : Z) (address : Z) (data : list byte) (request : IOCtlVRequest)
    (s : BluetoothReal) :
  m_is_wii_bt_module s = false ->
  s_link_keys s = ∅ ->
  endpoint ctrl = HCI_EVENT ->
  Z_of_u8 (Memory s (data_address ctrl)) = HCI_EVENT_LINK_KEY_NOTIFICATION ->
  endpoint ctrl' = HCI_EVENT ->
  HCI_EVENT_COMMAND_COMPL <> HCI_EVENT_LINK_KEY_NOTIFICATION ->
  (let mem' := CopyToEmu (Memory s) address data in
   Z_of_u8 (mem' (data_address ctrl')) = HCI_EVENT_COMMAND_COMPL /\
   of_le16 (mem' (data_address ctrl' + 3)) (mem' (data_address ctrl' + 4)) =
     HCI_CMD_RESET) ->
  exists k1 k2 s' t',
    (k1 <= 100)%nat /\ (k2 <= 100)%nat /\
    Forall (fun e => is_blocking e = false) t' /\
    run [call_TransferCallback ctrl LIBUSB_TRANSFER_COMPLETED n;
         memory_store address data;
         call_TransferCallback ctrl' LIBUSB_TRANSFER_COMPLETED n';
         call_IOCtlV request] s =
      Done (tt, s',
            [EnqueueReply (ios_request ctrl) n;
             EnqueueReply (ios_request ctrl') n';
             libusb_control_transfer delete_all_packet] ++
            replicate k1 libusb_interrupt_transfer ++
            [libusb_control_transfer
               (write_stored_link_keys_packet
                  {[ notified_address s ctrl := notified_key s ctrl ]})] ++
            replicate k2 libusb_interrupt_transfer ++ t').
Proof.
  intros Hw Hk He Hc He' Hne [Hc' Ho'].
  set (keys := {[ notified_address s ctrl := notified_key s ctrl ]}
               : gmap (list byte) (list byte)).
  set (s1 := set_link_keys keys (set_showed_failed_transfer false s)).
  set (s2 := set_Memory (CopyToEmu (Memory s) address data) s1).
  set (s3 := set_need_reset_keys true (set_showed_failed_transfer false s2)).
  assert (E1 : TransferCallback ctrl LIBUSB_TRANSFER_COMPLETED n s =
               Done (tt, s1, [EnqueueReply (ios_request ctrl) n])).
  { transitivity
      (Done (tt,
             set_link_keys
               (<[notified_address s ctrl := notified_key s ctrl]>
                  (s_link_keys s))
               (set_showed_failed_transfer false s),
             [EnqueueReply (ios_request ctrl) n]));
      [|unfold s1, keys; rewrite Hk, insert_empty; reflexivity].
    unfold TransferCallback, note_transfer_status.
    unfold bind, get, modify, emit, ret. simpl.
    rewrite He, Z.eqb_refl, Hc, Z.eqb_refl.
    unfold notified_address, notified_key.
    replace (data_address ctrl + 8) with (data_address ctrl + 2 + 6) by lia.
    reflexivity. }
  assert (E3 : TransferCallback ctrl' LIBUSB_TRANSFER_COMPLETED n' s2 =
               Done (tt, s3, [EnqueueReply (ios_request ctrl') n'])).
  { unfold TransferCallback, note_transfer_status.
    unfold bind, get, modify, emit, ret. simpl.
    rewrite He', Z.eqb_refl, Hc', Ho', !Z.eqb_refl.
    apply Z.eqb_neq in Hne. rewrite Hne. reflexivity. }
  assert (Hkeys : s_link_keys s3 = keys) by reflexivity.
  pose proof (IOCtlV_reset_keys_run s3 Hw eq_refl) as Hrun.
  rewrite Hkeys in Hrun.
  destruct (decide (keys = ∅)) as [Hempty|_].
  { exfalso. apply (f_equal (fun m => m !! notified_address s ctrl)) in Hempty.
    unfold keys in Hempty.
    rewrite lookup_singleton_eq, lookup_empty in Hempty. discriminate. }
  rewrite store_link_key_packet_full in Hrun.
  2:{ unfold keys. rewrite map_size_singleton. lia. }
  2:{ unfold keys. apply map_Forall_singleton.
      unfold notified_address, notified_key.
      rewrite !CopyFromEmu_length. auto. }
  simpl in Hrun. destruct Hrun as (k1 & k2 & Hk1 & Hk2 & _ & E4).
  match type of E4 with
  | _ = Done (_, ?st, _) =>
      destruct (IOCtlV_switch_total request st) as (s' & t' & E5)
  end.
  exists k1, k2, s', t'. split; [exact Hk1|]. split; [exact Hk2|].
  split; [apply (IOCtlV_switch_frame _ _ _ _ _ E5)|].
  cbn [run exec].
  rewrite (bind_Done _ _ _ _ _ _ E1).
  rewrite bind_modify. fold s2.
  rewrite (bind_Done _ _ _ _ _ _ E3).
  assert (E6 : IOCtlV request s3 =
               Done (GetNoReply, s',
                     ([libusb_control_transfer delete_all_packet] ++
                      replicate k1 libusb_interrupt_transfer ++
                      [libusb_control_transfer
                         (write_stored_link_keys_packet keys)] ++
                      replicate k2 libusb_interrupt_transfer) ++ t')).
  { rewrite (IOCtlV_after_reset_keys _ _ _ _ E4), E5. reflexivity. }
  assert (E7 : (IOCtlV request ;;; ret tt) s3 =
               Done (tt, s',
                     (([libusb_control_transfer delete_all_packet] ++
                       replicate k1 libusb_interrupt_transfer ++
                       [libusb_control_transfer
                          (write_stored_link_keys_packet keys)] ++
                       replicate k2 libusb_interrupt_transfer) ++ t') ++ []))
    by (rewrite (bind_Done _ _ _ _ _ _ E6); reflexivity).
  rewrite (bind_Done _ _ _ _ _ _ E7). unfold ret.
  rewrite !app_nil_r, <- !app_assoc. reflexivity.
Qed.

End KeyWrittenBack.

Lemma notified_key_is_written_back_witness :
  let s := opened false example_notification_memory [None; None] ∅ in
  exists k1 k2 s' t',
    (k1 <= 100)%nat /\ (k2 <= 100)%nat /\
    Forall (fun e => is_blocking e = false) t' /\
    @run hci_std
      [call_TransferCallback example_intr LIBUSB_TRANSFER_COMPLETED 24;
       memory_store 100 [x0e; x04; x01; x03; x0c; x00];
       call_TransferCallback example_intr LIBUSB_TRANSFER_COMPLETED 6;
       call_IOCtlV (IOCTLV_USBV0_BLKMSG example_intr')] s =
      Done (tt, s',
            [EnqueueReply (ios_request example_intr) 24;
             EnqueueReply (ios_request example_intr) 6;
             libusb_control_transfer (@delete_all_packet hci_std)] ++
            replicate k1 libusb_interrupt_transfer ++
            [libusb_control_transfer
               (@write_stored_link_keys_packet hci_std
                  {[ notified_address s example_intr :=
                       notified_key s example_intr ]})] ++
            replicate k2 libusb_interrupt_transfer ++ t').
Proof.
  intros s.
  apply (@notified_key_is_written_back hci_std example_intr example_intr
           24 6 100 [x0e; x04; x01; x03; x0c; x00]
           (IOCTLV_USBV0_BLKMSG example_intr') s).
  - reflexivity.
  - reflexivity.
  - reflexivity.
  - reflexivity.
  - reflexivity.
  - vm_compute. congruence.
  - split; reflexivity.
Defined.

(** * The device session

    [Open], [Close], the constructor and the destructor, with the
    functions they call. What libusb answers is data of the model: a
    device of the list carries the answers it gives when it is asked for
    its descriptors, opened, detached from its kernel driver and claimed. *)

(** The constants of libusb.h and of BTReal.h that the session names. *)
Class libusb_h := {
  LIBUSB_CLASS_WIRELESS : Z;
  LIBUSB_ERROR_NOT_FOUND : Z;
  LIBUSB_ERROR_NOT_SUPPORTED : Z;
  INTERFACE : Z
}.

(** The values libusb.h gives them; the interface is the first. *)
Definition libusb_std : libusb_h := {|
  LIBUSB_CLASS_WIRELESS := 0xe0;
  LIBUSB_ERROR_NOT_FOUND := -5;
  LIBUSB_ERROR_NOT_SUPPORTED := -12;
  INTERFACE := 0
|}.

Record libusb_device_descriptor := mk_device_descriptor {
  idVendor : Z;
  idProduct : Z;
  iManufacturer : Z;
  iProduct : Z;
  iSerialNumber : Z
}.

Record libusb_interface_descriptor := mk_interface_descriptor {
  bInterfaceClass : Z;
  bInterfaceSubClass : Z;
  bInterfaceProtocol : Z
}.

(** A device of the list: its device descriptor;
    [interface[INTERFACE].altsetting[0]] of its active configuration, or
    [None] when [libusb_get_active_config_descriptor] fails; and what
    [libusb_open], [libusb_detach_kernel_driver] and
    [libusb_claim_interface] return for it. *)
Record libusb_device := mk_device {
  device_descriptor : libusb_device_descriptor;
  active_config_descriptor : option libusb_interface_descriptor;
  open_result : Z;
  detach_kernel_driver_result : Z;
  claim_interface_result : Z
}.

(** The three values of [SConfig] the file reads or writes. *)
Record SConfig := mkSConfig {
  m_bt_passthrough_vid : Z;
  m_bt_passthrough_pid : Z;
  m_bt_passthrough_link_keys : string
}.

Definition set_bt_passthrough_link_keys (v : string) (c : SConfig) :=
  mkSConfig (m_bt_passthrough_vid c) (m_bt_passthrough_pid c) v.

Definition IsWantedDevice (c : SConfig) (descriptor : libusb_device_descriptor)
    : bool :=
  let vid := m_bt_passthrough_vid c in
  let pid := m_bt_passthrough_pid c in
  if (vid =? -1) || (pid =? -1) then true
  else (idVendor descriptor =? vid) && (idProduct descriptor =? pid).

Definition IsBluetoothDevice `{libusb_h} (c : SConfig)
    (descriptor : libusb_interface_descriptor) : bool :=
  let SUBCLASS := 0x01 in
  let PROTOCOL_BLUETOOTH := 0x01 in
  if negb (m_bt_passthrough_vid c =? -1) &&
     negb (m_bt_passthrough_pid c =? -1) then true
  else (bInterfaceClass descriptor =? LIBUSB_CLASS_WIRELESS) &&
       (bInterfaceSubClass descriptor =? SUBCLASS) &&
       (bInterfaceProtocol descriptor =? PROTOCOL_BLUETOOTH).

(** The object with the members of the session: the handle and the device
    it was opened on (null pointers are [None]), the two flags, and the
    configuration. *)
Record Session := mkSession {
  object : BluetoothReal;
  m_handle : option libusb_device;
  m_device : option libusb_device;
  m_is_active : bool;
  m_thread_running : bool;
  config : SConfig
}.

Definition set_object (v : BluetoothReal) (ss : Session) :=
  mkSession v (m_handle ss) (m_device ss) (m_is_active ss)
    (m_thread_running ss) (config ss).
Definition set_handle (v : option libusb_device) (ss : Session) :=
  mkSession (object ss) v (m_device ss) (m_is_active ss)
    (m_thread_running ss) (config ss).
Definition set_device (v : option libusb_device) (ss : Session) :=
  mkSession (object ss) (m_handle ss) v (m_is_active ss)
    (m_thread_running ss) (config ss).
Definition set_is_active (v : bool) (ss : Session) :=
  mkSession (object ss) (m_handle ss) (m_device ss) v
    (m_thread_running ss) (config ss).
Definition set_thread_running (v : bool) (ss : Session) :=
  mkSession (object ss) (m_handle ss) (m_device ss) (m_is_active ss) v
    (config ss).
Definition set_config (v : SConfig) (ss : Session) :=
  mkSession (object ss) (m_handle ss) (m_device ss) (m_is_active ss)
    (m_thread_running ss) v.

Definition set_is_wii_bt_module (v : bool) (s : BluetoothReal) :=
  mkBluetoothReal v (m_sync_button_state s)
    (m_sync_button_held_timer s) (m_fake_read_buffer_size_reply s)
    (m_fake_vendor_command_reply s) (m_fake_vendor_command_reply_opcode s)
    (s_link_keys s) (s_need_reset_keys s) (s_showed_failed_transfer s)
    (Memory s) (adapter_events s).

(** The calls the session makes to the outside, in the order it makes
    them; [of_object] is a call of the functions above. An alert whose text
    is formatted with an error code carries the format and the code. *)
Inductive host_call :=
| libusb_init
| libusb_exit
| libusb_get_device_list
| libusb_free_device_list
| libusb_get_device_descriptor (device : libusb_device)
| libusb_get_active_config_descriptor (device : libusb_device)
| libusb_free_config_descriptor (device : libusb_device)
| libusb_ref_device (device : libusb_device)
| libusb_unref_device (device : option libusb_device)
| libusb_open (device : libusb_device)
| libusb_close (handle : option libusb_device)
| libusb_detach_kernel_driver (handle : option libusb_device) (interface : Z)
| libusb_claim_interface (handle : option libusb_device) (interface : Z)
| libusb_release_interface (handle : option libusb_device) (interface : Z)
| libusb_get_string_descriptor_ascii (handle : option libusb_device) (index : Z)
| thread_start
| thread_join
| assert_msg (condition : bool) (message : string)
| PanicAlertT_error (format : string) (error : Z)
| QueueHostJob_Stop
| of_object (e : effect).

Inductive ReturnCode := IPC_SUCCESS | IPC_ENOENT.

(** The computations of the session: the state, the trace, and no result
    where a call of the object has none. *)
Definition H (A : Type) : Type :=
  Session -> outcome (A * Session * list host_call).

Definition hret {A} (a : A) : H A := fun ss => Done (a, ss, []).

Definition hbind {A B} (m : H A) (k : A -> H B) : H B :=
  fun ss =>
    match m ss with
    | Undefined => Undefined
    | Done (a, ss1, t1) =>
        match k a ss1 with
        | Undefined => Undefined
        | Done (b, ss2, t2) => Done (b, ss2, t1 ++ t2)
        end
    end.

Definition hget : H Session := fun ss => Done (ss, ss, []).
Definition hmodify (f : Session -> Session) : H unit :=
  fun ss => Done (tt, f ss, []).
Definition hemit (c : host_call) : H unit := fun ss => Done (tt, ss, [c]).

(** A function of the object called from the session. *)
Definition call_object {A} (m : M A) : H A :=
  fun ss =>
    match m (object ss) with
    | Undefined => Undefined
    | Done (a, o, t) => Done (a, set_object o ss, of_object <$> t)
    end.

Declare Scope H_scope.
Delimit Scope H_scope with H.
Notation "x <- m ;; k" := (hbind m (fun x => k))
  (at level 100, m at next level, right associativity) : H_scope.
Notation "m ;;; k" := (hbind m (fun _ => k))
  (at level 100, right associativity) : H_scope.

Section Session.
Context `{hci_h} `{libusb_h}.
Local Open Scope H_scope.

(** The case of the digits [MacAddressToString] writes, and what the
    uninitialised locals of [LoadLinkKeys] hold. *)
Variable uppercase : bool.
Variable u : nat -> uninitialized.

Definition StartTransferThread : H unit :=
  ss <- hget ;;
  if m_thread_running ss then hret tt
  else
    hmodify (set_thread_running true) ;;;
    hemit thread_start.

Definition StopTransferThread : H unit :=
  ss <- hget ;;
  if m_thread_running ss then
    hmodify (set_thread_running false) ;;;
    hemit (libusb_close (m_handle ss)) ;;;
    hemit thread_join
  else hret tt.

(** [libusb_open] gives the handle only when it returns 0. *)
Definition OpenDevice (device : libusb_device) : H bool :=
  hemit (libusb_ref_device device) ;;;
  hmodify (set_device (Some device)) ;;;
  hemit (libusb_open device) ;;;
  let ret := open_result device in
  (if ret =? 0 then hmodify (set_handle (Some device)) else hret tt) ;;;
  if negb (ret =? 0) then
    hemit (PanicAlertT_error "Failed to open Bluetooth device: %s" ret) ;;;
    hret false
  else
    ss <- hget ;;
    hemit (libusb_detach_kernel_driver (m_handle ss) INTERFACE) ;;;
    let result := detach_kernel_driver_result device in
    if (result <? 0) && negb (result =? LIBUSB_ERROR_NOT_FOUND) &&
       negb (result =? LIBUSB_ERROR_NOT_SUPPORTED) then
      hemit (PanicAlertT_error
               "Failed to detach kernel driver for BT passthrough: %s" result) ;;;
      hret false
    else
      hemit (libusb_claim_interface (m_handle ss) INTERFACE) ;;;
      if claim_interface_result device <? 0 then
        hemit (of_object
                 (PanicAlertT "Failed to claim interface for BT passthrough")) ;;;
        hret false
      else hret true.

(** The loop of [Open] over the device list; it ends at the first device
    that is selected and opened. *)
Fixpoint Open_loop (list : list libusb_device) : H unit :=
  match list with
  | [] => hret tt
  | device :: list' =>
      hemit (libusb_get_device_descriptor device) ;;;
      hemit (libusb_get_active_config_descriptor device) ;;;
      match active_config_descriptor device with
      | None => Open_loop list'
      | Some descriptor =>
          ss <- hget ;;
          if IsBluetoothDevice (config ss) descriptor &&
             IsWantedDevice (config ss) (device_descriptor device) then
            opened <- OpenDevice device ;;
            if opened : bool then
              ss <- hget ;;
              let device_descriptor := device_descriptor device in
              hemit (libusb_get_string_descriptor_ascii (m_handle ss)
                       (iManufacturer device_descriptor)) ;;;
              hemit (libusb_get_string_descriptor_ascii (m_handle ss)
                       (iProduct device_descriptor)) ;;;
              hemit (libusb_get_string_descriptor_ascii (m_handle ss)
                       (iSerialNumber device_descriptor)) ;;;
              hmodify (fun ss =>
                set_object
                  (set_is_wii_bt_module
                     ((idVendor device_descriptor =? 0x57e) &&
                      (idProduct device_descriptor =? 0x305))
                     (object ss)) ss) ;;;
              hemit (libusb_free_config_descriptor device)
            else
              hemit (libusb_free_config_descriptor device) ;;;
              Open_loop list'
          else
            hemit (libusb_free_config_descriptor device) ;;;
            Open_loop list'
      end
  end.

(** [list] is the device list [libusb_get_device_list] gives. *)
Definition Open (list : list libusb_device) : H ReturnCode :=
  hemit libusb_get_device_list ;;;
  hemit (assert_msg (0 <? Z.of_nat (length list)) "Couldn't get device list") ;;;
  Open_loop list ;;;
  hemit libusb_free_device_list ;;;
  ss <- hget ;;
  if bool_decide (m_handle ss = None) then
    hemit (of_object
             (PanicAlertT
                "Bluetooth passthrough mode is enabled, but no usable Bluetooth USB device was found. Aborting.")) ;;;
    hemit QueueHostJob_Stop ;;;
    hret IPC_ENOENT
  else
    StartTransferThread ;;;
    hmodify (set_is_active true) ;;;
    hret IPC_SUCCESS.

Definition Close : H unit :=
  ss <- hget ;;
  (if bool_decide (m_handle ss <> None) then
     hemit (libusb_release_interface (m_handle ss) 0) ;;;
     StopTransferThread ;;;
     hemit (libusb_unref_device (m_device ss)) ;;;
     hmodify (set_handle None)
   else hret tt) ;;;
  hmodify (set_is_active false).

(** The constructor, from the point where the members have their initial
    values; [init_result] is what [libusb_init] returns. The store is a
    static of the file: it is loaded over what it held. *)
Definition constructor (init_result : Z) : H unit :=
  hemit libusb_init ;;;
  hemit (assert_msg (init_result =? 0) "Failed to init libusb.") ;;;
  ss <- hget ;;
  match LoadLinkKeys u (m_bt_passthrough_link_keys (config ss))
          (s_link_keys (object ss)) with
  | Some keys => hmodify (fun ss => set_object (set_link_keys keys (object ss)) ss)
  | None => fun _ => Undefined
  end.

Definition destructor : H unit :=
  ss <- hget ;;
  (if bool_decide (m_handle ss <> None) then
     call_object SendHCIResetCommand ;;;
     call_object (WaitForHCICommandComplete HCI_CMD_RESET) ;;;
     hemit (libusb_release_interface (m_handle ss) 0) ;;;
     StopTransferThread ;;;
     hemit (libusb_unref_device (m_device ss))
   else hret tt) ;;;
  hemit libusb_exit ;;;
  hmodify (fun ss =>
    set_config
      (set_bt_passthrough_link_keys
         (SaveLinkKeys uppercase (s_link_keys (object ss))) (config ss)) ss).

End Session.

(** ** Which device is opened *)

Lemma hbind_Done {A B} (m : H A) (k : A -> H B) ss a ss1 t1 :
  m ss = Done (a, ss1, t1) ->
  hbind m k ss =
    match k a ss1 with
    | Done (b, ss2, t2) => Done (b, ss2, t1 ++ t2)
    | Undefined => Undefined
    end.
Proof. intros E. unfold hbind. rewrite E. reflexivity. Qed.

Lemma hbind_hret {A B} (a : A) (k : A -> H B) ss :
  hbind (hret a) k ss = k a ss.
Proof. unfold hbind, hret. destruct (k a ss) as [[[b s2] t2]|]; reflexivity. Qed.

Lemma hbind_hget {B} (k : Session -> H B) ss : hbind hget k ss = k ss ss.
Proof. unfold hbind, hget. destruct (k ss ss) as [[[b s2] t2]|]; reflexivity. Qed.

Lemma hbind_hmodify {B} f (k : unit -> H B) ss :
  hbind (hmodify f) k ss = k tt (f ss).
Proof.
  unfold hbind, hmodify. destruct (k tt (f ss)) as [[[b s2] t2]|]; reflexivity.
Qed.

Lemma hbind_hemit {B} c (k : unit -> H B) ss :
  hbind (hemit c) k ss =
    match k tt ss with
    | Done (b, ss2, t2) => Done (b, ss2, c :: t2)
    | Undefined => Undefined
    end.
Proof. reflexivity. Qed.

Section Selection.
Context `{hci_h} `{libusb_h}.
Local Open Scope H_scope.

(** X24. Which devices pass the two filters of [Open]: with both ids of
    the override set, exactly the devices with these ids, whatever their
    interface class; with either id unset, exactly the devices whose
    interface is of the wireless class, subclass 1, protocol 1, whatever
    their ids. *)
Theorem device_selection (c : SConfig)
    (descriptor : libusb_interface_descriptor)
    (device_descriptor : libusb_device_descriptor) :
  IsBluetoothDevice c descriptor && IsWantedDevice c device_descriptor =
    if (m_bt_passthrough_vid c =? -1) || (m_bt_passthrough_pid c =? -1)
    then (bInterfaceClass descriptor =? LIBUSB_CLASS_WIRELESS) &&
         (bInterfaceSubClass descriptor =? 1) &&
         (bInterfaceProtocol descriptor =? 1)
    else (idVendor device_descriptor =? m_bt_passthrough_vid c) &&
         (idProduct device_descriptor =? m_bt_passthrough_pid c).
Proof.
  unfold IsBluetoothDevice, IsWantedDevice.
  destruct (m_bt_passthrough_vid c =? -1), (m_bt_passthrough_pid c =? -1);
    simpl; rewrite ?andb_true_r; reflexivity.
Qed.

(** A device passes the filters of the loop. *)
Definition selected (c : SConfig) (device : libusb_device) : bool :=
  match active_config_descriptor device with
  | Some descriptor =>
      IsBluetoothDevice c descriptor &&
      IsWantedDevice c (device_descriptor device)
  | None => false
  end.

Definition detach_failed (result : Z) : bool :=
  (result <? 0) && negb (result =? LIBUSB_ERROR_NOT_FOUND) &&
  negb (result =? LIBUSB_ERROR_NOT_SUPPORTED).

(** [OpenDevice] goes through for a device. *)
Definition claimed (device : libusb_device) : bool :=
  (open_result device =? 0) &&
  negb (detach_failed (detach_kernel_driver_result device)) &&
  negb (claim_interface_result device <? 0).

Definition OpenDevice_state (device : libusb_device) (ss : Session) : Session :=
  if open_result device =? 0
  then set_handle (Some device) (set_device (Some device) ss)
  else set_device (Some device) ss.

Definition OpenDevice_trace (device : libusb_device) : list host_call :=
  [libusb_ref_device device; libusb_open device] ++
  if negb (open_result device =? 0) then
    [PanicAlertT_error "Failed to open Bluetooth device: %s"
       (open_result device)]
  else
    [libusb_detach_kernel_driver (Some device) INTERFACE] ++
    if detach_failed (detach_kernel_driver_result device) then
      [PanicAlertT_error
         "Failed to detach kernel driver for BT passthrough: %s"
         (detach_kernel_driver_result device)]
    else
      [libusb_claim_interface (Some device) INTERFACE] ++
      if claim_interface_result device <? 0 then
        [of_object
           (PanicAlertT "Failed to claim interface for BT passthrough")]
      else [].

Lemma OpenDevice_eq device ss :
  OpenDevice device ss =
    Done (claimed device, OpenDevice_state device ss, OpenDevice_trace device).
Proof.
  unfold OpenDevice, OpenDevice_state, OpenDevice_trace, claimed, detach_failed.
  unfold hbind, hemit, hmodify, hget, hret. simpl.
  destruct (open_result device =? 0); simpl; [|reflexivity].
  destruct ((detach_kernel_driver_result device <? 0) &&
            negb (detach_kernel_driver_result device =? LIBUSB_ERROR_NOT_FOUND) &&
            negb (detach_kernel_driver_result device =? LIBUSB_ERROR_NOT_SUPPORTED));
    simpl; [reflexivity|].
  destruct (claim_interface_result device <? 0); reflexivity.
Qed.

(** The session a successful [OpenDevice] leaves, once the loop has
    recorded the adapter's identity. *)
Definition found (device : libusb_device) (ss : Session) : Session :=
  let ss1 := set_handle (Some device) (set_device (Some device) ss) in
  set_object
    (set_is_wii_bt_module
       ((idVendor (device_descriptor device) =? 0x57e) &&
        (idProduct (device_descriptor device) =? 0x305))
       (object ss1)) ss1.

Fixpoint Open_loop_state (devices : list libusb_device) (ss : Session)
    : Session :=
  match devices with
  | [] => ss
  | device :: devices' =>
      if selected (config ss) device then
        if claimed device then found device ss
        else Open_loop_state devices' (OpenDevice_state device ss)
      else Open_loop_state devices' ss
  end.

Fixpoint Open_loop_trace (c : SConfig) (devices : list libusb_device)
    : list host_call :=
  match devices with
  | [] => []
  | device :: devices' =>
      [libusb_get_device_descriptor device;
       libusb_get_active_config_descriptor device] ++
      match active_config_descriptor device with
      | None => Open_loop_trace c devices'
      | Some _ =>
          if selected c device then
            OpenDevice_trace device ++
            if claimed device then
              [libusb_get_string_descriptor_ascii (Some device)
                 (iManufacturer (device_descriptor device));
               libusb_get_string_descriptor_ascii (Some device)
                 (iProduct (device_descriptor device));
               libusb_get_string_descriptor_ascii (Some device)
                 (iSerialNumber (device_descriptor device));
               libusb_free_config_descriptor device]
            else
              libusb_free_config_descriptor device ::
              Open_loop_trace c devices'
          else
            libusb_free_config_descriptor device :: Open_loop_trace c devices'
      end
  end.

Lemma OpenDevice_state_config device ss :
  config (OpenDevice_state device ss) = config ss.
Proof. unfold OpenDevice_state. destruct (_ =? _); reflexivity. Qed.

Lemma Open_loop_eq devices ss :
  Open_loop devices ss =
    Done (tt, Open_loop_state devices ss, Open_loop_trace (config ss) devices).
Proof.
  revert ss.
  induction devices as [|device devices IH]; intros ss; [reflexivity|].
  cbn [Open_loop Open_loop_state Open_loop_trace]. unfold selected.
  destruct (active_config_descriptor device) as [descriptor|] eqn:Ed.
  - unfold hbind at 1 2 3. unfold hemit at 1 2. unfold hget at 1.
    destruct (IsBluetoothDevice (config ss) descriptor &&
              IsWantedDevice (config ss) (device_descriptor device)) eqn:Es.
    + rewrite (hbind_Done _ _ _ _ _ _ (OpenDevice_eq device ss)).
      destruct (claimed device) eqn:Ec.
      * unfold hbind, hemit, hmodify, hget, hret. simpl.
        assert (Eh : m_handle (OpenDevice_state device ss) = Some device).
        { unfold OpenDevice_state, claimed in *.
          destruct (open_result device =? 0); [reflexivity|discriminate]. }
        rewrite Eh. unfold found, OpenDevice_state, claimed in *.
        destruct (open_result device =? 0); [|discriminate].
        simpl. rewrite <- ?app_assoc. reflexivity.
      * unfold hbind at 1. unfold hemit at 1.
        rewrite IH, OpenDevice_state_config. simpl.
        rewrite <- ?app_assoc. reflexivity.
    + unfold hbind at 1. unfold hemit at 1. rewrite IH. reflexivity.
  - unfold hbind at 1 2. unfold hemit at 1 2. rewrite IH. reflexivity.
Qed.

(** What [Open] does after the loop. *)
Definition Open_trace (c : SConfig) (devices : list libusb_device)
    : list host_call :=
  [libusb_get_device_list;
   assert_msg (0 <? Z.of_nat (length devices)) "Couldn't get device list"] ++
  Open_loop_trace c devices ++ [libusb_free_device_list].

Lemma Open_eq devices ss :
  Open devices ss =
    let ss1 := Open_loop_state devices ss in
    if bool_decide (m_handle ss1 = None) then
      Done (IPC_ENOENT, ss1,
            Open_trace (config ss) devices ++
            [of_object
               (PanicAlertT
                  "Bluetooth passthrough mode is enabled, but no usable Bluetooth USB device was found. Aborting.");
             QueueHostJob_Stop])
    else
      Done (IPC_SUCCESS,
            set_is_active true (set_thread_running true ss1),
            Open_trace (config ss) devices ++
            if m_thread_running ss1 then [] else [thread_start]).
Proof.
  unfold Open, Open_trace. rewrite !hbind_hemit.
  rewrite (hbind_Done _ _ _ _ _ _ (Open_loop_eq devices ss)).
  rewrite hbind_hemit, hbind_hget. cbv zeta.
  destruct (bool_decide (m_handle (Open_loop_state devices ss) = None)).
  - rewrite !hbind_hemit. unfold hret. simpl.
    rewrite <- !app_assoc. reflexivity.
  - unfold StartTransferThread. unfold hbind, hget, hmodify, hemit, hret.
    destruct (m_thread_running (Open_loop_state devices ss)) eqn:Er; simpl.
    + rewrite <- !app_assoc. simpl.
      replace (set_thread_running true (Open_loop_state devices ss))
        with (Open_loop_state devices ss)
        by (destruct (Open_loop_state devices ss); simpl in Er; subst;
            reflexivity).
      reflexivity.
    + rewrite <- !app_assoc. reflexivity.
Qed.

Lemma Open_loop_state_frame devices ss :
  config (Open_loop_state devices ss) = config ss /\
  m_is_active (Open_loop_state devices ss) = m_is_active ss /\
  m_thread_running (Open_loop_state devices ss) = m_thread_running ss.
Proof.
  revert ss. induction devices as [|d devices IH]; intros ss; [auto|].
  cbn [Open_loop_state].
  destruct (selected (config ss) d); [|apply IH].
  destruct (claimed d); [auto|].
  destruct (IH (OpenDevice_state d ss)) as (-> & -> & ->).
  unfold OpenDevice_state. destruct (_ =? _); auto.
Qed.

Lemma Open_loop_state_not_opened devices ss :
  Forall (fun d => selected (config ss) d = false \/ open_result d <> 0)
    devices ->
  m_handle (Open_loop_state devices ss) = m_handle ss /\
  object (Open_loop_state devices ss) = object ss.
Proof.
  intros Hall. revert ss Hall.
  induction devices as [|d devices IH]; intros ss Hall; [auto|].
  apply Forall_cons in Hall as [Hd Hall]. cbn [Open_loop_state].
  destruct (selected (config ss) d) eqn:Es; [|apply IH, Hall].
  destruct Hd as [Hd|Hd]; [discriminate|].
  assert (Ec : claimed d = false).
  { unfold claimed. apply Z.eqb_neq in Hd. rewrite Hd. reflexivity. }
  rewrite Ec.
  assert (Eo : OpenDevice_state d ss = set_device (Some d) ss).
  { unfold OpenDevice_state. apply Z.eqb_neq in Hd. rewrite Hd. reflexivity. }
  rewrite Eo. destruct (IH (set_device (Some d) ss)) as [-> ->];
    [exact Hall|auto].
Qed.

Lemma Open_loop_state_not_claimed devices ss :
  Forall (fun d => selected (config ss) d && claimed d = false) devices ->
  object (Open_loop_state devices ss) = object ss.
Proof.
  intros Hall. revert ss Hall.
  induction devices as [|d devices IH]; intros ss Hall; [auto|].
  apply Forall_cons in Hall as [Hd Hall]. cbn [Open_loop_state].
  destruct (selected (config ss) d) eqn:Es; [|apply IH, Hall].
  simpl in Hd. rewrite Hd.
  rewrite IH by (rewrite OpenDevice_state_config; exact Hall).
  unfold OpenDevice_state. destruct (_ =? _); reflexivity.
Qed.

Lemma Open_loop_state_app pre devices ss :
  Forall (fun d => selected (config ss) d && claimed d = false) pre ->
  Open_loop_state (pre ++ devices) ss =
    Open_loop_state devices (Open_loop_state pre ss).
Proof.
  intros Hall. revert ss Hall.
  induction pre as [|d pre IH]; intros ss Hall; [reflexivity|].
  apply Forall_cons in Hall as [Hd Hall]. cbn [app Open_loop_state].
  destruct (selected (config ss) d) eqn:Es; [|apply IH, Hall].
  simpl in Hd. rewrite Hd.
  apply IH. rewrite OpenDevice_state_config. exact Hall.
Qed.

Lemma Open_loop_trace_found c pre d post post' :
  Forall (fun d => selected c d && claimed d = false) pre ->
  selected c d = true -> claimed d = true ->
  Open_loop_trace c (pre ++ d :: post) = Open_loop_trace c (pre ++ d :: post').
Proof.
  intros Hall Hs Hc.
  induction Hall as [|d' pre Hd _ IH]; cbn [app Open_loop_trace].
  - destruct (active_config_descriptor d) eqn:Ea;
      [|unfold selected in Hs; rewrite Ea in Hs; discriminate].
    rewrite Hs, Hc. reflexivity.
  - rewrite IH. reflexivity.
Qed.

End Selection.

Definition starts_thread (c : host_call) : bool :=
  match c with
  | thread_start => true
  | _ => false
  end.

Section OpenFacts.
Context `{hci_h} `{libusb_h}.

Lemma OpenDevice_trace_no_thread d :
  Forall (fun c => starts_thread c = false) (OpenDevice_trace d).
Proof.
  unfold OpenDevice_trace.
  repeat match goal with
         | |- context [if ?c then _ else _] => destruct c
         end; repeat constructor.
Qed.

Lemma Open_trace_no_thread c devices :
  Forall (fun c => starts_thread c = false) (Open_trace c devices).
Proof.
  unfold Open_trace. repeat (apply Forall_cons; split; [reflexivity|]).
  apply Forall_app. split; [|repeat constructor].
  induction devices as [|d devices IH]; [constructor|].
  cbn [Open_loop_trace]. repeat (apply Forall_cons; split; [reflexivity|]).
  destruct (active_config_descriptor d); [|exact IH].
  destruct (selected c d); [|constructor; [reflexivity|exact IH]].
  apply Forall_app. split; [apply OpenDevice_trace_no_thread|].
  destruct (claimed d); [repeat constructor|].
  constructor; [reflexivity|exact IH].
Qed.

(** X25. When no device of the list is both selected and opened by
    [libusb_open], and no handle was held, [Open] fails with IPC_ENOENT: it
    alerts the operator and queues the stop of the emulation as its last
    two calls, starts no transfer thread, and leaves the object, the handle
    and the active flag as they were. An empty list is such a list. *)
Theorem Open_without_usable_device (devices : list libusb_device)
    (ss : Session) :
  m_handle ss = None ->
  Forall (fun d => selected (config ss) d = false \/ open_result d <> 0)
    devices ->
  exists ss' t,
    Open devices ss =
      Done (IPC_ENOENT, ss',
            t ++
            [of_object
               (PanicAlertT
                  "Bluetooth passthrough mode is enabled, but no usable Bluetooth USB device was found. Aborting.");
             QueueHostJob_Stop]) /\
    Forall (fun c => starts_thread c = false) t /\
    m_handle ss' = None /\
    object ss' = object ss /\
    m_is_active ss' = m_is_active ss /\
    m_thread_running ss' = m_thread_running ss.
Proof.
  intros Hh Hall.
  destruct (Open_loop_state_not_opened devices ss Hall) as [Eh Eo].
  destruct (Open_loop_state_frame devices ss) as (_ & Ea & Er).
  rewrite Open_eq. cbv zeta.
  rewrite bool_decide_eq_true_2 by congruence.
  eexists _, _. split; [reflexivity|].
  split; [apply Open_trace_no_thread|].
  repeat split; congruence.
Qed.

(** X26. [Open] takes the first device of the list that is selected and
    that [OpenDevice] opens, detaches and claims: it succeeds, holds the
    handle of that device, records whether the device is the first-party
    module (vendor 0x57e, product 0x305), is active with the transfer
    thread running, and does the same whatever devices come later in the
    list. *)
Theorem Open_takes_first_usable_device (pre : list libusb_device)
    (d : libusb_device) (ss : Session) :
  Forall (fun d' => selected (config ss) d' && claimed d' = false) pre ->
  selected (config ss) d = true ->
  claimed d = true ->
  exists ss' t,
    (forall post, Open (pre ++ d :: post) ss = Done (IPC_SUCCESS, ss', t)) /\
    m_handle ss' = Some d /\
    m_device ss' = Some d /\
    m_is_wii_bt_module (object ss') =
      (idVendor (device_descriptor d) =? 0x57e) &&
      (idProduct (device_descriptor d) =? 0x305) /\
    m_is_active ss' = true /\
    m_thread_running ss' = true.
Proof.
  intros Hall Hs Hc.
  assert (Est : forall post,
    Open_loop_state (pre ++ d :: post) ss = found d (Open_loop_state pre ss)).
  { intros post. rewrite Open_loop_state_app by exact Hall.
    cbn [Open_loop_state].
    destruct (Open_loop_state_frame pre ss) as (-> & _).
    rewrite Hs, Hc. reflexivity. }
  exists (set_is_active true
            (set_thread_running true (found d (Open_loop_state pre ss)))),
         (Open_trace (config ss) (pre ++ [d]) ++
          if m_thread_running ss then [] else [thread_start]).
  split; [|repeat split].
  intros post. rewrite Open_eq. cbv zeta. rewrite Est.
  rewrite bool_decide_eq_false_2 by discriminate.
  destruct (Open_loop_state_frame pre ss) as (_ & _ & Er).
  simpl m_thread_running. rewrite Er.
  unfold Open_trace.
  rewrite (Open_loop_trace_found (config ss) pre d post []) by assumption.
  rewrite !length_app. simpl length.
  replace (0 <? Z.of_nat (length pre + S (length post))) with true
    by (symmetry; apply Z.ltb_lt; lia).
  replace (0 <? Z.of_nat (length pre + 1)) with true
    by (symmetry; apply Z.ltb_lt; lia).
  reflexivity.
Qed.

(** X27. A handle that [libusb_open] gave stays in the object when the
    kernel driver cannot be detached or the interface cannot be claimed.
    When such a device is the last one opened and no device of the list is
    usable, [Open] does not fail: it returns success with that unclaimed
    handle, the transfer thread running, and the adapter's identity never
    recorded. *)
Theorem Open_succeeds_with_unclaimed_handle (pre post : list libusb_device)
    (d : libusb_device) (ss : Session) :
  Forall (fun d' => selected (config ss) d' && claimed d' = false) pre ->
  selected (config ss) d = true ->
  open_result d = 0 ->
  claimed d = false ->
  Forall (fun d' => selected (config ss) d' = false \/ open_result d' <> 0)
    post ->
  exists ss' t,
    Open (pre ++ d :: post) ss = Done (IPC_SUCCESS, ss', t) /\
    m_handle ss' = Some d /\
    object ss' = object ss /\
    m_is_active ss' = true /\
    m_thread_running ss' = true.
Proof.
  intros Hpre Hs Ho Hc Hpost.
  set (ss1 := Open_loop_state pre ss).
  assert (Ec1 : config ss1 = config ss)
    by apply (Open_loop_state_frame pre ss).
  assert (Est : Open_loop_state (pre ++ d :: post) ss =
                Open_loop_state post (OpenDevice_state d ss1)).
  { rewrite Open_loop_state_app by exact Hpre. cbn [Open_loop_state].
    fold ss1. rewrite Ec1, Hs, Hc. reflexivity. }
  assert (Eod : OpenDevice_state d ss1 =
                set_handle (Some d) (set_device (Some d) ss1)).
  { unfold OpenDevice_state. rewrite Ho. reflexivity. }
  destruct (Open_loop_state_not_opened post (OpenDevice_state d ss1))
    as [Eh Eo].
  { rewrite OpenDevice_state_config, Ec1. exact Hpost. }
  rewrite Open_eq. cbv zeta. rewrite Est.
  rewrite bool_decide_eq_false_2
    by (rewrite Eh, Eod; discriminate).
  eexists _, _. split; [reflexivity|].
  repeat split.
  - simpl. rewrite Eh, Eod. reflexivity.
  - simpl. rewrite Eo, Eod. simpl.
    apply (Open_loop_state_not_claimed pre ss Hpre).
Qed.

End OpenFacts.

(** Devices and a session to evaluate with: a hub, a third-party Bluetooth
    adapter, the first-party module with its interface already claimed by
    someone else, no override in the configuration, nothing opened. *)
Definition example_hub : libusb_device :=
  mk_device (mk_device_descriptor 0x1d6b 0x0002 1 2 3)
    (Some (mk_interface_descriptor 0x09 0 0)) 0 0 0.
Definition example_adapter : libusb_device :=
  mk_device (mk_device_descriptor 0x0a12 0x0001 1 2 3)
    (Some (mk_interface_descriptor 0xe0 1 1)) 0 0 0.
Definition example_busy_module : libusb_device :=
  mk_device (mk_device_descriptor 0x057e 0x0305 1 2 3)
    (Some (mk_interface_descriptor 0xe0 1 1)) 0 0 (-6).
Definition example_config : SConfig := mkSConfig (-1) (-1) "".
Definition example_session : Session :=
  mkSession example_device None None false false example_config.

Lemma Open_without_usable_device_witness :
  exists ss' t,
    @Open libusb_std [example_hub] example_session =
      Done (IPC_ENOENT, ss',
            t ++
            [of_object
               (PanicAlertT
                  "Bluetooth passthrough mode is enabled, but no usable Bluetooth USB device was found. Aborting.");
             QueueHostJob_Stop]) /\
    Forall (fun c => starts_thread c = false) t /\
    m_handle ss' = None /\
    object ss' = object example_session /\
    m_is_active ss' = m_is_active example_session /\
    m_thread_running ss' = m_thread_running example_session.
Proof.
  apply (@Open_without_usable_device libusb_std [example_hub]
           example_session).
  - reflexivity.
  - repeat constructor.
Defined.

Lemma Open_takes_first_usable_device_witness :
  exists ss' t,
    (forall post,
       @Open libusb_std
         ([example_hub; example_busy_module] ++ example_adapter :: post)
         example_session = Done (IPC_SUCCESS, ss', t)) /\
    m_handle ss' = Some example_adapter /\
    m_device ss' = Some example_adapter /\
    m_is_wii_bt_module (object ss') =
      (idVendor (device_descriptor example_adapter) =? 0x57e) &&
      (idProduct (device_descriptor example_adapter) =? 0x305) /\
    m_is_active ss' = true /\
    m_thread_running ss' = true.
Proof.
  apply (@Open_takes_first_usable_device libusb_std
           [example_hub; example_busy_module] example_adapter
           example_session).
  - repeat constructor.
  - reflexivity.
  - reflexivity.
Defined.

Lemma Open_succeeds_with_unclaimed_handle_witness :
  exists ss' t,
    @Open libusb_std
      ([example_hub] ++ example_busy_module :: [example_hub])
      example_session = Done (IPC_SUCCESS, ss', t) /\
    m_handle ss' = Some example_busy_module /\
    object ss' = object example_session /\
    m_is_active ss' = true /\
    m_thread_running ss' = true.
Proof.
  apply (@Open_succeeds_with_unclaimed_handle libusb_std
           [example_hub] [example_hub] example_busy_module example_session).
  - repeat constructor.
  - reflexivity.
  - reflexivity.
  - reflexivity.
  - repeat constructor.
Defined.

(** ** Closing the session *)

Lemma LoadLinkKeys_of_saved (uppercase : bool) (u : nat -> uninitialized)
    (keys : gmap (list byte) (list byte)) :
  (forall i, length (uninitialized_address (u i)) = 6%nat) ->
  (forall i, length (uninitialized_key (u i)) = 16%nat) ->
  map_Forall (fun addr key => length addr = 6%nat /\ length key = 16%nat) keys ->
  LoadLinkKeys u (SaveLinkKeys uppercase keys) ∅ = Some keys.
Proof.
  intros Hua Huk Hlen. unfold SaveLinkKeys.
  pose proof (entries_Permutation keys) as Hperm.
  destruct (entries keys) as [|e es] eqn:Ees.
  - symmetry in Hperm. apply Permutation_nil_r in Hperm.
    apply map_to_list_empty_iff in Hperm as ->. reflexivity.
  - rewrite (LoadLinkKeys_forms u Hua Huk _ (Some <$> (e :: es))).
    + assert (Hid : forall l : list (list byte * list byte),
                omap id (Some <$> l) = l).
      { induction l as [|x l IHl]; [reflexivity|].
        simpl. f_equal. exact IHl. }
      rewrite Hid, foldl_upsert_list_to_map.
      * f_equal. symmetry. apply list_to_map_flip. now symmetry.
      * rewrite Hperm. apply NoDup_fst_map_to_list.
    + rewrite SplitString_saved by discriminate.
      apply Forall2_fmap, Forall_Forall2_diag, Forall_forall.
      intros [addr key] Hin. simpl.
      assert (Hin' : (addr, key) ∈ map_to_list keys)
        by (rewrite <- Hperm; exact Hin).
      apply elem_of_map_to_list in Hin'.
      destruct (Hlen _ _ Hin') as [Ha Hk].
      now apply entry_well_formed.
Qed.

Section Teardown.
Context `{hci_h} `{libusb_h}.
Variable uppercase : bool.
Variable u : nat -> uninitialized.

(** What [StopTransferThread] calls. *)
Definition StopTransferThread_trace (ss : Session) : list host_call :=
  if m_thread_running ss then [libusb_close (m_handle ss); thread_join]
  else [].

Lemma StopTransferThread_eq ss :
  StopTransferThread ss =
    Done (tt, set_thread_running false ss, StopTransferThread_trace ss).
Proof.
  unfold StopTransferThread, StopTransferThread_trace.
  rewrite hbind_hget. destruct (m_thread_running ss) eqn:Er.
  - reflexivity.
  - unfold hret. destruct ss; simpl in Er; subst; reflexivity.
Qed.

Lemma destructor_closed ss :
  m_handle ss = None ->
  destructor uppercase ss =
    Done (tt,
          set_config
            (set_bt_passthrough_link_keys
               (SaveLinkKeys uppercase (s_link_keys (object ss))) (config ss))
            ss,
          [libusb_exit]).
Proof.
  intros Hh. unfold destructor. rewrite hbind_hget, Hh.
  rewrite bool_decide_eq_false_2 by (intros Hn; apply Hn; reflexivity).
  rewrite hbind_hret. reflexivity.
Qed.

(** X28. [Close] on an open session releases the interface, stops the
    transfer thread if it runs (closing the handle, then joining), and
    drops the device, in this order; it sends nothing to the adapter and
    leaves the object as it is. Afterwards the session holds no handle and
    is not active, a second [Close] makes no call at all, and the
    destructor only leaves libusb and saves the keys: no reset command is
    sent to an adapter that was closed. *)
Theorem Close_releases_once (ss : Session) (d : libusb_device) :
  m_handle ss = Some d ->
  exists ss',
    Close ss =
      Done (tt, ss',
            [libusb_release_interface (Some d) 0] ++
            StopTransferThread_trace ss ++
            [libusb_unref_device (m_device ss)]) /\
    m_handle ss' = None /\
    m_is_active ss' = false /\
    m_thread_running ss' = false /\
    object ss' = object ss /\
    Close ss' = Done (tt, ss', []) /\
    exists ss'', destructor uppercase ss' = Done (tt, ss'', [libusb_exit]).
Proof.
  intros Hh.
  exists (set_is_active false (set_handle None (set_thread_running false ss))).
  split.
  { unfold Close. rewrite hbind_hget, Hh.
    rewrite bool_decide_eq_true_2 by discriminate.
    unfold StopTransferThread, StopTransferThread_trace.
    unfold hbind, hget, hmodify, hemit, hret. rewrite Hh.
    destruct (m_thread_running ss) eqn:Er; simpl; [reflexivity|].
    destruct ss; simpl in *; subst; reflexivity. }
  do 5 (split; [reflexivity|]).
  eexists. apply destructor_closed. reflexivity.
Qed.

(** X29. The destructor resets the adapter only if the session still holds
    a handle: then the reset command is its first call, followed by at most
    a hundred polls for the command-complete event, and only then are the
    interface released, the thread stopped and the device dropped. With no
    handle it makes no call to the adapter. In both cases it leaves libusb
    last and saves the store to the configuration. *)
Theorem destructor_resets_open_adapter (ss : Session) :
  exists ss',
    m_bt_passthrough_link_keys (config ss') =
      SaveLinkKeys uppercase (s_link_keys (object ss)) /\
    match m_handle ss with
    | Some d =>
        exists k, (k <= 100)%nat /\
          destructor uppercase ss =
            Done (tt, ss',
                  [of_object
                     (libusb_control_transfer (le16 HCI_CMD_RESET ++ [x00]))] ++
                  replicate k (of_object libusb_interrupt_transfer) ++
                  [libusb_release_interface (Some d) 0] ++
                  StopTransferThread_trace ss ++
                  [libusb_unref_device (m_device ss); libusb_exit])
    | None => destructor uppercase ss = Done (tt, ss', [libusb_exit])
    end.
Proof.
  destruct (m_handle ss) as [d|] eqn:Hh.
  - destruct (WaitForHCICommandComplete_spec HCI_CMD_RESET (object ss))
      as (k & Hk & Ew).
    set (o1 := set_adapter_events (drop k (adapter_events (object ss)))
                 (object ss)) in *.
    set (ss1 := set_object o1 (set_object (object ss) ss)).
    assert (E1 : call_object SendHCIResetCommand ss =
                 Done (tt, set_object (object ss) ss,
                       [of_object
                          (libusb_control_transfer
                             (le16 HCI_CMD_RESET ++ [x00]))]))
      by reflexivity.
    assert (E2 : call_object (WaitForHCICommandComplete HCI_CMD_RESET)
                   (set_object (object ss) ss) =
                 Done (tt, ss1,
                       replicate k (of_object libusb_interrupt_transfer))).
    { unfold call_object. simpl object. rewrite Ew.
      rewrite fmap_replicate. reflexivity. }
    assert (E3 : StopTransferThread ss1 =
                 Done (tt, set_thread_running false ss1,
                       StopTransferThread_trace ss))
      by (rewrite StopTransferThread_eq; reflexivity).
    exists (set_config
              (set_bt_passthrough_link_keys
                 (SaveLinkKeys uppercase (s_link_keys (object ss)))
                 (config ss))
              (set_thread_running false ss1)).
    split; [reflexivity|]. exists k. split; [exact Hk|].
    unfold destructor. rewrite hbind_hget, Hh.
    rewrite bool_decide_eq_true_2 by discriminate.
    rewrite (hbind_Done _ _ ss tt (set_thread_running false ss1)
               ([of_object
                   (libusb_control_transfer (le16 HCI_CMD_RESET ++ [x00]))] ++
                replicate k (of_object libusb_interrupt_transfer) ++
                [libusb_release_interface (Some d) 0] ++
                StopTransferThread_trace ss ++
                [libusb_unref_device (m_device ss)])).
    + unfold hbind, hemit, hmodify. cbv beta iota.
      rewrite <- !app_assoc. reflexivity.
    + rewrite (hbind_Done _ _ _ _ _ _ E1).
      rewrite (hbind_Done _ _ _ _ _ _ E2).
      rewrite hbind_hemit.
      rewrite (hbind_Done _ _ _ _ _ _ E3).
      unfold hemit. simpl. reflexivity.
  - eexists. split; [|apply destructor_closed, Hh]. reflexivity.
Qed.

(** X30. A session that is constructed over an empty store and destroyed
    without having been opened leaves the configuration as it found it, if
    the text of the keys is what a session saved: the constructor loads
    every entry of the text, and the destructor writes the same text. *)
Theorem session_keeps_saved_configuration (init_result : Z)
    (keys : gmap (list byte) (list byte)) (ss : Session) :
  (forall i, length (uninitialized_address (u i)) = 6%nat) ->
  (forall i, length (uninitialized_key (u i)) = 16%nat) ->
  map_Forall (fun addr key => length addr = 6%nat /\ length key = 16%nat) keys ->
  m_bt_passthrough_link_keys (config ss) = SaveLinkKeys uppercase keys ->
  s_link_keys (object ss) = ∅ ->
  m_handle ss = None ->
  exists ss1 t1 ss2,
    constructor u init_result ss = Done (tt, ss1, t1) /\
    s_link_keys (object ss1) = keys /\
    destructor uppercase ss1 = Done (tt, ss2, [libusb_exit]) /\
    config ss2 = config ss.
Proof.
  intros Hua Huk Hlen Htext Hempty Hh.
  assert (Ec : constructor u init_result ss =
               Done (tt, set_object (set_link_keys keys (object ss)) ss,
                     [libusb_init;
                      assert_msg (init_result =? 0) "Failed to init libusb."])).
  { assert (El : LoadLinkKeys u (m_bt_passthrough_link_keys (config ss))
                    (s_link_keys (object ss)) = Some keys).
    { rewrite Htext, Hempty. apply LoadLinkKeys_of_saved; assumption. }
    unfold constructor, hbind, hemit, hget, hmodify. cbv beta iota.
    rewrite El. reflexivity. }
  eexists _, _, _. split; [exact Ec|].
  split; [reflexivity|]. split.
  - apply destructor_closed. exact Hh.
  - simpl. rewrite <- Htext. destruct (config ss); reflexivity.
Qed.

End Teardown.

Definition example_open_session : Session :=
  mkSession example_device (Some example_adapter) (Some example_adapter)
    true true example_config.

Lemma Close_releases_once_witness :
  exists ss',
    Close example_open_session =
      Done (tt, ss',
            [libusb_release_interface (Some example_adapter) 0] ++
            StopTransferThread_trace example_open_session ++
            [libusb_unref_device (m_device example_open_session)]) /\
    m_handle ss' = None /\
    m_is_active ss' = false /\
    m_thread_running ss' = false /\
    object ss' = object example_open_session /\
    Close ss' = Done (tt, ss', []) /\
    exists ss'', @destructor hci_std true ss' = Done (tt, ss'', [libusb_exit]).
Proof.
  apply (@Close_releases_once hci_std true example_open_session
           example_adapter).
  reflexivity.
Defined.

Lemma session_keeps_saved_configuration_witness :
  let ss := mkSession example_device None None false false
              (mkSConfig (-1) (-1) (SaveLinkKeys true example_keys)) in
  exists ss1 t1 ss2,
    constructor example_uninitialized 0 ss = Done (tt, ss1, t1) /\
    s_link_keys (object ss1) = example_keys /\
    @destructor hci_std true ss1 = Done (tt, ss2, [libusb_exit]) /\
    config ss2 = config ss.
Proof.
  intros ss.
  apply (@session_keeps_saved_configuration hci_std true
           example_uninitialized 0 example_keys ss).
  - intros i. reflexivity.
  - intros i. reflexivity.
  - apply map_Forall_insert_2; [split; reflexivity|].
    apply map_Forall_insert_2; [split; reflexivity|].
    apply map_Forall_empty.
  - reflexivity.
  - reflexivity.
  - reflexivity.
Defined.
